(** * Seasonal thermal energy storage (STES.py): a shallow embedding

    The embedding follows [currently_not_used/STES/STES.py], class
    [ThermalStorage].

    Numbers.  The program computes with IEEE doubles.  Here a finite double is
    idealised as a real number (no rounding, no overflow), so [3.6e6] is the
    real [3600000], [0.37] is [37/100], [0.52] is [52/100], [np.pi] is [PI],
    [np.log] is [ln] and [np.sqrt] is [sqrt].
    The one non-real value that the program produces from real inputs is
    numpy's [nan]: storing Python's [None] into a float64 array converts it to
    [nan] (numpy's DOUBLE_setitem), and [calculate_heat_loss] returns [None]
    when no branch of its dispatch matches.  Array cells are therefore values
    of [float], a real or [NaN]; arithmetic propagates [NaN] and every
    comparison with [NaN] is false, as in IEEE arithmetic.  Division by zero
    is not modelled (it is [x / 0] of the reals); statements that depend on a
    quotient assume its denominator is not zero.

    State.  Methods mutate the object in place.  A method is a function from
    the object to an [outcome]: the returned value or the raised exception,
    each with the object as the method left it.

    Libraries.  The constructor, the three geometries, both heat-loss
    methods, both simulators, the operational costs and the efficiency are
    embedded in full.  Of [optimize_storage_geometry] the objective function
    is embedded, not scipy's minimiser.  Of
    [plot_3d_temperature_distribution] the control flow is embedded; what
    matplotlib draws is left open.  [plot_results] and the functions of the
    interactive plot only drive matplotlib and are not embedded. *)

From Stdlib Require Import String Reals Lra Lia List Bool ZArith.
Import ListNotations.

Open Scope R_scope.

(* ===================================================================== *)
(** ** Floats: reals and NaN *)

Inductive float : Type :=
| Fin (r : R)
| NaN.

Coercion Fin : R >-> float.

Definition lift1 (f : R -> R) (x : float) : float :=
  match x with
  | Fin a => Fin (f a)
  | NaN => NaN
  end.

Definition lift2 (f : R -> R -> R) (x y : float) : float :=
  match x, y with
  | Fin a, Fin b => Fin (f a b)
  | _, _ => NaN
  end.

Definition Rltb (a b : R) : bool := if Rlt_dec a b then true else false.
Definition Rleb (a b : R) : bool := if Rle_dec a b then true else false.

Definition fadd : float -> float -> float := lift2 Rplus.
Definition fsub : float -> float -> float := lift2 Rminus.
Definition fmul : float -> float -> float := lift2 Rmult.
Definition fdiv : float -> float -> float := lift2 Rdiv.
Definition fabs : float -> float := lift1 Rabs.

Definition flt (x y : float) : bool :=
  match x, y with
  | Fin a, Fin b => Rltb a b
  | _, _ => false
  end.

Definition fle (x y : float) : bool :=
  match x, y with
  | Fin a, Fin b => Rleb a b
  | _, _ => false
  end.

Definition fgt (x y : float) : bool := flt y x.
Definition fge (x y : float) : bool := fle y x.

Declare Scope float_scope.
Delimit Scope float_scope with fl.
Bind Scope float_scope with float.
Infix "+" := fadd : float_scope.
Infix "-" := fsub : float_scope.
Infix "*" := fmul : float_scope.
Infix "/" := fdiv : float_scope.
Infix "<?" := flt (at level 70, no associativity) : float_scope.
Infix ">?" := fgt (at level 70, no associativity) : float_scope.
Infix ">=?" := fge (at level 70, no associativity) : float_scope.

(* ===================================================================== *)
(** ** Arrays *)

(** [np.zeros(n)] *)
Definition np_zeros (n : nat) : list float := repeat (Fin 0) n.

(** [np.full((rows, cols), v)] *)
Definition np_full (rows cols : nat) (v : float) : list (list float) :=
  repeat (repeat v cols) rows.

(** [np.sum(a)] of a one-dimensional array *)
Definition np_sum (a : list float) : float := fold_left fadd a (Fin 0).

(** [np.average(a)] *)
Definition np_average (a : list float) : float :=
  (np_sum a / Fin (INR (length a)))%fl.

(** [a[i] = v] for an index in range; the callers establish the range. *)
Fixpoint update {A : Type} (a : list A) (i : nat) (v : A) : list A :=
  match a, i with
  | [], _ => []
  | _ :: a', O => v :: a'
  | x :: a', S i' => x :: update a' i' v
  end.

(** Python indexing [a[i]] with an integer that may be negative: a negative
    index counts from the end; [None] stands for IndexError. *)
Definition py_get {A : Type} (a : list A) (i : Z) : option A :=
  if (i <? 0)%Z
  then (if (i + Z.of_nat (length a) <? 0)%Z then None
        else nth_error a (Z.to_nat (i + Z.of_nat (length a))))
  else nth_error a (Z.to_nat i).

(** [a[i]] for a loop index over the array's own length. *)
Definition get (a : list float) (i : nat) : float := nth i a NaN.

(* ===================================================================== *)
(** ** Exceptions and results *)

Inductive exn : Type :=
| ValueError (msg : string)
| IndexError
| ZeroDivisionError.

Inductive result (A : Type) : Type :=
| Ok (a : A)
| Err (e : exn).
Arguments Ok {A} a.
Arguments Err {A} e.

Definition rbind {A B : Type} (r : result A) (k : A -> result B) : result B :=
  match r with
  | Ok a => k a
  | Err e => Err e
  end.

Definition index {A : Type} (a : list A) (i : nat) : result A :=
  match nth_error a i with
  | Some x => Ok x
  | None => Err IndexError
  end.

Definition index_py {A : Type} (a : list A) (i : Z) : result A :=
  match py_get a i with
  | Some x => Ok x
  | None => Err IndexError
  end.

(* ===================================================================== *)
(** ** The object *)

Record ThermalStorage : Type := mkThermalStorage {
  storage_type : string;
  dimensions : list R;
  rho : R;
  cp : R;
  T_ref : R;
  lambda_top : R;
  lambda_side : R;
  lambda_bottom : R;
  lambda_soil : R;
  T_amb : R;
  T_soil : R;
  T_max : R;
  T_min : R;
  dt_top : R;
  ds_side : R;
  db_bottom : R;
  hours : nat;
  num_layers : nat;
  thermal_conductivity : R;
  Q_sto : list float;
  Q_loss : list float;
  T_sto : list float;
  volume : R;
  S_top : R;
  S_side : R;
  S_bottom : R;
  (* attributes that the stratified methods create *)
  Q_loss_layers : list float;
  T_sto_layers : list (list float)
}.

Definition set_Q_sto (v : list float) (s : ThermalStorage) : ThermalStorage :=
  mkThermalStorage (storage_type s) (dimensions s) (rho s) (cp s) (T_ref s)
    (lambda_top s) (lambda_side s) (lambda_bottom s) (lambda_soil s)
    (T_amb s) (T_soil s) (T_max s) (T_min s) (dt_top s) (ds_side s)
    (db_bottom s) (hours s) (num_layers s) (thermal_conductivity s)
    v (Q_loss s) (T_sto s)
    (volume s) (S_top s) (S_side s) (S_bottom s)
    (Q_loss_layers s) (T_sto_layers s).

Definition set_Q_loss (v : list float) (s : ThermalStorage) : ThermalStorage :=
  mkThermalStorage (storage_type s) (dimensions s) (rho s) (cp s) (T_ref s)
    (lambda_top s) (lambda_side s) (lambda_bottom s) (lambda_soil s)
    (T_amb s) (T_soil s) (T_max s) (T_min s) (dt_top s) (ds_side s)
    (db_bottom s) (hours s) (num_layers s) (thermal_conductivity s)
    (Q_sto s) v (T_sto s)
    (volume s) (S_top s) (S_side s) (S_bottom s)
    (Q_loss_layers s) (T_sto_layers s).

Definition set_T_sto (v : list float) (s : ThermalStorage) : ThermalStorage :=
  mkThermalStorage (storage_type s) (dimensions s) (rho s) (cp s) (T_ref s)
    (lambda_top s) (lambda_side s) (lambda_bottom s) (lambda_soil s)
    (T_amb s) (T_soil s) (T_max s) (T_min s) (dt_top s) (ds_side s)
    (db_bottom s) (hours s) (num_layers s) (thermal_conductivity s)
    (Q_sto s) (Q_loss s) v
    (volume s) (S_top s) (S_side s) (S_bottom s)
    (Q_loss_layers s) (T_sto_layers s).

Definition set_Q_loss_layers (v : list float) (s : ThermalStorage)
  : ThermalStorage :=
  mkThermalStorage (storage_type s) (dimensions s) (rho s) (cp s) (T_ref s)
    (lambda_top s) (lambda_side s) (lambda_bottom s) (lambda_soil s)
    (T_amb s) (T_soil s) (T_max s) (T_min s) (dt_top s) (ds_side s)
    (db_bottom s) (hours s) (num_layers s) (thermal_conductivity s)
    (Q_sto s) (Q_loss s) (T_sto s)
    (volume s) (S_top s) (S_side s) (S_bottom s)
    v (T_sto_layers s).

Definition set_T_sto_layers (v : list (list float)) (s : ThermalStorage)
  : ThermalStorage :=
  mkThermalStorage (storage_type s) (dimensions s) (rho s) (cp s) (T_ref s)
    (lambda_top s) (lambda_side s) (lambda_bottom s) (lambda_soil s)
    (T_amb s) (T_soil s) (T_max s) (T_min s) (dt_top s) (ds_side s)
    (db_bottom s) (hours s) (num_layers s) (thermal_conductivity s)
    (Q_sto s) (Q_loss s) (T_sto s)
    (volume s) (S_top s) (S_side s) (S_bottom s)
    (Q_loss_layers s) v.

(** What a method call leaves behind. *)
Inductive outcome (A : Type) : Type :=
| Return (a : A) (s : ThermalStorage)
| Raise (e : exn) (s : ThermalStorage).
Arguments Return {A} a s.
Arguments Raise {A} e s.

Definition M (A : Type) : Type := ThermalStorage -> outcome A.

Definition ret {A : Type} (a : A) : M A := fun s => Return a s.
Definition raise {A : Type} (e : exn) : M A := fun s => Raise e s.
Definition bind {A B : Type} (m : M A) (k : A -> M B) : M B :=
  fun s =>
    match m s with
    | Return a s' => k a s'
    | Raise e s' => Raise e s'
    end.
Definition read {A : Type} (f : ThermalStorage -> A) : M A :=
  fun s => Return (f s) s.
Definition modify (f : ThermalStorage -> ThermalStorage) : M unit :=
  fun s => Return tt (f s).
Definition lift_result {A : Type} (r : result A) : M A :=
  fun s =>
    match r with
    | Ok a => Return a s
    | Err e => Raise e s
    end.

Declare Scope py_scope.
Delimit Scope py_scope with py.
Notation "x <- m ;; k" := (bind m (fun x => k))
  (at level 61, m at next level, right associativity) : py_scope.
Notation "m ;; k" := (bind m (fun _ => k))
  (at level 61, right associativity) : py_scope.
Notation "x <~ r ;; k" := (rbind r (fun x => k))
  (at level 61, r at next level, right associativity) : py_scope.

(** [for t in ts: acc = body(t, acc)], stopping at the first exception. *)
Fixpoint for_each {S : Type} (body : nat -> S -> M S) (ts : list nat) (acc : S)
  : M S :=
  match ts with
  | [] => ret acc
  | t :: ts' => bind (body t acc) (fun acc' => for_each body ts' acc')
  end.

(** [range(n)] *)
Definition range (n : nat) : list nat := seq 0 n.

(* ===================================================================== *)
(** ** Geometry *)

Definition geometry : Type := (R * R * R * R)%type.

Definition str_eq (a b : string) : bool := String.eqb a b.

Definition unpack_error : exn := ValueError "wrong number of values to unpack".

Definition calculate_cylindrical_geometry (dimensions : list R)
  : result geometry :=
  match dimensions with
  | [radius; height] =>
      let volume := PI * radius ^ 2 * height in
      let S_top := PI * radius ^ 2 in
      let S_side := 2 * PI * radius * height in
      Ok (volume, S_top, S_side, S_top)
  | _ => Err unpack_error
  end.

Definition calculate_truncated_cone_geometry (dimensions : list R)
  : result geometry :=
  match dimensions with
  | [top_radius; bottom_radius; height] =>
      let volume :=
        (1 / 3) * PI * height
        * (top_radius ^ 2 + bottom_radius ^ 2 + top_radius * bottom_radius) in
      let S_top := PI * top_radius ^ 2 in
      let S_bottom := PI * bottom_radius ^ 2 in
      let slant_height := sqrt ((top_radius - bottom_radius) ^ 2 + height ^ 2) in
      let S_side := PI * (top_radius + bottom_radius) * slant_height in
      Ok (volume, S_top, S_side, S_bottom)
  | _ => Err unpack_error
  end.

Definition calculate_truncated_trapezoid_geometry (dimensions : list R)
  : result geometry :=
  match dimensions with
  | [top_length; top_width; bottom_length; bottom_width; height] =>
      let A_top := top_length * top_width in
      let A_bottom := bottom_length * bottom_width in
      let volume :=
        (1 / 3) * height * (A_top + A_bottom + sqrt (A_top * A_bottom)) in
      let side_length := sqrt ((top_length - bottom_length) ^ 2 + height ^ 2) in
      let side_width := sqrt ((top_width - bottom_width) ^ 2 + height ^ 2) in
      let S_side_length := (top_length + bottom_length) * side_length / 2 in
      let S_side_width := (top_width + bottom_width) * side_width / 2 in
      let S_top := top_length * top_width in
      let S_bottom := bottom_length * bottom_width in
      let S_side := 2 * (S_side_length + S_side_width) in
      Ok (volume, S_top, S_side, S_bottom)
  | _ => Err unpack_error
  end.

(** The dispatch of [__init__] (lines 161-169): the geometry of a storage
    type, or [ValueError]. *)
Definition compute_geometry (storage_type : string) (dimensions : list R)
  : result geometry :=
  if str_eq storage_type "cylindrical"
  then calculate_cylindrical_geometry dimensions
  else if str_eq storage_type "truncated_cone"
  then calculate_truncated_cone_geometry dimensions
  else if str_eq storage_type "truncated_trapezoid"
  then calculate_truncated_trapezoid_geometry dimensions
  else Err (ValueError "Unsupported storage type").

(** The keyword arguments of [ThermalStorage(...)]. *)
Module Params.
Record t : Type := mk {
  storage_type : string;
  dimensions : list R;
  rho : R;
  cp : R;
  T_ref : R;
  lambda_top : R;
  lambda_side : R;
  lambda_bottom : R;
  lambda_soil : R;
  T_amb : R;
  T_soil : R;
  T_max : R;
  T_min : R;
  initial_temp : R;
  dt_top : R;
  ds_side : R;
  db_bottom : R;
  hours : nat;
  num_layers : nat;
  thermal_conductivity : R
}.
End Params.

(** [ThermalStorage.__init__] *)
Definition __init__ (p : Params.t) : result ThermalStorage :=
  let Q_sto := np_zeros (Params.hours p) in
  let Q_loss := np_zeros (Params.hours p) in
  let T_sto := np_zeros (Params.hours p) in
  (* self.T_sto[0] = initial_temp *)
  match T_sto with
  | [] => Err IndexError
  | _ :: _ =>
      let T_sto := update T_sto 0 (Fin (Params.initial_temp p)) in
      match compute_geometry (Params.storage_type p) (Params.dimensions p) with
      | Err e => Err e
      | Ok (volume, S_top, S_side, S_bottom) =>
          Ok (mkThermalStorage
                (Params.storage_type p) (Params.dimensions p) (Params.rho p)
                (Params.cp p) (Params.T_ref p) (Params.lambda_top p)
                (Params.lambda_side p) (Params.lambda_bottom p)
                (Params.lambda_soil p) (Params.T_amb p) (Params.T_soil p)
                (Params.T_max p) (Params.T_min p) (Params.dt_top p)
                (Params.ds_side p) (Params.db_bottom p) (Params.hours p)
                (Params.num_layers p) (Params.thermal_conductivity p)
                Q_sto Q_loss T_sto volume S_top S_side S_bottom [] [])
      end
  end.

(* ===================================================================== *)
(** ** Reading and writing the object's arrays *)

(** [a[i] = v]: IndexError outside the array. *)
Definition store {A : Type} (a : list A) (i : nat) (v : A) : result (list A) :=
  if (i <? length a)%nat then Ok (update a i v) else Err IndexError.

(** [self.<array>[i]] *)
Definition getitem {A : Type} (field : ThermalStorage -> list A) (i : Z)
  : M A :=
  fun self => lift_result (index_py (field self) i) self.

(** [self.<array>[i] = v] *)
Definition setitem {A : Type} (field : ThermalStorage -> list A)
    (set_field : list A -> ThermalStorage -> ThermalStorage) (i : nat) (v : A)
  : M unit :=
  fun self =>
    match store (field self) i v with
    | Ok a => Return tt (set_field a self)
    | Err e => Raise e self
    end.

(** numpy's conversion of the value stored into a float64 cell: [None]
    becomes [nan]. *)
Definition as_float64 (v : option float) : float :=
  match v with
  | Some x => x
  | None => NaN
  end.

(* ===================================================================== *)
(** ** Heat loss, lumped form *)

(** [calculate_heat_loss]: [Ok None] is the implicit [return None] of a call
    that matches no branch. *)
Definition calculate_heat_loss (self : ThermalStorage) (T_sto_last : float)
  : result (option float) :=
  (if str_eq (storage_type self) "cylindrical_overground" then
     let Q_t :=
       ((T_sto_last - T_amb self) * (lambda_top self / dt_top self)
        * S_top self)%fl in
     let Q_s :=
       ((T_sto_last - T_amb self) * (lambda_side self / ds_side self)
        * S_side self)%fl in
     d0 <~ index (dimensions self) 0 ;;
     let Q_b :=
       ((T_sto_last - T_amb self)
        * Fin (/ (db_bottom self / lambda_bottom self
                  + 4 * d0 / (3 * PI * lambda_soil self)))
        * S_bottom self)%fl in
     Ok (Some ((Q_t + Q_s + Q_b) / 1000)%fl)
   else if str_eq (storage_type self) "cylindrical_underground" then
     R <~ index (dimensions self) 0 ;;
     H <~ index (dimensions self) 1 ;;
     let d_min := (lambda_side self / lambda_soil self) * R * (37 / 100) in
     if Rltb (2 * d_min) (ds_side self) then
       let K_sb :=
         / (ds_side self / lambda_side self
            + (52 / 100) * R / lambda_soil self) in
       let S_c := PI * R ^ 2 + 2 * PI * R * H in
       let Q_sb := ((T_sto_last - T_soil self) * K_sb * S_c)%fl in
       Ok (Some (Q_sb / 1000)%fl)
     else
       Err (ValueError
              "Insulation thickness too small compared to minimum required thickness.")
   else if str_eq (storage_type self) "truncated_cone"
           || str_eq (storage_type self) "truncated_trapezoid" then
     H <~ index (dimensions self) 2 ;;
     let a :=
       ds_side self / lambda_side self + PI * H / (2 * lambda_soil self) in
     let b := PI / lambda_soil self in
     let K_s := (1 / (b * H)) * ln ((a + b * H) / a) in
     let Q_s := ((T_sto_last - T_soil self) * K_s * S_side self)%fl in
     let c :=
       db_bottom self / lambda_bottom self
       + PI * H / (2 * lambda_soil self) in
     d1 <~ index (dimensions self) 1 ;;
     let K_b := (1 / (2 * b * d1)) * ln ((c + b * d1) / c) in
     let Q_b := ((T_sto_last - T_soil self) * K_b * S_bottom self)%fl in
     Ok (Some ((Q_s + Q_b) / 1000)%fl)
   else Ok None)%py.

(* ===================================================================== *)
(** ** The single-node simulator *)

(** One iteration of the loop of [simulate]. *)
Definition simulate_step (Q_in Q_out : list R) (t : nat) : M unit :=
  (T_last <- getitem T_sto (Z.of_nat t - 1) ;;
   loss <- (fun self => lift_result (calculate_heat_loss self T_last) self) ;;
   setitem Q_loss set_Q_loss t (as_float64 loss) ;;
   (if (t =? 0)%nat then
      self <- read (fun s => s) ;;
      T_t <- getitem T_sto (Z.of_nat t) ;;
      setitem Q_sto set_Q_sto t
        (volume self * rho self * cp self * (T_t - T_ref self) / 3600000)%fl
    else
      self <- read (fun s => s) ;;
      Q_prev <- getitem Q_sto (Z.of_nat t - 1) ;;
      q_in <- lift_result (index Q_in t) ;;
      q_out <- lift_result (index Q_out t) ;;
      Q_loss_t <- getitem Q_loss (Z.of_nat t) ;;
      setitem Q_sto set_Q_sto t
        (Q_prev + (Fin q_in - Fin q_out - Q_loss_t))%fl ;;
      Q_t <- getitem Q_sto (Z.of_nat t) ;;
      setitem T_sto set_T_sto t
        ((Q_t * 3600000) / (volume self * rho self * cp self) + T_ref self)%fl) ;;
   self <- read (fun s => s) ;;
   T_t <- getitem T_sto (Z.of_nat t) ;;
   if (T_t >? T_max self)%fl then setitem T_sto set_T_sto t (Fin (T_max self))
   else if (T_t <? T_min self)%fl then
          setitem T_sto set_T_sto t (Fin (T_min self))
        else ret tt)%py.

(** [simulate(self, Q_in, Q_out)] *)
Definition simulate (Q_in Q_out : list R) : M unit :=
  fun self =>
    for_each (fun t _ => simulate_step Q_in Q_out t) (range (hours self)) tt
      self.

(** Construct the object, then call [simulate] on it. *)
Definition run_single_node (p : Params.t) (Q_in Q_out : list R)
  : result (outcome unit) :=
  match __init__ p with
  | Ok self => Ok (simulate Q_in Q_out self)
  | Err e => Err e
  end.

(* ===================================================================== *)
(** ** Heat loss, per layer *)

(** The value that one iteration of the loop of
    [calculate_stratified_heat_loss] assigns to [Q_loss_layers[i]], for the
    layer [i] of [n] at temperature [T_layer]; [Ok None] when the storage
    type matches no branch and nothing is assigned. *)
Definition stratified_layer_loss (self : ThermalStorage) (n i : nat)
    (T_layer : float) : result (option float) :=
  (if str_eq (storage_type self) "cylindrical_overground" then
     if (i =? 0)%nat then
       Ok (Some (Fin (lambda_top self / dt_top self) * S_top self
                 * (T_layer - T_amb self) / 1000)%fl)
     else if (Z.of_nat i =? Z.of_nat n - 1)%Z then
       d0 <~ index (dimensions self) 0 ;;
       Ok (Some (Fin (/ (db_bottom self / lambda_bottom self
                         + 4 * d0 / (3 * PI * lambda_soil self)))
                 * S_bottom self * (T_layer - T_amb self) / 1000)%fl)
     else
       Ok (Some (Fin (lambda_side self / ds_side self)
                 * (T_layer - T_amb self) * S_side self / INR n / 1000)%fl)
   else if str_eq (storage_type self) "cylindrical_underground" then
     R <~ index (dimensions self) 0 ;;
     H <~ index (dimensions self) 1 ;;
     let d_min := (lambda_side self / lambda_soil self) * R * (37 / 100) in
     if Rltb (2 * d_min) (ds_side self) then
       let K_sb :=
         / (ds_side self / lambda_side self
            + (52 / 100) * R / lambda_soil self) in
       let S_c := PI * R ^ 2 + 2 * PI * R * H in
       if (i =? 0)%nat then
         Ok (Some (Fin (lambda_top self / dt_top self) * S_top self
                   * (T_layer - T_amb self) / 1000)%fl)
       else
         Ok (Some (Fin K_sb * S_c * (T_layer - T_soil self) / INR n / 1000)%fl)
     else
       Err (ValueError
              "Insulation thickness too small compared to minimum required thickness.")
   else if str_eq (storage_type self) "truncated_cone"
           || str_eq (storage_type self) "truncated_trapezoid" then
     H <~ index (dimensions self) 2 ;;
     let a :=
       ds_side self / lambda_side self + PI * H / (2 * lambda_soil self) in
     let b := PI / lambda_soil self in
     let K_s := (1 / (b * H)) * ln ((a + b * H) / a) in
     let c :=
       db_bottom self / lambda_bottom self
       + PI * H / (2 * lambda_soil self) in
     d1 <~ index (dimensions self) 1 ;;
     let K_b := (1 / (2 * b * d1)) * ln ((c + b * d1) / c) in
     if (i =? 0)%nat then
       Ok (Some (Fin (lambda_top self / dt_top self) * S_top self
                 * (T_layer - T_amb self) / 1000)%fl)
     else if (Z.of_nat i =? Z.of_nat n - 1)%Z then
       Ok (Some (Fin K_b * S_bottom self * (T_layer - T_soil self) / 1000)%fl)
     else
       Ok (Some (Fin K_s * S_side self * (T_layer - T_soil self)
                 / INR n / 1000)%fl)
   else Ok None)%py.

(** The loop [for i, T_layer in enumerate(T_sto_layers)], from index [i]. *)
Fixpoint stratified_loss_loop (n i : nat) (layers : list float) : M unit :=
  match layers with
  | [] => ret tt
  | T_layer :: rest =>
      (v <- (fun self =>
               lift_result (stratified_layer_loss self n i T_layer) self) ;;
       match v with
       | Some q => setitem Q_loss_layers set_Q_loss_layers i q
       | None => ret tt
       end ;;
       stratified_loss_loop n (S i) rest)%py
  end.

(** [calculate_stratified_heat_loss(self, T_sto_layers)] *)
Definition calculate_stratified_heat_loss (T_sto_layers : list float)
  : M float :=
  (modify (set_Q_loss_layers (np_zeros (length T_sto_layers))) ;;
   stratified_loss_loop (length T_sto_layers) 0 T_sto_layers ;;
   read (fun self => np_sum (Q_loss_layers self)))%py.

(* ===================================================================== *)
(** ** The stratified simulator *)

(** The local variables that the three passes of one time step update:
    the row [T_sto_layers[t]], [heat_stored_per_layer] and
    [remaining_heat]. *)
Record layer_state : Type := mkLayerState {
  T_t : list float;
  heat_stored_per_layer : list float;
  remaining_heat : float
}.

Section Passes.
Variable self : ThermalStorage.
(** [layer_volume], [layer_thickness] and the argument
    [thermal_conductivity] of [simulate_stratified] *)
Variables layer_volume layer_thickness thermal_conductivity : R.
(** the row [T_sto_layers[t-1]] *)
Variable T_prev : list float.

(** Body of the discharge loop (lines 381-396). *)
Definition discharge_layer (i : nat) (st : layer_state) : layer_state :=
  if (remaining_heat st <? 0)%fl then
    let available_heat_in_layer :=
      ((get T_prev i - T_min self) * layer_volume * rho self * cp self
       / 3600000)%fl in
    let heat_needed := fabs (remaining_heat st) in
    if (heat_needed >=? available_heat_in_layer)%fl then
      mkLayerState
        (update (T_t st) i (Fin (T_min self)))
        (update (heat_stored_per_layer st) i
           (get (heat_stored_per_layer st) i - available_heat_in_layer)%fl)
        (remaining_heat st + available_heat_in_layer)%fl
    else
      mkLayerState
        (update (T_t st) i
           (get T_prev i
            - (heat_needed * 3600000)
              / (Fin layer_volume * rho self * cp self))%fl)
        (update (heat_stored_per_layer st) i
           (get (heat_stored_per_layer st) i - heat_needed)%fl)
        (Fin 0)
  else st.

(** Body of the charge loop (lines 399-425). *)
Definition charge_layer (i : nat) (st : layer_state) : layer_state :=
  let heat_loss_layer := get (Q_loss_layers self) i in
  let max_heat_in_layer :=
    ((T_max self - get T_prev i) * layer_volume * rho self * cp self
     / 3600000)%fl in
  let st1 :=
    if (remaining_heat st >? 0)%fl then
      if (remaining_heat st >=? max_heat_in_layer)%fl then
        mkLayerState
          (update (T_t st) i (Fin (T_max self)))
          (update (heat_stored_per_layer st) i
             (get (heat_stored_per_layer st) i + max_heat_in_layer)%fl)
          (remaining_heat st - max_heat_in_layer)%fl
      else
        mkLayerState
          (update (T_t st) i
             (get T_prev i
              + (remaining_heat st * 3600000)
                / (Fin layer_volume * rho self * cp self))%fl)
          (update (heat_stored_per_layer st) i
             (get (heat_stored_per_layer st) i + remaining_heat st)%fl)
          (Fin 0)
    else
      mkLayerState
        (update (T_t st) i (get T_prev i))
        (heat_stored_per_layer st)
        (remaining_heat st) in
  let st2 :=
    mkLayerState
      (T_t st1)
      (update (heat_stored_per_layer st1) i
         (get (heat_stored_per_layer st1) i - heat_loss_layer / 3600)%fl)
      (remaining_heat st1) in
  if (get (T_t st2) i <? T_min self)%fl then
    mkLayerState (update (T_t st2) i (Fin (T_min self)))
      (heat_stored_per_layer st2) (remaining_heat st2)
  else st2.

(** The energy that the diffusion loop moves from layer [i] to layer
    [i+1] (lines 430-434). *)
Definition heat_transfer_kWh (i : nat) (st : layer_state) : float :=
  let delta_T := (get (T_t st) i - get (T_t st) (i + 1))%fl in
  let heat_transfer :=
    (Fin thermal_conductivity * S_side self * delta_T / layer_thickness)%fl in
  (heat_transfer / 3600000 * 3600)%fl.

(** Body of the diffusion loop (lines 428-442). *)
Definition diffuse_pair (i : nat) (st : layer_state) : layer_state :=
  let x := heat_transfer_kWh i st in
  let heat1 :=
    update (heat_stored_per_layer st) i
      (get (heat_stored_per_layer st) i - x)%fl in
  let heat2 := update heat1 (i + 1) (get heat1 (i + 1) + x)%fl in
  let T1 :=
    update (T_t st) i
      ((get heat2 i * 3600000) / (Fin layer_volume * rho self * cp self)
       + T_ref self)%fl in
  let T2 :=
    update T1 (i + 1)
      ((get heat2 (i + 1) * 3600000)
       / (Fin layer_volume * rho self * cp self)
       + T_ref self)%fl in
  mkLayerState T2 heat2 (remaining_heat st).

Definition discharge_pass (num_layers : nat) (st : layer_state) : layer_state :=
  fold_left (fun st i => discharge_layer i st) (range num_layers) st.

Definition charge_pass (num_layers : nat) (st : layer_state) : layer_state :=
  fold_left (fun st i => charge_layer i st) (range num_layers) st.

Definition diffusion_pass (num_layers : nat) (st : layer_state) : layer_state :=
  fold_left (fun st i => diffuse_pair i st) (range (num_layers - 1)) st.
End Passes.

(** One iteration of the loop over [t] of [simulate_stratified]; the
    accumulator is [heat_stored_per_layer]. *)
Definition stratified_step (Q_in Q_out : list R) (num_layers : nat)
    (layer_volume layer_thickness thermal_conductivity : R) (t : nat)
    (heat : list float) : M (list float) :=
  (T_prev <- getitem T_sto_layers (Z.of_nat t - 1) ;;
   loss <- calculate_stratified_heat_loss T_prev ;;
   setitem Q_loss set_Q_loss t loss ;;
   q_in <- lift_result (index Q_in t) ;;
   q_out <- lift_result (index Q_out t) ;;
   let remaining := (Fin q_in - Fin q_out)%fl in
   heat' <-
     (if (t =? 0)%nat then
        self <- read (fun s => s) ;;
        T_0 <- getitem T_sto (Z.of_nat t) ;;
        setitem Q_sto set_Q_sto t
          (volume self * rho self * cp self * (T_0 - T_ref self) / 3600000)%fl ;;
        Q_0 <- getitem Q_sto (Z.of_nat t) ;;
        ret (map (fun _ => (Q_0 / INR num_layers)%fl) heat)
      else
        self <- read (fun s => s) ;;
        T_prev <- getitem T_sto_layers (Z.of_nat t - 1) ;;
        T_cur <- getitem T_sto_layers (Z.of_nat t) ;;
        let st0 := mkLayerState T_cur heat remaining in
        let st1 := discharge_pass self layer_volume T_prev num_layers st0 in
        let st2 := charge_pass self layer_volume T_prev num_layers st1 in
        let st3 :=
          diffusion_pass self layer_volume layer_thickness thermal_conductivity
            num_layers st2 in
        setitem T_sto_layers set_T_sto_layers t (T_t st3) ;;
        ret (heat_stored_per_layer st3)) ;;
   setitem Q_sto set_Q_sto t (np_sum heat') ;;
   row <- getitem T_sto_layers (Z.of_nat t) ;;
   setitem T_sto set_T_sto t (np_average row) ;;
   ret heat')%py.

(** The statements of [simulate_stratified] before its loop: the layer
    thickness by storage type, the layer volume and the two arrays. *)
Definition stratified_setup (num_layers : nat) : M (R * R) :=
  (self <- read (fun s => s) ;;
   height <-
     (if str_eq (storage_type self) "cylindrical" then
        lift_result (index (dimensions self) 1)
      else if str_eq (storage_type self) "truncated_cone" then
        lift_result (index (dimensions self) 2)
      else if str_eq (storage_type self) "truncated_trapezoid" then
        lift_result (index (dimensions self) 2)
      else
        raise (ValueError
                 "Unsupported storage type for layer thickness calculation")) ;;
   (if (num_layers =? 0)%nat then raise ZeroDivisionError else ret tt) ;;
   let layer_thickness := height / INR num_layers in
   let layer_volume := volume self / INR num_layers in
   T_0 <- getitem T_sto 0%Z ;;
   modify (set_T_sto_layers (np_full (hours self) num_layers T_0)) ;;
   ret (layer_volume, layer_thickness))%py.

(** The first [k] iterations of the loop of [simulate_stratified], with
    the value of [heat_stored_per_layer] after them. *)
Definition simulate_stratified_steps (k : nat) (Q_in Q_out : list R)
    (num_layers : nat) (thermal_conductivity : R) : M (list float) :=
  (lv_lt <- stratified_setup num_layers ;;
   for_each
     (stratified_step Q_in Q_out num_layers (fst lv_lt) (snd lv_lt)
        thermal_conductivity)
     (range k) (np_zeros num_layers))%py.

(** [simulate_stratified(self, Q_in, Q_out, num_layers, thermal_conductivity)] *)
Definition simulate_stratified (Q_in Q_out : list R) (num_layers : nat)
    (thermal_conductivity : R) : M (list float) :=
  fun self =>
    simulate_stratified_steps (hours self) Q_in Q_out num_layers
      thermal_conductivity self.

(** Construct the object, then call [simulate_stratified] on it. *)
Definition run_stratified (p : Params.t) (Q_in Q_out : list R) (num_layers : nat)
    (thermal_conductivity : R) : result (outcome (list float)) :=
  match __init__ p with
  | Ok self =>
      Ok (simulate_stratified Q_in Q_out num_layers thermal_conductivity self)
  | Err e => Err e
  end.

(* ===================================================================== *)
(** ** Operational costs and efficiency *)

(** [calculate_operational_costs(self, energy_price_per_kWh)]: the value
    that the method assigns to [self.operational_costs]. *)
Definition calculate_operational_costs (self : ThermalStorage)
    (energy_price_per_kWh : R) : float :=
  let total_energy_loss_kWh := np_sum (Q_loss self) in
  (total_energy_loss_kWh * energy_price_per_kWh)%fl.

(** [calculate_efficiency(self, Q_in, Q_out)]: the value that the method
    assigns to [self.efficiency]. *)
Definition calculate_efficiency (self : ThermalStorage) (Q_in Q_out : list R)
  : result float :=
  (let total_input_energy := np_sum (map Fin Q_in) in
   let total_output_energy := np_sum (map Fin Q_out) in
   Q_last <~ index_py (Q_sto self) (-1) ;;
   Q_first <~ index_py (Q_sto self) 0 ;;
   let change_in_stored_energy := (Q_last - Q_first)%fl in
   Ok (total_output_energy / total_input_energy)%fl)%py.

(* ===================================================================== *)
(** ** The objective of the geometry optimisation *)

Definition set_dimensions (v : list R) (s : ThermalStorage) : ThermalStorage :=
  mkThermalStorage (storage_type s) v (rho s) (cp s) (T_ref s)
    (lambda_top s) (lambda_side s) (lambda_bottom s) (lambda_soil s)
    (T_amb s) (T_soil s) (T_max s) (T_min s) (dt_top s) (ds_side s)
    (db_bottom s) (hours s) (num_layers s) (thermal_conductivity s)
    (Q_sto s) (Q_loss s) (T_sto s)
    (volume s) (S_top s) (S_side s) (S_bottom s)
    (Q_loss_layers s) (T_sto_layers s).

(** [self.volume, self.S_top, self.S_side, self.S_bottom = g] *)
Definition set_geometry (g : geometry) (s : ThermalStorage) : ThermalStorage :=
  let '(volume, S_top, S_side, S_bottom) := g in
  mkThermalStorage (storage_type s) (dimensions s) (rho s) (cp s) (T_ref s)
    (lambda_top s) (lambda_side s) (lambda_bottom s) (lambda_soil s)
    (T_amb s) (T_soil s) (T_max s) (T_min s) (dt_top s) (ds_side s)
    (db_bottom s) (hours s) (num_layers s) (thermal_conductivity s)
    (Q_sto s) (Q_loss s) (T_sto s)
    volume S_top S_side S_bottom
    (Q_loss_layers s) (T_sto_layers s).

(** The exceptions of [objective_function]: those of the methods that it
    calls, and Python's TypeError. *)
Inductive exception : Type :=
| Builtin (e : exn)
| TypeError (msg : string).

(** What a call hands back to [objective_function]: [None] or an array. *)
Inductive py_value : Type :=
| PyNone
| PyArray (a : list float).

(** [for T in v]: the items of an array; [None] is not iterable. *)
Definition iterate (v : py_value) : exception + list float :=
  match v with
  | PyArray a => inr a
  | PyNone => inl (TypeError "'NoneType' object is not iterable")
  end.

(** What a call of [objective_function] leaves behind. *)
Inductive completion (A : Type) : Type :=
| Completed (a : A) (s : ThermalStorage)
| Failed (e : exception) (s : ThermalStorage).
Arguments Completed {A} a s.
Arguments Failed {A} e s.

(** The list comprehension [[self.calculate_heat_loss(T) for T in T_sto]]. *)
Fixpoint heat_losses (self : ThermalStorage) (T_sto : list float)
  : result (list (option float)) :=
  match T_sto with
  | [] => Ok []
  | T :: rest =>
      (q <~ calculate_heat_loss self T ;;
       qs <~ heat_losses self rest ;;
       Ok (q :: qs))%py
  end.

Section Objective.
(** numpy's sum over the list of the comprehension, whose items are floats
    or [None], is left open. *)
Variable np_sum_list : list (option float) -> exception + float.

(** The function [objective_function(dimensions)] that
    [optimize_storage_geometry(self, Q_in, Q_out)] hands to the minimiser
    (lines 462-467). *)
Definition objective_function (Q_in Q_out : list R) (dimensions : list R)
    (self : ThermalStorage) : completion float :=
  let self := set_dimensions dimensions self in
  match calculate_cylindrical_geometry dimensions with
  | Err e => Failed (Builtin e) self
  | Ok g =>
      let self := set_geometry g self in
      match simulate Q_in Q_out self with
      | Raise e self => Failed (Builtin e) self
      | Return tt self =>
          (* [simulate] has no return statement *)
          let T_sto := PyNone in
          match iterate T_sto with
          | inl e => Failed e self
          | inr Ts =>
              match heat_losses self Ts with
              | Err e => Failed (Builtin e) self
              | Ok qs =>
                  match np_sum_list qs with
                  | inl e => Failed e self
                  | inr Q_loss => Completed Q_loss self
                  end
              end
          end
      end
  end.
End Objective.

(** The first point at which the minimiser evaluates the objective. *)
Definition initial_guess : list R := [10; 12].

(* ===================================================================== *)
(** ** The 3D plot *)

(** The two flags [self.colorbar_exists] and [self.labels_exist] of the
    object. *)
Record plot_flags : Type := mkPlotFlags {
  colorbar_exists : bool;
  labels_exist : bool
}.

Section Plot3D.
(** The matplotlib axes and what each branch draws on them are left open:
    a drawing returns the axes or raises. *)
Variable axes : Type.
Variables draw_cylinder draw_truncated_cone draw_truncated_trapezoid
  : ThermalStorage -> Z -> axes -> result axes.
Variable set_labels : Z -> axes -> result axes.
Variable add_colorbar : ThermalStorage -> axes -> result axes.

(** [plot_3d_temperature_distribution(self, ax, time_step)]: three [if]
    statements in a row, the [else] belonging to the third. *)
Definition plot_3d_temperature_distribution (self : ThermalStorage)
    (flags : plot_flags) (ax : axes) (time_step : Z)
  : result (axes * plot_flags) :=
  (ax <~ (if str_eq (storage_type self) "cylindrical"
          then draw_cylinder self time_step ax
          else Ok ax) ;;
   ax <~ (if str_eq (storage_type self) "truncated_cone"
          then draw_truncated_cone self time_step ax
          else Ok ax) ;;
   ax <~ (if str_eq (storage_type self) "truncated_trapezoid"
          then draw_truncated_trapezoid self time_step ax
          else Err (ValueError "Unsupported storage type for 3D plot")) ;;
   ax <~ (if negb (labels_exist flags) then set_labels time_step ax
          else Ok ax) ;;
   let flags := mkPlotFlags (colorbar_exists flags) true in
   ax <~ (if negb (colorbar_exists flags) then add_colorbar self ax
          else Ok ax) ;;
   let flags := mkPlotFlags true (labels_exist flags) in
   Ok (ax, flags))%py.
End Plot3D.

(* ===================================================================== *)
(** * Vocabulary of the properties *)

(** The storage-type tags of the specification's data model. *)
Definition spec_storage_types : list string :=
  ["cylindrical"; "cylindrical_overground"; "cylindrical_underground";
   "truncated_cone"; "truncated_trapezoid"]%string.

(** The tags for which [__init__] has a geometry branch. *)
Definition constructor_storage_types : list string :=
  ["cylindrical"; "truncated_cone"; "truncated_trapezoid"]%string.

(** The object with its arrays emptied: what no method of the model
    changes. *)
Definition attributes (s : ThermalStorage) : ThermalStorage :=
  set_T_sto_layers [] (set_Q_loss_layers []
    (set_T_sto [] (set_Q_sto [] (set_Q_loss [] s)))).

(** Rewrite the goal with the equal attributes of two objects. *)
Ltac attr_rewrite H :=
  unfold attributes in H; injection H as;
  repeat match goal with E : _ = _ |- _ => rewrite E; clear E end.

(** The arrays of the object have the length [hours]. *)
Definition arrays_sized (s : ThermalStorage) : Prop :=
  length (Q_sto s) = hours s /\ length (Q_loss s) = hours s
  /\ length (T_sto s) = hours s.

(** The position that Python reads for [a[t-1]] in an array of length
    [len]: the last cell when [t] is 0. *)
Definition before (len t : nat) : nat :=
  match t with
  | O => (len - 1)%nat
  | Datatypes.S t' => t'
  end.

(** Lines 280-284: the temperature after the two bounds. *)
Definition clamp (s : ThermalStorage) (x : float) : float :=
  if (x >? T_max s)%fl then Fin (T_max s)
  else if (x <? T_min s)%fl then Fin (T_min s)
  else x.

(** Line 271: stored energy in kWh at a temperature. *)
Definition energy_at (s : ThermalStorage) (T : float) : float :=
  (volume s * rho s * cp s * (T - T_ref s) / 3600000)%fl.

(** Line 278: temperature at a stored energy. *)
Definition temperature_at (s : ThermalStorage) (Q : float) : float :=
  ((Q * 3600000) / (volume s * rho s * cp s) + T_ref s)%fl.

(** The object after iteration [t] of [simulate], when the heat loss is
    [loss] and the inputs of the hour are [q_in] and [q_out]. *)
Definition after_step (s : ThermalStorage) (t : nat) (loss : option float)
    (q_in q_out : R) : ThermalStorage :=
  let s1 := set_Q_loss (update (Q_loss s) t (as_float64 loss)) s in
  match t with
  | O =>
      set_T_sto (update (T_sto s) 0 (clamp s (nth 0 (T_sto s) NaN)))
        (set_Q_sto (update (Q_sto s) 0 (energy_at s (nth 0 (T_sto s) NaN))) s1)
  | Datatypes.S t' =>
      let Q :=
        (nth t' (Q_sto s) NaN + (Fin q_in - Fin q_out - as_float64 loss))%fl in
      set_T_sto (update (T_sto s) t (clamp s (temperature_at s Q)))
        (set_Q_sto (update (Q_sto s) t Q) s1)
  end.

(** Projections of an updated object. *)
Ltac obj :=
  repeat progress
    cbn [set_T_sto set_Q_sto set_Q_loss set_Q_loss_layers set_T_sto_layers
         storage_type dimensions rho cp T_ref lambda_top lambda_side
         lambda_bottom lambda_soil T_amb T_soil T_max T_min dt_top ds_side
         db_bottom hours num_layers thermal_conductivity Q_sto Q_loss T_sto
         volume S_top S_side S_bottom Q_loss_layers T_sto_layers
         Nat.eqb before fst snd].

(** The same in a hypothesis. *)
Ltac obj_in H :=
  repeat progress
    cbn [set_T_sto set_Q_sto set_Q_loss set_Q_loss_layers set_T_sto_layers
         storage_type dimensions rho cp T_ref lambda_top lambda_side
         lambda_bottom lambda_soil T_amb T_soil T_max T_min dt_top ds_side
         db_bottom hours num_layers thermal_conductivity Q_sto Q_loss T_sto
         volume S_top S_side S_bottom Q_loss_layers T_sto_layers
         Nat.eqb before fst snd] in H.

(** What the cells of hour [t] hold in the object [s]: the recurrence of
    lines 265-284.  At hour 0 the heat loss is computed from the cell
    [T_sto[-1]] of the object at the call. *)
Definition hour_ok (Q_in Q_out : list R) (s0 s : ThermalStorage) (t : nat)
  : Prop :=
  match t with
  | O =>
      exists loss,
        calculate_heat_loss s0 (nth (hours s0 - 1) (T_sto s0) NaN) = Ok loss
        /\ nth 0 (Q_loss s) NaN = as_float64 loss
        /\ nth 0 (Q_sto s) NaN = energy_at s0 (nth 0 (T_sto s0) NaN)
        /\ nth 0 (T_sto s) NaN = clamp s0 (nth 0 (T_sto s0) NaN)
  | Datatypes.S t' =>
      exists loss q_in q_out,
        calculate_heat_loss s0 (nth t' (T_sto s) NaN) = Ok loss
        /\ index Q_in t = Ok q_in
        /\ index Q_out t = Ok q_out
        /\ nth t (Q_loss s) NaN = as_float64 loss
        /\ nth t (Q_sto s) NaN
           = (nth t' (Q_sto s) NaN
              + (Fin q_in - Fin q_out - nth t (Q_loss s) NaN))%fl
        /\ nth t (T_sto s) NaN
           = clamp s0 (temperature_at s0 (nth t (Q_sto s) NaN))
  end.

(** The invariant of the loop of [simulate] before iteration [k], on a run
    that started from the object [s0]: the attributes are those of [s0], the
    temperatures of the hours to come are untouched, and the hours done
    satisfy the recurrence. *)
Definition single_inv (Q_in Q_out : list R) (s0 : ThermalStorage) (k : nat)
    (_ : unit) (s : ThermalStorage) : Prop :=
  attributes s = attributes s0
  /\ arrays_sized s
  /\ (forall j, (k <= j)%nat -> nth j (T_sto s) NaN = nth j (T_sto s0) NaN)
  /\ (forall t, (t < k)%nat -> hour_ok Q_in Q_out s0 s t).

(** The two ValueErrors of the heat-loss model and of the layer setup. *)
Definition thin_insulation : exn :=
  ValueError
    "Insulation thickness too small compared to minimum required thickness.".

Definition no_layer_thickness : exn :=
  ValueError "Unsupported storage type for layer thickness calculation".

(** An underground cylinder of radius 25 m with 0.3 m of side insulation,
    less than [2 * d_min = 0.37] m. *)
Definition underground_example : ThermalStorage :=
  mkThermalStorage "cylindrical_underground" [25; 25] 1000 4180 10
    (4 / 100) (3 / 100) (5 / 100) (15 / 10) 10 10 95 40
    (3 / 10) (3 / 10) (5 / 10) 2 5 (6 / 10)
    [Fin 0; Fin 0] [Fin 0; Fin 0] [Fin 60; Fin 0]
    (PI * 25 ^ 2 * 25) (PI * 25 ^ 2) (2 * PI * 25 * 25) (PI * 25 ^ 2) [] [].

(** The parameter set of the repository's example, as a plain cylinder of
    radius 25 m and height 25 m over two hours. *)
Definition cylinder_params : Params.t :=
  Params.mk "cylindrical" [25; 25] 1000 4180 10
    (4 / 100) (3 / 100) (5 / 100) (15 / 10) 10 10 95 40 60
    (3 / 10) (4 / 10) (5 / 10) 2 5 (6 / 10).

(** The call ended in an exception. *)
Definition raises {A : Type} (o : outcome A) : Prop :=
  match o with
  | Raise _ _ => True
  | Return _ _ => False
  end.

(** The coefficients [K_s] and [K_b] of lines 252-260 for the height
    [H = dimensions[2]] and the length [d1 = dimensions[1]]. *)
Definition K_side (s : ThermalStorage) (H : R) : R :=
  let a := ds_side s / lambda_side s + PI * H / (2 * lambda_soil s) in
  let b := PI / lambda_soil s in
  (1 / (b * H)) * ln ((a + b * H) / a).

Definition K_bottom (s : ThermalStorage) (H d1 : R) : R :=
  let b := PI / lambda_soil s in
  let c := db_bottom s / lambda_bottom s + PI * H / (2 * lambda_soil s) in
  (1 / (2 * b * d1)) * ln ((c + b * d1) / c).

(** The two pit storage types share one branch of both heat-loss
    methods. *)
Definition is_pit (s : ThermalStorage) : Prop :=
  storage_type s = "truncated_cone"%string
  \/ storage_type s = "truncated_trapezoid"%string.

(** The parameter set of the repository's example (a truncated trapezoid
    with the dimensions 20, 20, 50, 50, 15), with the soil temperature, the
    minimum temperature, the initial temperature and the horizon left
    open. *)
Definition trapezoid_params (Tsoil Tmin T0 : R) (h : nat) : Params.t :=
  Params.mk "truncated_trapezoid" [20; 20; 50; 50; 15] 1000 4180 10
    (4 / 100) (3 / 100) (5 / 100) (15 / 10) 10 Tsoil 95 Tmin T0
    (3 / 10) (4 / 10) (5 / 10) h 5 (6 / 10).

(** Projections of the example parameters. *)
Ltac params :=
  cbn [Params.storage_type Params.dimensions Params.rho Params.cp
       Params.T_ref Params.lambda_top Params.lambda_side Params.lambda_bottom
       Params.lambda_soil Params.T_amb Params.T_soil Params.T_max Params.T_min
       Params.initial_temp Params.dt_top Params.ds_side Params.db_bottom
       Params.hours Params.num_layers Params.thermal_conductivity
       trapezoid_params].

(** The value of a cell after an optional assignment. *)
Definition assigned (v : option float) (old : float) : float :=
  match v with
  | Some q => q
  | None => old
  end.

(** The loss in kW through a surface of area [A] with the coefficient [K]
    against the reference temperature [T_r], from a layer at [T]. *)
Definition surface_loss (K A T_r : R) (T : float) : float :=
  (Fin K * A * (T - T_r) / 1000)%fl.

(** The coefficient of the top surface, the same in every branch. *)
Definition K_top (s : ThermalStorage) : R := lambda_top s / dt_top s.

(** The side and bottom coefficients of the overground cylinder
    (lines 299-302). *)
Definition K_overground_side (s : ThermalStorage) : R :=
  lambda_side s / ds_side s.

Definition K_overground_bottom (s : ThermalStorage) (radius : R) : R :=
  / (db_bottom s / lambda_bottom s + 4 * radius / (3 * PI * lambda_soil s)).

(** The combined side and bottom coefficient [K_sb] of the underground
    cylinder (line 311). *)
Definition K_sb (s : ThermalStorage) (radius : R) : R :=
  / (ds_side s / lambda_side s + (52 / 100) * radius / lambda_soil s).

(** The combined side and bottom area [S_c] of the underground cylinder. *)
Definition S_combined (radius height : R) : R :=
  PI * radius ^ 2 + 2 * PI * radius * height.

(** The test [i == len(T_sto_layers) - 1]. *)
Definition is_last (n i : nat) : bool := (Z.of_nat i =? Z.of_nat n - 1)%Z.

(** What a layer is assigned, by storage type and position. *)
Definition layer_assignment (top bottom side : float -> float) (n i : nat)
    (T : float) : option float :=
  Some (if (i =? 0)%nat then top T
        else if is_last n i then bottom T
             else side T).

(** The layout of a per-layer loss vector [a] over the layer temperatures
    [T_layers]: layer 0 by [top], the last layer by [bottom], the layers
    between by [side]. *)
Definition layout (a T_layers : list float) (top bottom side : float -> float)
  : Prop :=
  length a = length T_layers
  /\ nth 0 a NaN = top (nth 0 T_layers NaN)
  /\ nth (length T_layers - 1) a NaN
     = bottom (nth (length T_layers - 1) T_layers NaN)
  /\ forall i, (0 < i < length T_layers - 1)%nat ->
               nth i a NaN = side (nth i T_layers NaN).

(** An underground cylinder whose side insulation passes the thickness
    check (0.4 m against [2 * d_min = 0.37] m). *)
Definition underground_thick_example : ThermalStorage :=
  mkThermalStorage "cylindrical_underground" [25; 25] 1000 4180 10
    (4 / 100) (3 / 100) (5 / 100) (15 / 10) 10 10 95 40
    (3 / 10) (4 / 10) (5 / 10) 2 5 (6 / 10)
    [Fin 0; Fin 0] [Fin 0; Fin 0] [Fin 60; Fin 0]
    (PI * 25 ^ 2 * 25) (PI * 25 ^ 2) (2 * PI * 25 * 25) (PI * 25 ^ 2) [] [].

(** A plain cylinder as the constructor builds it. *)
Definition cylinder_example : ThermalStorage :=
  mkThermalStorage "cylindrical" [25; 25] 1000 4180 10
    (4 / 100) (3 / 100) (5 / 100) (15 / 10) 10 10 95 40
    (3 / 10) (4 / 10) (5 / 10) 2 5 (6 / 10)
    [Fin 0; Fin 0] [Fin 0; Fin 0] [Fin 60; Fin 0]
    (PI * 25 ^ 2 * 25) (PI * 25 ^ 2) (2 * PI * 25 * 25) (PI * 25 ^ 2) [] [].

(** The three passes of one hour, in the order of the source. *)
Definition passes (self : ThermalStorage) (n : nat) (lv lt k : R)
    (T_prev : list float) (st0 : layer_state) : layer_state :=
  diffusion_pass self lv lt k n
    (charge_pass self lv T_prev n (discharge_pass self lv T_prev n st0)).

(** The accumulator and the object after iteration [t] of the loop of
    [simulate_stratified], from the object [s1] that the heat-loss call
    left, its total [loss] and the inputs of the hour. *)
Definition stratified_result (s1 : ThermalStorage) (n : nat)
    (layer_volume layer_thickness conductivity : R) (t : nat)
    (heat : list float) (loss : float) (q_in q_out : R)
  : list float * ThermalStorage :=
  let s2 := set_Q_loss (update (Q_loss s1) t loss) s1 in
  match t with
  | O =>
      let heat' :=
        map (fun _ => (energy_at s2 (nth 0 (T_sto s2) NaN) / INR n)%fl) heat in
      (heat',
       set_T_sto
         (update (T_sto s2) 0 (np_average (nth 0 (T_sto_layers s2) [])))
         (set_Q_sto (update (Q_sto s2) 0 (np_sum heat')) s2))
  | S t' =>
      let T_prev := nth t' (T_sto_layers s2) [] in
      let T_cur := nth t (T_sto_layers s2) [] in
      let st0 := mkLayerState T_cur heat (Fin q_in - Fin q_out)%fl in
      let st3 :=
        passes s2 n layer_volume layer_thickness conductivity T_prev st0 in
      (heat_stored_per_layer st3,
       set_T_sto (update (T_sto s2) t (np_average (T_t st3)))
         (set_Q_sto (update (Q_sto s2) t (np_sum (heat_stored_per_layer st3)))
            (set_T_sto_layers (update (T_sto_layers s2) t (T_t st3)) s2)))
  end.

(** The arrays of the stratified simulator have the length [hours]. *)
Definition layers_sized (s : ThermalStorage) : Prop :=
  arrays_sized s /\ length (T_sto_layers s) = hours s.

(** The loop keeps the arrays sized. *)
Definition sized_inv (h : nat) (_ : nat) (_ : list float) (s : ThermalStorage)
  : Prop :=
  layers_sized s /\ hours s = h.

(** The per-layer heat loss of the object never raises. *)
Definition loss_defined (s : ThermalStorage) : Prop :=
  forall n i T, exists v, stratified_layer_loss s n i T = Ok v.

(** The sum of a list of reals. *)
Definition Rsum (r : list R) : R := fold_right Rplus 0 r.

(** ** Vocabulary of the further properties *)

(** The number of dimensions that the geometry of a storage type unpacks;
    [None] for a type without a geometry. *)
Definition arity (storage_type : string) : option nat :=
  if str_eq storage_type "cylindrical" then Some 2%nat
  else if str_eq storage_type "truncated_cone" then Some 3%nat
  else if str_eq storage_type "truncated_trapezoid" then Some 5%nat
  else None.

(** The object with other values of the attributes [num_layers] and
    [thermal_conductivity]. *)
Definition with_layer_attributes (n : nat) (c : R) (s : ThermalStorage)
  : ThermalStorage :=
  mkThermalStorage (storage_type s) (dimensions s) (rho s) (cp s) (T_ref s)
    (lambda_top s) (lambda_side s) (lambda_bottom s) (lambda_soil s)
    (T_amb s) (T_soil s) (T_max s) (T_min s) (dt_top s) (ds_side s)
    (db_bottom s) (hours s) n c
    (Q_sto s) (Q_loss s) (T_sto s)
    (volume s) (S_top s) (S_side s) (S_bottom s)
    (Q_loss_layers s) (T_sto_layers s).

(** The constructor's arguments with other values of [num_layers] and
    [thermal_conductivity]. *)
Definition with_layer_arguments (n : nat) (c : R) (p : Params.t) : Params.t :=
  Params.mk (Params.storage_type p) (Params.dimensions p) (Params.rho p)
    (Params.cp p) (Params.T_ref p) (Params.lambda_top p)
    (Params.lambda_side p) (Params.lambda_bottom p) (Params.lambda_soil p)
    (Params.T_amb p) (Params.T_soil p) (Params.T_max p) (Params.T_min p)
    (Params.initial_temp p) (Params.dt_top p) (Params.ds_side p)
    (Params.db_bottom p) (Params.hours p) n c.

(** An outcome with the object it leaves replaced. *)
Definition outcome_map {A : Type} (f : ThermalStorage -> ThermalStorage)
    (o : outcome A) : outcome A :=
  match o with
  | Return a s => Return a (f s)
  | Raise e s => Raise e (f s)
  end.

Definition result_map {A B : Type} (f : A -> B) (r : result A) : result B :=
  match r with
  | Ok a => Ok (f a)
  | Err e => Err e
  end.

(** A method that neither reads nor writes what [f] changes: on the changed
    object it leaves the changed outcome. *)
Definition oblivious (f : ThermalStorage -> ThermalStorage) {A : Type}
    (m : M A) : Prop :=
  forall s, m (f s) = outcome_map f (m s).

(* ===================================================================== *)
(** * Properties *)


(** ** Comparisons and float arithmetic *)

Lemma Rltb_true (a b : R) : a < b -> Rltb a b = true.
Proof. intros H. unfold Rltb. destruct (Rlt_dec a b); [reflexivity | lra]. Qed.

Lemma Rltb_false (a b : R) : b <= a -> Rltb a b = false.
Proof. intros H. unfold Rltb. destruct (Rlt_dec a b); [lra | reflexivity]. Qed.

(** ** Lists *)

Lemma length_update {A : Type} (a : list A) (i : nat) (v : A) :
  length (update a i v) = length a.
Proof.
  revert i. induction a as [| x a IH]; intros [| i]; simpl; auto.
Qed.

Lemma nth_update_eq {A : Type} (a : list A) (i : nat) (v d : A) :
  (i < length a)%nat -> nth i (update a i v) d = v.
Proof.
  revert i. induction a as [| x a IH]; intros [| i] H; simpl in *;
    try lia; auto.
  apply IH. lia.
Qed.

Lemma nth_update_neq {A : Type} (a : list A) (i j : nat) (v d : A) :
  i <> j -> nth j (update a i v) d = nth j a d.
Proof.
  revert i j. induction a as [| x a IH]; intros [| i] [| j] H; simpl;
    try congruence; auto.
Qed.

Lemma py_get_nat {A : Type} (a : list A) (i : nat) :
  py_get a (Z.of_nat i) = nth_error a i.
Proof.
  unfold py_get.
  destruct (Z.ltb_spec (Z.of_nat i) 0); [lia |].
  now rewrite Nat2Z.id.
Qed.

Lemma py_get_pred {A : Type} (a : list A) (i : nat) :
  (0 < i)%nat -> py_get a (Z.of_nat i - 1) = nth_error a (i - 1).
Proof.
  intros H. replace (Z.of_nat i - 1)%Z with (Z.of_nat (i - 1)) by lia.
  apply py_get_nat.
Qed.

(** [a[-1]] is the last cell. *)
Lemma py_get_minus_one {A : Type} (a : list A) :
  py_get a (Z.of_nat 0 - 1) = nth_error a (length a - 1).
Proof.
  unfold py_get. simpl (Z.of_nat 0 - 1)%Z.
  destruct a as [| x a].
  - reflexivity.
  - replace (-1 <? 0)%Z with true by reflexivity.
    destruct (Z.ltb_spec (-1 + Z.of_nat (length (x :: a))) 0).
    + simpl length in *. lia.
    + f_equal. simpl length. lia.
Qed.

(** ** Geometry construction (claim C3) *)

Lemma str_eq_true (a b : string) : str_eq a b = true <-> a = b.
Proof. apply String.eqb_eq. Qed.

Lemma str_eq_false (a b : string) : str_eq a b = false <-> a <> b.
Proof. apply String.eqb_neq. Qed.

Lemma compute_geometry_unsupported (st : string) (dims : list R) :
  ~ In st constructor_storage_types ->
  compute_geometry st dims = Err (ValueError "Unsupported storage type").
Proof.
  intros H. unfold compute_geometry.
  destruct (str_eq st "cylindrical") eqn:E1;
    [apply str_eq_true in E1; exfalso; apply H; simpl; auto |].
  destruct (str_eq st "truncated_cone") eqn:E2;
    [apply str_eq_true in E2; exfalso; apply H; simpl; auto |].
  destruct (str_eq st "truncated_trapezoid") eqn:E3;
    [apply str_eq_true in E3; exfalso; apply H; simpl; auto |].
  reflexivity.
Qed.

(** C3, counterexample: two of the five tags of the specification are
    rejected by the geometry dispatch, for a well-formed cylinder. *)
Lemma compute_geometry_rejects_cylinder_variants :
  In "cylindrical_overground"%string spec_storage_types /\
  In "cylindrical_underground"%string spec_storage_types /\
  compute_geometry "cylindrical_overground" [25; 25]
  = Err (ValueError "Unsupported storage type") /\
  compute_geometry "cylindrical_underground" [25; 25]
  = Err (ValueError "Unsupported storage type").
Proof.
  repeat split; try reflexivity; simpl; auto.
Qed.

(** C3, amended: the geometry dispatch raises its "Unsupported storage
    type" ValueError exactly for the tags other than [cylindrical],
    [truncated_cone] and [truncated_trapezoid], and it returns a geometry
    exactly for one of these three tags with a dimension tuple of the length
    that the type unpacks (2, 3 and 5). *)
Theorem compute_geometry_dispatch (st : string) (dims : list R) :
  (compute_geometry st dims = Err (ValueError "Unsupported storage type")
   <-> ~ In st constructor_storage_types)
  /\
  ((exists g, compute_geometry st dims = Ok g)
   <-> (st = "cylindrical"%string /\ length dims = 2%nat)
       \/ (st = "truncated_cone"%string /\ length dims = 3%nat)
       \/ (st = "truncated_trapezoid"%string /\ length dims = 5%nat)).
Proof.
  unfold compute_geometry, constructor_storage_types.
  destruct (str_eq st "cylindrical") eqn:E1;
    [apply str_eq_true in E1; subst st |
     destruct (str_eq st "truncated_cone") eqn:E2;
     [apply str_eq_true in E2; subst st |
      destruct (str_eq st "truncated_trapezoid") eqn:E3;
      [apply str_eq_true in E3; subst st |]]].
  - split.
    + split.
      * unfold calculate_cylindrical_geometry, unpack_error.
        destruct dims as [| ? [| ? [| ? ?]]]; discriminate.
      * intros H. exfalso. apply H. simpl. auto.
    + split.
      * intros [g Hg]. left. split; [reflexivity |].
        destruct dims as [| ? [| ? [| ? ?]]]; simpl in Hg;
          try discriminate; reflexivity.
      * intros [[_ Hl] | [[Hc _] | [Hc _]]]; try discriminate.
        destruct dims as [| ? [| ? [| ? ?]]]; simpl in Hl; try lia.
        simpl. eauto.
  - split.
    + split.
      * unfold calculate_truncated_cone_geometry, unpack_error.
        destruct dims as [| ? [| ? [| ? [| ? ?]]]]; discriminate.
      * intros H. exfalso. apply H. simpl. auto.
    + split.
      * intros [g Hg]. right. left. split; [reflexivity |].
        destruct dims as [| ? [| ? [| ? [| ? ?]]]]; simpl in Hg;
          try discriminate; reflexivity.
      * intros [[Hc _] | [[_ Hl] | [Hc _]]]; try discriminate.
        destruct dims as [| ? [| ? [| ? [| ? ?]]]]; simpl in Hl; try lia.
        simpl. eauto.
  - split.
    + split.
      * unfold calculate_truncated_trapezoid_geometry, unpack_error.
        destruct dims as [| ? [| ? [| ? [| ? [| ? [| ? ?]]]]]]; discriminate.
      * intros H. exfalso. apply H. simpl. auto.
    + split.
      * intros [g Hg]. right. right. split; [reflexivity |].
        destruct dims as [| ? [| ? [| ? [| ? [| ? [| ? ?]]]]]]; simpl in Hg;
          try discriminate; reflexivity.
      * intros [[Hc _] | [[Hc _] | [_ Hl]]]; try discriminate.
        destruct dims as [| ? [| ? [| ? [| ? [| ? [| ? ?]]]]]]; simpl in Hl;
          try lia.
        simpl. eauto.
  - apply str_eq_false in E1, E2, E3. split.
    + split; [| reflexivity].
      intros _ [H | [H | [H | []]]]; congruence.
    + split.
      * intros [g Hg]. discriminate.
      * intros [[H _] | [[H _] | [H _]]]; congruence.
Qed.

(** ** Loops *)

Lemma for_each_app {S : Type} (body : nat -> S -> M S) (l1 l2 : list nat)
    (acc : S) (s : ThermalStorage) :
  for_each body (l1 ++ l2) acc s
  = match for_each body l1 acc s with
    | Return acc' s' => for_each body l2 acc' s'
    | Raise e s' => Raise e s'
    end.
Proof.
  revert acc s. induction l1 as [| t l1 IH]; intros acc s; simpl.
  - reflexivity.
  - unfold bind. destruct (body t acc s) as [acc' s' | e s']; auto.
Qed.

(** Partial correctness of a counted loop: an invariant that every
    returning iteration carries from [t] to [t+1] holds at the end of a
    returning loop. *)
Lemma for_each_invariant {S : Type} (body : nat -> S -> M S)
    (Inv : nat -> S -> ThermalStorage -> Prop) (hi : nat) :
  (forall t acc s acc' s',
      (t < hi)%nat -> Inv t acc s -> body t acc s = Return acc' s' ->
      Inv (Datatypes.S t) acc' s') ->
  forall m k acc s acc' s',
    (k + m <= hi)%nat -> Inv k acc s ->
    for_each body (seq k m) acc s = Return acc' s' ->
    Inv (k + m)%nat acc' s'.
Proof.
  intros Hstep. induction m as [| m IH]; intros k acc s acc' s' Hk HI Hrun.
  - simpl in Hrun. unfold ret in Hrun. injection Hrun as <- <-.
    now rewrite Nat.add_0_r.
  - simpl in Hrun. unfold bind in Hrun.
    destruct (body k acc s) as [acc1 s1 | e s1] eqn:Hb; [| discriminate].
    replace (k + Datatypes.S m)%nat with (Datatypes.S k + m)%nat by lia.
    apply (IH (Datatypes.S k) acc1 s1); [lia | | exact Hrun].
    apply (Hstep k acc s); auto. lia.
Qed.

(** Total correctness: when every iteration returns under the invariant,
    the loop returns. *)
Lemma for_each_total {S : Type} (body : nat -> S -> M S)
    (Inv : nat -> S -> ThermalStorage -> Prop) (hi : nat) :
  (forall t acc s,
      (t < hi)%nat -> Inv t acc s ->
      exists acc' s', body t acc s = Return acc' s'
                      /\ Inv (Datatypes.S t) acc' s') ->
  forall m k acc s,
    (k + m <= hi)%nat -> Inv k acc s ->
    exists acc' s', for_each body (seq k m) acc s = Return acc' s'
                    /\ Inv (k + m)%nat acc' s'.
Proof.
  intros Hstep. induction m as [| m IH]; intros k acc s Hk HI.
  - exists acc, s. rewrite Nat.add_0_r. split; [reflexivity | assumption].
  - destruct (Hstep k acc s) as (acc1 & s1 & Hb & HI1); [lia | assumption |].
    destruct (IH (Datatypes.S k) acc1 s1) as (acc2 & s2 & Hrun & HI2);
      [lia | assumption |].
    exists acc2, s2. split.
    + simpl. unfold bind. rewrite Hb. exact Hrun.
    + replace (k + Datatypes.S m)%nat with (Datatypes.S k + m)%nat by lia.
      exact HI2.
Qed.

(** ** The object's immutable attributes *)

Lemma calculate_heat_loss_attributes (s s' : ThermalStorage) (T : float) :
  attributes s = attributes s' ->
  calculate_heat_loss s T = calculate_heat_loss s' T.
Proof.
  intros H. unfold calculate_heat_loss. now attr_rewrite H.
Qed.

Lemma update_same {A : Type} (a : list A) (i : nat) (d : A) :
  update a i (nth i a d) = a.
Proof.
  revert i. induction a as [| x a IH]; intros [| i]; simpl; auto.
  now rewrite IH.
Qed.

Lemma set_T_sto_same (s : ThermalStorage) : set_T_sto (T_sto s) s = s.
Proof. destruct s. reflexivity. Qed.

Lemma index_nth {A : Type} (a : list A) (i : nat) (d : A) :
  (i < length a)%nat -> index a i = Ok (nth i a d).
Proof.
  intros H. unfold index. now rewrite (nth_error_nth' a d H).
Qed.

Lemma index_py_nat {A : Type} (a : list A) (i : nat) (d : A) :
  (i < length a)%nat -> index_py a (Z.of_nat i) = Ok (nth i a d).
Proof.
  intros H. unfold index_py. rewrite py_get_nat.
  now rewrite (nth_error_nth' a d H).
Qed.

Lemma index_py_before {A : Type} (a : list A) (t : nat) (d : A) :
  (t < length a)%nat ->
  index_py a (Z.of_nat t - 1) = Ok (nth (before (length a) t) a d).
Proof.
  intros H. unfold index_py. destruct t as [| t].
  - rewrite py_get_minus_one. simpl.
    rewrite (nth_error_nth' a d); [reflexivity | lia].
  - rewrite py_get_pred by lia. simpl. rewrite Nat.sub_0_r.
    rewrite (nth_error_nth' a d); [reflexivity | lia].
Qed.

Lemma store_in {A : Type} (a : list A) (i : nat) (v : A) :
  (i < length a)%nat -> store a i v = Ok (update a i v).
Proof.
  intros H. unfold store. destruct (Nat.ltb_spec i (length a)); [auto | lia].
Qed.

Lemma update_update {A : Type} (a : list A) (i : nat) (v w : A) :
  update (update a i v) i w = update a i w.
Proof.
  revert i. induction a as [| x a IH]; intros [| i]; simpl; auto.
  now rewrite IH.
Qed.

(** ** The single-node simulator, step by step *)

Lemma simulate_step_eq (Q_in Q_out : list R) (t : nat) (s : ThermalStorage) :
  arrays_sized s -> (t < hours s)%nat ->
  simulate_step Q_in Q_out t s
  = match calculate_heat_loss s (nth (before (hours s) t) (T_sto s) NaN) with
    | Err e => Raise e s
    | Ok loss =>
        let s1 := set_Q_loss (update (Q_loss s) t (as_float64 loss)) s in
        match t with
        | O => Return tt (after_step s t loss 0 0)
        | Datatypes.S _ =>
            match index Q_in t with
            | Err e => Raise e s1
            | Ok q_in =>
                match index Q_out t with
                | Err e => Raise e s1
                | Ok q_out => Return tt (after_step s t loss q_in q_out)
                end
            end
        end
    end.
Proof.
  intros (HQ & HL & HT) Ht.
  unfold simulate_step, bind, getitem, setitem, read, lift_result, ret.
  rewrite (index_py_before (T_sto s) t NaN) by lia. rewrite HT.
  destruct (calculate_heat_loss s _) as [loss | e]; [| reflexivity].
  rewrite store_in by lia.
  destruct t as [| t'].
  - obj.
    rewrite (index_py_nat (T_sto s) 0 NaN) by lia. obj.
    rewrite store_in by lia. obj.
    rewrite (index_py_nat (T_sto s) 0 NaN) by lia. obj.
    unfold after_step, clamp, energy_at. obj.
    destruct (nth 0 (T_sto s) NaN >? T_max s)%fl.
    + obj. rewrite store_in by lia. reflexivity.
    + destruct (nth 0 (T_sto s) NaN <? T_min s)%fl.
      * obj. rewrite store_in by lia. reflexivity.
      * rewrite update_same.
        now rewrite <- (set_T_sto_same (set_Q_sto _ _)) at 1.
  - obj.
    rewrite (index_py_before (Q_sto s) (Datatypes.S t') NaN) by lia. obj.
    destruct (index Q_in (Datatypes.S t')) as [q_in | e]; [| reflexivity].
    destruct (index Q_out (Datatypes.S t')) as [q_out | e]; [| reflexivity].
    obj.
    rewrite (index_py_nat (update (Q_loss s) _ _) (Datatypes.S t') NaN)
      by (rewrite length_update; lia).
    rewrite nth_update_eq by lia. obj.
    rewrite store_in by lia. obj.
    rewrite (index_py_nat (update (Q_sto s) _ _) (Datatypes.S t') NaN)
      by (rewrite length_update; lia).
    rewrite nth_update_eq by lia. obj.
    rewrite store_in by lia. obj.
    rewrite (index_py_nat (update (T_sto s) _ _) (Datatypes.S t') NaN)
      by (rewrite length_update; lia).
    rewrite nth_update_eq by lia. obj.
    unfold after_step, clamp, temperature_at. obj.
    set (Tn := (_ + Fin (T_ref s))%fl).
    destruct (Tn >? T_max s)%fl.
    + obj. rewrite store_in by (rewrite length_update; lia). obj.
      now rewrite update_update.
    + destruct (Tn <? T_min s)%fl.
      * obj. rewrite store_in by (rewrite length_update; lia). obj.
        now rewrite update_update.
      * reflexivity.
Qed.

Lemma attributes_after_step (s : ThermalStorage) (t : nat)
    (loss : option float) (q_in q_out : R) :
  attributes (after_step s t loss q_in q_out) = attributes s.
Proof. destruct t; reflexivity. Qed.

Lemma hours_attributes (s s' : ThermalStorage) :
  attributes s = attributes s' -> hours s = hours s'.
Proof. intros H. exact (f_equal hours H). Qed.

Lemma storage_type_attributes (s s' : ThermalStorage) :
  attributes s = attributes s' -> storage_type s = storage_type s'.
Proof. intros H. exact (f_equal storage_type H). Qed.

Lemma energy_at_attributes (s s' : ThermalStorage) (T : float) :
  attributes s = attributes s' -> energy_at s T = energy_at s' T.
Proof.
  intros H. unfold energy_at. now attr_rewrite H.
Qed.

Lemma temperature_at_attributes (s s' : ThermalStorage) (Q : float) :
  attributes s = attributes s' -> temperature_at s Q = temperature_at s' Q.
Proof.
  intros H. unfold temperature_at. now attr_rewrite H.
Qed.

Lemma clamp_attributes (s s' : ThermalStorage) (x : float) :
  attributes s = attributes s' -> clamp s x = clamp s' x.
Proof.
  intros H. unfold clamp. now attr_rewrite H.
Qed.

Lemma arrays_sized_after_step (s : ThermalStorage) (t : nat)
    (loss : option float) (q_in q_out : R) :
  arrays_sized s -> arrays_sized (after_step s t loss q_in q_out).
Proof.
  intros (HQ & HL & HT). unfold arrays_sized.
  destruct t; simpl; rewrite !length_update; auto.
Qed.

(** ** The trajectory of the single-node simulator *)

Section SingleNodeTrace.
Variables Q_in Q_out : list R.
(** the object on which [simulate] is called *)
Variable s0 : ThermalStorage.

Lemma hour_ok_frame (s s' : ThermalStorage) (t : nat) :
  (forall j, (j <= t)%nat ->
             nth j (Q_sto s') NaN = nth j (Q_sto s) NaN
             /\ nth j (Q_loss s') NaN = nth j (Q_loss s) NaN
             /\ nth j (T_sto s') NaN = nth j (T_sto s) NaN) ->
  hour_ok Q_in Q_out s0 s t -> hour_ok Q_in Q_out s0 s' t.
Proof.
  intros Hf. destruct t as [| t']; simpl.
  - intros (loss & H1 & H2 & H3 & H4).
    destruct (Hf 0%nat) as (E1 & E2 & E3); [lia |].
    exists loss. rewrite E1, E2, E3. auto.
  - intros (loss & q_in & q_out & H1 & H2 & H3 & H4 & H5 & H6).
    destruct (Hf (Datatypes.S t')) as (E1 & E2 & E3); [lia |].
    destruct (Hf t') as (F1 & F2 & F3); [lia |].
    exists loss, q_in, q_out. rewrite E1, E2, E3, F1, F3. auto 10.
Qed.

Lemma after_step_frame (s : ThermalStorage) (t j : nat)
    (loss : option float) (q_in q_out : R) :
  t <> j ->
  nth j (Q_sto (after_step s t loss q_in q_out)) NaN = nth j (Q_sto s) NaN
  /\ nth j (Q_loss (after_step s t loss q_in q_out)) NaN
     = nth j (Q_loss s) NaN
  /\ nth j (T_sto (after_step s t loss q_in q_out)) NaN
     = nth j (T_sto s) NaN.
Proof.
  intros H. destruct t; simpl; rewrite !nth_update_neq by lia; auto.
Qed.

Lemma single_inv_step (k : nat) (u : unit) (s : ThermalStorage) (u' : unit)
    (s' : ThermalStorage) :
  (k < hours s0)%nat -> single_inv Q_in Q_out s0 k u s ->
  simulate_step Q_in Q_out k s = Return u' s' ->
  single_inv Q_in Q_out s0 (Datatypes.S k) u' s'.
Proof.
  intros Hk (Ha & Hs & Hfut & Hpast) Hstep.
  pose proof (hours_attributes _ _ Ha) as Hh.
  pose proof Hs as (HQ & HL & HT).
  rewrite simulate_step_eq in Hstep by (auto; lia).
  rewrite (calculate_heat_loss_attributes s s0) in Hstep by assumption.
  destruct (calculate_heat_loss s0 _) as [loss | e] eqn:Hloss;
    [| discriminate].
  assert (Hres : exists q_in q_out,
             s' = after_step s k loss q_in q_out
             /\ (k <> 0%nat -> index Q_in k = Ok q_in
                               /\ index Q_out k = Ok q_out)).
  { destruct k as [| k'].
    - exists 0, 0. split; [congruence | lia].
    - cbn iota beta zeta in Hstep.
      destruct (index Q_in _) as [q_in |]; [| discriminate].
      destruct (index Q_out _) as [q_out |]; [| discriminate].
      exists q_in, q_out. split; [congruence | auto]. }
  destruct Hres as (q_in & q_out & -> & Hidx).
  unfold single_inv. repeat split.
  - now rewrite attributes_after_step.
  - apply arrays_sized_after_step; assumption.
  - apply arrays_sized_after_step; assumption.
  - apply arrays_sized_after_step; assumption.
  - intros j Hj.
    destruct (after_step_frame s k j loss q_in q_out) as (_ & _ & ->);
      [lia |].
    apply Hfut. lia.
  - intros t Ht.
    destruct (Nat.eq_dec t k) as [-> | Hne].
    + destruct k as [| k'].
      * simpl. exists loss. rewrite Hh in Hloss. simpl in Hloss.
        rewrite (Hfut (hours s0 - 1)%nat) in Hloss by lia.
        rewrite !nth_update_eq by lia.
        rewrite (Hfut 0%nat) by lia.
        rewrite (energy_at_attributes s s0), (clamp_attributes s s0)
          by assumption.
        auto.
      * destruct Hidx as (Hi & Ho); [lia |].
        simpl. exists loss, q_in, q_out.
        rewrite !nth_update_eq by lia.
        rewrite !nth_update_neq by lia.
        simpl in Hloss.
        rewrite (temperature_at_attributes s s0), (clamp_attributes s s0)
          by assumption.
        auto 10.
    + apply (hour_ok_frame s); [| apply Hpast; lia].
      intros j Hj. apply after_step_frame. lia.
Qed.

(** Every hour of a returning run satisfies the recurrence. *)
Lemma simulate_trace (s : ThermalStorage) :
  arrays_sized s0 ->
  simulate Q_in Q_out s0 = Return tt s ->
  attributes s = attributes s0 /\ arrays_sized s
  /\ forall t, (t < hours s0)%nat -> hour_ok Q_in Q_out s0 s t.
Proof.
  intros Hs Hrun. unfold simulate, range in Hrun.
  pose proof (for_each_invariant
                (fun t _ => simulate_step Q_in Q_out t)
                (single_inv Q_in Q_out s0)
                (hours s0)) as Hloop.
  specialize (Hloop (fun t u s1 u' s1' Ht HI Hb =>
                       single_inv_step t u s1 u' s1' Ht HI Hb)).
  specialize (Hloop (hours s0) 0%nat tt s0 tt s).
  simpl in Hloop.
  destruct Hloop as (Ha & Hsz & _ & Hpast); auto.
  unfold single_inv. repeat split; try apply Hs; intros; lia.
Qed.

(** The run returns when the inputs cover the horizon and the heat loss
    of the storage type does not raise. *)
Lemma simulate_returns :
  arrays_sized s0 ->
  (hours s0 <= length Q_in)%nat -> (hours s0 <= length Q_out)%nat ->
  (forall T, exists loss, calculate_heat_loss s0 T = Ok loss) ->
  exists s, simulate Q_in Q_out s0 = Return tt s.
Proof.
  intros Hs Hin Hout Hloss. unfold simulate, range.
  pose proof (for_each_total
                (fun t _ => simulate_step Q_in Q_out t)
                (fun _ _ s => attributes s = attributes s0
                              /\ arrays_sized s)
                (hours s0)) as Hloop.
  destruct (Hloop) with (m := hours s0) (k := 0%nat) (acc := tt) (s := s0)
    as (u & s & Hrun & _); auto.
  - intros t u s Ht (Ha & Hsz).
    pose proof (hours_attributes _ _ Ha) as Hh.
    rewrite simulate_step_eq by (auto; lia).
    rewrite (calculate_heat_loss_attributes s s0) by assumption.
    destruct (Hloss (nth (before (hours s) t) (T_sto s) NaN)) as (l & ->).
    destruct t as [| t'].
    + eexists tt, _. split; [reflexivity |].
      rewrite attributes_after_step. split; auto.
      now apply arrays_sized_after_step.
    + cbn iota beta zeta.
      rewrite (index_nth Q_in _ 0) by lia.
      rewrite (index_nth Q_out _ 0) by lia.
      eexists tt, _. split; [reflexivity |].
      rewrite attributes_after_step. split; auto.
      now apply arrays_sized_after_step.
  - destruct u. eauto.
Qed.
End SingleNodeTrace.

(** ** Construction *)

Lemma init_inv (p : Params.t) (s : ThermalStorage) :
  __init__ p = Ok s ->
  (0 < Params.hours p)%nat
  /\ compute_geometry (Params.storage_type p) (Params.dimensions p)
     = Ok (volume s, S_top s, S_side s, S_bottom s)
  /\ s = mkThermalStorage
           (Params.storage_type p) (Params.dimensions p) (Params.rho p)
           (Params.cp p) (Params.T_ref p) (Params.lambda_top p)
           (Params.lambda_side p) (Params.lambda_bottom p)
           (Params.lambda_soil p) (Params.T_amb p) (Params.T_soil p)
           (Params.T_max p) (Params.T_min p) (Params.dt_top p)
           (Params.ds_side p) (Params.db_bottom p) (Params.hours p)
           (Params.num_layers p) (Params.thermal_conductivity p)
           (np_zeros (Params.hours p)) (np_zeros (Params.hours p))
           (update (np_zeros (Params.hours p)) 0 (Fin (Params.initial_temp p)))
           (volume s) (S_top s) (S_side s) (S_bottom s) [] [].
Proof.
  unfold __init__. intros H.
  destruct (Params.hours p) as [| h] eqn:Hh; [discriminate |].
  cbn [np_zeros repeat] in H.
  destruct (compute_geometry _ _) as [[[[v st] ss] sb] | e]; [| discriminate].
  injection H as <-. simpl. repeat split; auto. lia.
Qed.

Lemma length_np_zeros (n : nat) : length (np_zeros n) = n.
Proof. apply repeat_length. Qed.

Lemma nth_repeat_lt {A : Type} (x d : A) (n i : nat) :
  (i < n)%nat -> nth i (repeat x n) d = x.
Proof.
  revert i. induction n as [| n IH]; intros [| i] H; simpl; try lia; auto.
  apply IH. lia.
Qed.

Lemma init_arrays (p : Params.t) (s : ThermalStorage) :
  __init__ p = Ok s ->
  arrays_sized s
  /\ (0 < hours s)%nat
  /\ hours s = Params.hours p
  /\ storage_type s = Params.storage_type p
  /\ nth 0 (T_sto s) NaN = Fin (Params.initial_temp p)
  /\ (forall j, (0 < j < hours s)%nat -> nth j (T_sto s) NaN = Fin 0).
Proof.
  intros H. destruct (init_inv p s H) as (Hh & _ & Hs).
  rewrite Hs. unfold arrays_sized. simpl.
  rewrite length_update, !length_np_zeros.
  repeat split; auto.
  - apply nth_update_eq. rewrite length_np_zeros. lia.
  - intros j Hj. rewrite nth_update_neq by lia.
    apply nth_repeat_lt. lia.
Qed.

Lemma init_rejects (p : Params.t) :
  (0 < Params.hours p)%nat ->
  ~ In (Params.storage_type p) constructor_storage_types ->
  __init__ p = Err (ValueError "Unsupported storage type").
Proof.
  intros Hh Hst. unfold __init__.
  destruct (Params.hours p) as [| h]; [lia |].
  cbn [np_zeros repeat].
  now rewrite (compute_geometry_unsupported _ _ Hst).
Qed.

(** ** The lumped heat loss by storage type *)

Lemma calculate_heat_loss_underground_thin (s : ThermalStorage) (T : float)
    (radius height : R) :
  storage_type s = "cylindrical_underground"%string ->
  dimensions s = [radius; height] ->
  ds_side s <= 2 * ((lambda_side s / lambda_soil s) * radius * (37 / 100)) ->
  calculate_heat_loss s T = Err thin_insulation.
Proof.
  intros Hst Hd Hthin. unfold calculate_heat_loss.
  rewrite Hst, Hd. cbn [str_eq String.eqb Ascii.eqb Bool.eqb index nth_error rbind].
  now rewrite Rltb_false.
Qed.

Lemma calculate_heat_loss_cylindrical (s : ThermalStorage) (T : float) :
  storage_type s = "cylindrical"%string ->
  calculate_heat_loss s T = Ok None.
Proof.
  intros Hst. unfold calculate_heat_loss. now rewrite Hst.
Qed.

Lemma stratified_setup_unsupported (s : ThermalStorage) (n : nat) :
  ~ In (storage_type s) constructor_storage_types ->
  stratified_setup n s = Raise no_layer_thickness s.
Proof.
  intros H. unfold stratified_setup, bind, read.
  destruct (str_eq (storage_type s) "cylindrical") eqn:E1;
    [apply str_eq_true in E1; exfalso; apply H; rewrite E1; simpl; auto |].
  destruct (str_eq (storage_type s) "truncated_cone") eqn:E2;
    [apply str_eq_true in E2; exfalso; apply H; rewrite E2; simpl; auto |].
  destruct (str_eq (storage_type s) "truncated_trapezoid") eqn:E3;
    [apply str_eq_true in E3; exfalso; apply H; rewrite E3; simpl; auto |].
  reflexivity.
Qed.

Lemma underground_not_constructible :
  ~ In "cylindrical_underground"%string constructor_storage_types.
Proof. simpl. intros [H | [H | [H | []]]]; discriminate. Qed.

(** ** Underground cylinder with thin side insulation (claim C7) *)

(** C7: for an underground cylinder whose side insulation is not thicker
    than twice [d_min = (lambda_side / lambda_soil) * R * 0.37], no run
    produces results.  [simulate] raises the ValueError of the thickness
    check in its first statement and leaves the object as it was;
    [simulate_stratified] raises a ValueError before its loop and leaves the
    object as it was; and the constructor itself raises a ValueError for
    this storage type, so both runs from the constructor fail before any
    step.  (ValueError is the exception that the specification calls
    ConfigurationError.) *)
Theorem underground_thin_insulation_raises
    (self : ThermalStorage) (Q_in Q_out : list R) (n : nat)
    (k radius height : R) :
  storage_type self = "cylindrical_underground"%string ->
  dimensions self = [radius; height] ->
  lambda_soil self <> 0 ->
  ds_side self
  <= 2 * ((lambda_side self / lambda_soil self) * radius * (37 / 100)) ->
  arrays_sized self ->
  (0 < hours self)%nat ->
  simulate Q_in Q_out self = Raise thin_insulation self
  /\ simulate_stratified Q_in Q_out n k self = Raise no_layer_thickness self
  /\ forall p : Params.t,
       Params.storage_type p = storage_type self ->
       (0 < Params.hours p)%nat ->
       run_single_node p Q_in Q_out
       = Err (ValueError "Unsupported storage type")
       /\ run_stratified p Q_in Q_out n k
          = Err (ValueError "Unsupported storage type").
Proof.
  intros Hst Hd _ Hthin Hs Hh.
  split; [| split; [| intros p Hp Hhp; split]].
  - unfold simulate, range.
    destruct (hours self) as [| h] eqn:Eh; [lia |].
    cbn [seq for_each]. unfold bind.
    rewrite simulate_step_eq by (auto; lia).
    now rewrite (calculate_heat_loss_underground_thin self _ radius height).
  - unfold simulate_stratified, simulate_stratified_steps, bind.
    rewrite stratified_setup_unsupported; [reflexivity |].
    rewrite Hst. apply underground_not_constructible.
  - unfold run_single_node. rewrite init_rejects; auto.
    rewrite Hp, Hst. apply underground_not_constructible.
  - unfold run_stratified. rewrite init_rejects; auto.
    rewrite Hp, Hst. apply underground_not_constructible.
Qed.

(** The underground cylinder of radius 25 m with 0.3 m of side insulation:
    both simulators raise and leave the object as it was. *)
Lemma underground_thin_insulation_raises_witness :
  simulate [450; 450] [100; 100] underground_example
  = Raise thin_insulation underground_example
  /\ simulate_stratified [450; 450] [100; 100] 5 (6 / 10) underground_example
     = Raise no_layer_thickness underground_example.
Proof.
  destruct (underground_thin_insulation_raises underground_example
              [450; 450] [100; 100] 5 (6 / 10) 25 25) as (H1 & H2 & _).
  - reflexivity.
  - reflexivity.
  - simpl. lra.
  - simpl. lra.
  - unfold arrays_sized. simpl. auto.
  - simpl. lia.
  - split; assumption.
Defined.

(** ** Plain cylinder in the single-node simulator (claim C9) *)

Lemma fadd_NaN_r (x : float) : (x + NaN)%fl = NaN.
Proof. destruct x; reflexivity. Qed.

Lemma fsub_NaN_r (x : float) : (x - NaN)%fl = NaN.
Proof. destruct x; reflexivity. Qed.

(** A run of [simulate] on a plain cylinder returns, and fills the arrays
    with [NaN]: the heat loss of every hour, and the stored energy and the
    temperature of every hour after hour 0. *)
Lemma simulate_cylindrical (Q_in Q_out : list R) (s0 : ThermalStorage) :
  storage_type s0 = "cylindrical"%string ->
  arrays_sized s0 ->
  (hours s0 <= length Q_in)%nat -> (hours s0 <= length Q_out)%nat ->
  exists s,
    simulate Q_in Q_out s0 = Return tt s
    /\ (forall t, (t < hours s0)%nat -> nth t (Q_loss s) NaN = NaN)
    /\ (forall t, (0 < t < hours s0)%nat ->
                  nth t (Q_sto s) NaN = NaN /\ nth t (T_sto s) NaN = NaN).
Proof.
  intros Hst Hs Hin Hout.
  destruct (simulate_returns Q_in Q_out s0 Hs Hin Hout) as (s & Hrun).
  { intros T. exists None. now apply calculate_heat_loss_cylindrical. }
  exists s. split; [assumption |].
  destruct (simulate_trace Q_in Q_out s0 s Hs Hrun) as (Ha & Hsz & Hok).
  assert (Hl : forall t, (t < hours s0)%nat -> nth t (Q_loss s) NaN = NaN).
  { intros t Ht. specialize (Hok t Ht).
    destruct t as [| t']; unfold hour_ok in Hok.
    - destruct Hok as (loss & H1 & H2 & _).
      rewrite calculate_heat_loss_cylindrical in H1 by assumption.
      injection H1 as <-. exact H2.
    - destruct Hok as (loss & q_in & q_out & H1 & _ & _ & H2 & _).
      rewrite calculate_heat_loss_cylindrical in H1 by assumption.
      injection H1 as <-. exact H2. }
  split; [exact Hl |].
  intros t Ht. pose proof (Hok t (proj2 Ht)) as Hk.
  destruct t as [| t']; [lia |]. unfold hour_ok in Hk.
  destruct Hk as (loss & q_in & q_out & _ & _ & _ & _ & HQ & HT).
  rewrite (Hl (S t')) in HQ by lia.
  rewrite fsub_NaN_r, fadd_NaN_r in HQ.
  split; [exact HQ |].
  now rewrite HT, HQ.
Qed.

Lemma init_cylinder (p : Params.t) :
  Params.storage_type p = "cylindrical"%string ->
  length (Params.dimensions p) = 2%nat ->
  (0 < Params.hours p)%nat ->
  exists s0, __init__ p = Ok s0.
Proof.
  intros Hst Hd Hh. unfold __init__.
  destruct (Params.hours p) as [| h]; [lia |]. cbn [np_zeros repeat].
  rewrite Hst. unfold compute_geometry. cbn [str_eq String.eqb Ascii.eqb Bool.eqb].
  destruct (Params.dimensions p) as [| r [| h' [| ? ?]]]; simpl in Hd; try lia.
  cbn [calculate_cylindrical_geometry]. eauto.
Qed.

(** C9, counterexample: the single-node run of a plain cylinder does not
    fail.  It returns, with [nan] as the heat loss of both hours. *)
Lemma cylindrical_run_does_not_raise :
  exists s,
    run_single_node cylinder_params [450; 450] [100; 100] = Ok (Return tt s)
    /\ ~ raises (Return tt s)
    /\ nth 0 (Q_loss s) NaN = NaN
    /\ nth 1 (Q_loss s) NaN = NaN.
Proof.
  destruct (init_cylinder cylinder_params) as (s0 & Hinit);
    [reflexivity | reflexivity | simpl; lia |].
  destruct (init_arrays _ _ Hinit) as (Hs & Hh & Hhp & Hst & _).
  simpl in Hhp, Hst.
  destruct (simulate_cylindrical [450; 450] [100; 100] s0)
    as (s & Hrun & Hl & _); auto; try (rewrite Hhp; simpl; lia).
  exists s. unfold run_single_node. rewrite Hinit, Hrun.
  repeat split; auto; apply Hl; lia.
Qed.

(** C9, amended: for the storage type [cylindrical] the lumped heat loss
    matches no branch and returns [None] for every temperature; the
    single-node simulator stores it as [nan] and does not fail: the run
    returns, the heat loss of every hour is [nan], and the stored energy and
    the temperature of every hour after hour 0 are [nan]. *)
Theorem cylindrical_single_node_nan (p : Params.t) (Q_in Q_out : list R) :
  Params.storage_type p = "cylindrical"%string ->
  length (Params.dimensions p) = 2%nat ->
  (0 < Params.hours p)%nat ->
  (Params.hours p <= length Q_in)%nat ->
  (Params.hours p <= length Q_out)%nat ->
  exists s0 s,
    __init__ p = Ok s0
    /\ (forall T, calculate_heat_loss s0 T = Ok None)
    /\ run_single_node p Q_in Q_out = Ok (Return tt s)
    /\ (forall t, (t < Params.hours p)%nat -> nth t (Q_loss s) NaN = NaN)
    /\ (forall t, (0 < t < Params.hours p)%nat ->
                  nth t (Q_sto s) NaN = NaN /\ nth t (T_sto s) NaN = NaN).
Proof.
  intros Hst Hd Hh Hin Hout.
  destruct (init_cylinder p Hst Hd Hh) as (s0 & Hinit).
  destruct (init_arrays _ _ Hinit) as (Hs & _ & Hhp & Hst0 & _).
  rewrite Hst in Hst0.
  destruct (simulate_cylindrical Q_in Q_out s0)
    as (s & Hrun & Hl & Hq); auto; try lia.
  exists s0, s. unfold run_single_node. rewrite Hinit, Hrun, <- Hhp.
  repeat split; auto; try apply Hq; auto.
  intros T. now apply calculate_heat_loss_cylindrical.
Qed.

(** The plain cylinder of the example over two hours. *)
Lemma cylindrical_single_node_nan_witness :
  exists s0 s,
    __init__ cylinder_params = Ok s0
    /\ (forall T, calculate_heat_loss s0 T = Ok None)
    /\ run_single_node cylinder_params [450; 450] [100; 100]
       = Ok (Return tt s)
    /\ (forall t, (t < 2)%nat -> nth t (Q_loss s) NaN = NaN)
    /\ (forall t, (0 < t < 2)%nat ->
                  nth t (Q_sto s) NaN = NaN /\ nth t (T_sto s) NaN = NaN).
Proof.
  apply (cylindrical_single_node_nan cylinder_params [450; 450] [100; 100]).
  - reflexivity.
  - reflexivity.
  - simpl; lia.
  - simpl; lia.
  - simpl; lia.
Defined.

(** ** Pit storages (truncated cone and truncated trapezoid) *)

Lemma calculate_heat_loss_pit (s : ThermalStorage) (T : float) (H d1 : R) :
  is_pit s ->
  index (dimensions s) 2 = Ok H -> index (dimensions s) 1 = Ok d1 ->
  calculate_heat_loss s T
  = Ok (Some (((T - T_soil s) * K_side s H * S_side s
               + (T - T_soil s) * K_bottom s H d1 * S_bottom s) / 1000)%fl).
Proof.
  intros [Hst | Hst] H2 H1; unfold calculate_heat_loss;
    rewrite Hst, H2, H1; reflexivity.
Qed.

Lemma ln_pos (x : R) : 1 < x -> 0 < ln x.
Proof.
  intros H. rewrite <- ln_1. apply ln_increasing; lra.
Qed.

Lemma log_coefficient_pos (a b d m : R) :
  0 < a -> 0 < b -> 0 < d -> 0 < m ->
  0 < (1 / (m * b * d)) * ln ((a + b * d) / a).
Proof.
  intros Ha Hb Hd Hm.
  assert (Hbd : 0 < b * d) by (apply Rmult_lt_0_compat; assumption).
  apply Rmult_lt_0_compat.
  - apply Rdiv_lt_0_compat; [lra |].
    apply Rmult_lt_0_compat; [apply Rmult_lt_0_compat |]; assumption.
  - apply ln_pos.
    apply (Rmult_lt_reg_r a); [assumption |].
    unfold Rdiv. rewrite Rmult_assoc, Rinv_l by lra. lra.
Qed.

Lemma K_side_pos (s : ThermalStorage) (H : R) :
  0 < ds_side s / lambda_side s -> 0 < lambda_soil s -> 0 < H ->
  0 < K_side s H.
Proof.
  intros Hd Hs HH. unfold K_side.
  pose proof PI_RGT_0 as Hpi.
  assert (Hb : 0 < PI / lambda_soil s) by (apply Rdiv_lt_0_compat; lra).
  assert (Hc : 0 < PI * H / (2 * lambda_soil s)).
  { apply Rdiv_lt_0_compat; [apply Rmult_lt_0_compat |]; lra. }
  replace (1 / (PI / lambda_soil s * H))
    with (1 / (1 * (PI / lambda_soil s) * H)) by (f_equal; ring).
  apply log_coefficient_pos; lra.
Qed.

Lemma K_bottom_pos (s : ThermalStorage) (H d1 : R) :
  0 < db_bottom s / lambda_bottom s -> 0 < lambda_soil s -> 0 < H ->
  0 < d1 -> 0 < K_bottom s H d1.
Proof.
  intros Hd Hs HH H1. unfold K_bottom.
  pose proof PI_RGT_0 as Hpi.
  assert (Hb : 0 < PI / lambda_soil s) by (apply Rdiv_lt_0_compat; lra).
  assert (Hc : 0 < PI * H / (2 * lambda_soil s)).
  { apply Rdiv_lt_0_compat; [apply Rmult_lt_0_compat |]; lra. }
  apply log_coefficient_pos; lra.
Qed.

Lemma init_trapezoid_params (Tsoil Tmin T0 : R) (h : nat) :
  (0 < h)%nat ->
  exists s0,
    __init__ (trapezoid_params Tsoil Tmin T0 h) = Ok s0
    /\ is_pit s0
    /\ dimensions s0 = [20; 20; 50; 50; 15]
    /\ rho s0 = 1000 /\ cp s0 = 4180 /\ T_ref s0 = 10
    /\ lambda_top s0 = 4 / 100 /\ dt_top s0 = 3 / 10
    /\ ds_side s0 / lambda_side s0 = 40 / 3
    /\ db_bottom s0 / lambda_bottom s0 = 10
    /\ lambda_soil s0 = 15 / 10
    /\ T_amb s0 = 10 /\ T_soil s0 = Tsoil
    /\ T_max s0 = 95 /\ T_min s0 = Tmin
    /\ S_top s0 = 400 /\ S_bottom s0 = 2500 /\ 0 < S_side s0
    /\ 0 < volume s0.
Proof.
  intros Hh. unfold __init__.
  destruct h as [| h]; [lia |].
  cbn [Params.hours trapezoid_params np_zeros repeat].
  cbn [Params.storage_type Params.dimensions compute_geometry str_eq
       String.eqb Ascii.eqb Bool.eqb calculate_truncated_trapezoid_geometry].
  eexists. split; [reflexivity |].
  assert (Hs1 : 0 < sqrt ((20 - 50) ^ 2 + 15 ^ 2)) by (apply sqrt_lt_R0; lra).
  assert (Hs2 : 0 <= sqrt (20 * 20 * (50 * 50))) by apply sqrt_pos.
  unfold is_pit. obj. params.
  repeat split; auto; try lra; try (field; lra).
Qed.

Lemma calculate_heat_loss_pit_total (s : ThermalStorage) :
  is_pit s -> (3 <= length (dimensions s))%nat ->
  forall T, exists loss, calculate_heat_loss s T = Ok loss.
Proof.
  intros Hp Hd T.
  eexists. apply (calculate_heat_loss_pit s T (nth 2 (dimensions s) 0)
                    (nth 1 (dimensions s) 0)); auto;
    apply index_nth; lia.
Qed.

(** A single-node run of the example trapezoid returns when the inputs
    cover the horizon. *)
Lemma trapezoid_run_returns (Tsoil Tmin T0 : R) (h : nat)
    (Q_in Q_out : list R) (s0 : ThermalStorage) :
  __init__ (trapezoid_params Tsoil Tmin T0 h) = Ok s0 ->
  (h <= length Q_in)%nat -> (h <= length Q_out)%nat ->
  exists s,
    simulate Q_in Q_out s0 = Return tt s
    /\ run_single_node (trapezoid_params Tsoil Tmin T0 h) Q_in Q_out
       = Ok (Return tt s).
Proof.
  intros Hinit Hin Hout.
  destruct (init_arrays _ _ Hinit) as (Hs & Hh & Hhp & _).
  simpl in Hhp.
  destruct (init_trapezoid_params Tsoil Tmin T0 h) as
    (s0' & Hinit' & Hpit & Hd & _); [lia |].
  rewrite Hinit in Hinit'. injection Hinit' as <-.
  destruct (simulate_returns Q_in Q_out s0) as (s & Hrun); auto; try lia.
  { apply calculate_heat_loss_pit_total; [assumption | rewrite Hd; simpl; lia]. }
  exists s. split; [exact Hrun |].
  unfold run_single_node. now rewrite Hinit, Hrun.
Qed.

(** ** Hour 0 of the single-node simulator (claim C10) *)

(** C10, counterexample: with a horizon of one hour the cell [T_sto[-1]] is
    [T_sto[0]], so the heat loss of hour 0 is evaluated at the initial
    temperature 60 and is positive, where the loss at temperature 0 is
    negative. *)
Lemma hour_zero_loss_single_hour :
  exists s L L0,
    run_single_node (trapezoid_params 10 40 60 1) [450] [100]
    = Ok (Return tt s)
    /\ nth 0 (Q_loss s) NaN = Fin L
    /\ calculate_heat_loss s (Fin 0) = Ok (Some (Fin L0))
    /\ L0 < 0 < L.
Proof.
  destruct (init_trapezoid_params 10 40 60 1) as
    (s0 & Hinit & Hpit & Hd & _ & _ & _ & _ & _ & Hds & Hdb & Hsoil & _ & HTs
     & _ & _ & _ & HSb & HSs & _); [lia |].
  destruct (init_arrays _ _ Hinit) as (Hs & Hh & Hhp & _ & HT0 & _).
  simpl in Hhp.
  destruct (trapezoid_run_returns _ _ _ _ [450] [100] s0 Hinit)
    as (s & Hrun & Hfull); try (simpl; lia).
  destruct (simulate_trace [450] [100] s0 s Hs Hrun) as (Ha & _ & Hok).
  destruct (Hok 0%nat Hh) as (loss & H1 & HL & _).
  rewrite Hhp in H1. simpl (1 - 1)%nat in H1. rewrite HT0 in H1.
  simpl in H1.
  rewrite (calculate_heat_loss_pit s0 _ 50 20) in H1
    by (auto; rewrite Hd; reflexivity).
  injection H1 as <-.
  assert (HKs : 0 < K_side s0 50) by (apply K_side_pos; lra).
  assert (HKb : 0 < K_bottom s0 50 20) by (apply K_bottom_pos; lra).
  assert (HX1 : 0 < K_side s0 50 * S_side s0)
    by (apply Rmult_lt_0_compat; assumption).
  assert (HX2 : 0 < K_bottom s0 50 20 * S_bottom s0)
    by (apply Rmult_lt_0_compat; lra).
  eexists s, _, _. split; [exact Hfull |]. split; [exact HL |].
  split.
  - rewrite (calculate_heat_loss_attributes s s0) by assumption.
    rewrite (calculate_heat_loss_pit s0 _ 50 20)
      by (auto; rewrite Hd; reflexivity).
    reflexivity.
  - rewrite HTs. split; nra.
Qed.

(** C10, amended: in a run of the single-node simulator from the
    constructor with a horizon of at least two hours, the heat loss of hour 0
    is the lumped heat loss at temperature 0 (the zero-initialised last cell
    of the temperature array), not at the initial temperature; with a horizon
    of one hour the last cell is cell 0 and the loss is evaluated at the
    initial temperature. *)
Theorem hour_zero_loss_temperature (p : Params.t) (Q_in Q_out : list R)
    (s : ThermalStorage) :
  run_single_node p Q_in Q_out = Ok (Return tt s) ->
  exists loss,
    nth 0 (Q_loss s) NaN = as_float64 loss
    /\ ((2 <= Params.hours p)%nat -> calculate_heat_loss s (Fin 0) = Ok loss)
    /\ (Params.hours p = 1%nat ->
        calculate_heat_loss s (Fin (Params.initial_temp p)) = Ok loss).
Proof.
  unfold run_single_node. intros Hrun.
  destruct (__init__ p) as [s0 | e] eqn:Hinit; [| discriminate].
  injection Hrun as Hrun.
  destruct (init_arrays _ _ Hinit) as (Hs & Hh & Hhp & _ & HT0 & HTj).
  destruct (simulate_trace Q_in Q_out s0 s Hs Hrun) as (Ha & _ & Hok).
  destruct (Hok 0%nat Hh) as (loss & Hloss & HL & _).
  exists loss. split; [exact HL |].
  rewrite <- (calculate_heat_loss_attributes s s0) in Hloss by assumption.
  split; intros Hp.
  - rewrite HTj in Hloss by lia. exact Hloss.
  - replace (hours s0 - 1)%nat with 0%nat in Hloss by lia.
    now rewrite HT0 in Hloss.
Qed.

(** The example trapezoid over two hours: the loss of hour 0 is the loss at
    temperature 0. *)
Lemma hour_zero_loss_temperature_witness :
  exists s loss,
    run_single_node (trapezoid_params 10 40 60 2) [450; 450] [100; 100]
    = Ok (Return tt s)
    /\ nth 0 (Q_loss s) NaN = as_float64 loss
    /\ calculate_heat_loss s (Fin 0) = Ok loss.
Proof.
  destruct (init_trapezoid_params 10 40 60 2) as (s0 & Hinit & _); [lia |].
  destruct (trapezoid_run_returns _ _ _ _ [450; 450] [100; 100] s0 Hinit)
    as (s & _ & Hfull); try (simpl; lia).
  destruct (hour_zero_loss_temperature _ _ _ _ Hfull) as (loss & HL & H2 & _).
  exists s, loss. split; [exact Hfull |]. split; [exact HL |].
  apply H2. simpl. lia.
Defined.

(** ** Energy balance of the single-node simulator (claim C6) *)

Lemma clamp_inside (s : ThermalStorage) (x : R) :
  T_min s <= x <= T_max s -> clamp s (Fin x) = Fin x.
Proof.
  intros [H1 H2]. unfold clamp, fgt, flt.
  now rewrite !Rltb_false.
Qed.

(** In a returning run whose heat loss is 0 at every hour, the stored
    energy of every hour is a number. *)
Lemma zero_loss_energy_finite (p : Params.t) (Q_in Q_out : list R)
    (s : ThermalStorage) :
  run_single_node p Q_in Q_out = Ok (Return tt s) ->
  (forall j, (j < Params.hours p)%nat -> nth j (Q_loss s) NaN = Fin 0) ->
  forall t, (t < Params.hours p)%nat -> exists q, nth t (Q_sto s) NaN = Fin q.
Proof.
  unfold run_single_node. intros Hrun Hzero.
  destruct (__init__ p) as [s0 | e] eqn:Hinit; [| discriminate].
  injection Hrun as Hrun.
  destruct (init_arrays _ _ Hinit) as (Hs & Hh & Hhp & _ & HT0 & _).
  destruct (simulate_trace Q_in Q_out s0 s Hs Hrun) as (_ & _ & Hok).
  induction t as [| t IH]; intros Ht.
  - destruct (Hok 0%nat) as (loss & _ & _ & HQ & _); [lia |].
    rewrite HQ, HT0. eexists. reflexivity.
  - destruct IH as (q & Hq); [lia |].
    destruct (Hok (S t)) as (loss & q_in & q_out & _ & _ & _ & _ & HQ & _);
      [lia |].
    rewrite HQ, Hq, Hzero by lia. eexists. reflexivity.
Qed.

(** The energy balance of one hour of a returning run (line 275). *)
Lemma energy_balance_step (p : Params.t) (Q_in Q_out : list R)
    (s : ThermalStorage) (t : nat) :
  run_single_node p Q_in Q_out = Ok (Return tt s) ->
  (0 < t < Params.hours p)%nat ->
  exists q_in q_out,
    index Q_in t = Ok q_in /\ index Q_out t = Ok q_out
    /\ nth t (Q_sto s) NaN
       = (nth (t - 1) (Q_sto s) NaN
          + (Fin q_in - Fin q_out - nth t (Q_loss s) NaN))%fl.
Proof.
  unfold run_single_node. intros Hrun Ht.
  destruct (__init__ p) as [s0 | e] eqn:Hinit; [| discriminate].
  injection Hrun as Hrun.
  destruct (init_arrays _ _ Hinit) as (Hs & Hh & Hhp & _).
  destruct (simulate_trace Q_in Q_out s0 s Hs Hrun) as (_ & _ & Hok).
  destruct t as [| t']; [lia |].
  destruct (Hok (S t')) as (loss & q_in & q_out & _ & Hi & Ho & _ & HQ & _);
    [lia |].
  exists q_in, q_out. simpl. rewrite Nat.sub_0_r. auto.
Qed.

(** C6: in a run of the single-node simulator whose heat loss is zero at
    every hour, the stored energy of every hour after hour 0 exceeds that of
    the hour before by exactly [Q_in[t] - Q_out[t]].  The temperature bounds
    play no part: the balance holds whatever [T_min] and [T_max] are. *)
Theorem single_node_energy_conservation (p : Params.t) (Q_in Q_out : list R)
    (s : ThermalStorage) (t : nat) :
  run_single_node p Q_in Q_out = Ok (Return tt s) ->
  (forall j, (j < Params.hours p)%nat -> nth j (Q_loss s) NaN = Fin 0) ->
  (0 < t < Params.hours p)%nat ->
  exists q_in q_out,
    index Q_in t = Ok q_in /\ index Q_out t = Ok q_out
    /\ (nth t (Q_sto s) NaN - nth (t - 1) (Q_sto s) NaN)%fl
       = Fin (q_in - q_out).
Proof.
  intros Hrun Hzero Ht.
  destruct (energy_balance_step p Q_in Q_out s t Hrun Ht)
    as (q_in & q_out & Hi & Ho & HQ).
  destruct (zero_loss_energy_finite p Q_in Q_out s Hrun Hzero (t - 1)%nat)
    as (q & Hq); [lia |].
  exists q_in, q_out. repeat split; auto.
  rewrite HQ, Hq, Hzero by lia. simpl. f_equal. lra.
Qed.

Lemma zero_loss_example_run :
  exists s,
    run_single_node (trapezoid_params 0 (-10) 0 2) [450; 450] [100; 100]
    = Ok (Return tt s)
    /\ forall j, (j < 2)%nat -> nth j (Q_loss s) NaN = Fin 0.
Proof.
  destruct (init_trapezoid_params 0 (-10) 0 2) as
    (s0 & Hinit & Hpit & Hd & _ & _ & _ & _ & _ & _ & _ & _ & _ & HTs
     & HTmax & HTmin & _); [lia |].
  destruct (init_arrays _ _ Hinit) as (Hs & Hh & Hhp & _ & HT0 & HTj).
  simpl in Hhp, HT0.
  destruct (trapezoid_run_returns _ _ _ _ [450; 450] [100; 100] s0 Hinit)
    as (s & Hrun & Hfull); try (simpl; lia).
  exists s. split; [exact Hfull |].
  destruct (simulate_trace _ _ s0 s Hs Hrun) as (Ha & _ & Hok).
  assert (Hzero : calculate_heat_loss s0 (Fin 0) = Ok (Some (Fin 0))).
  { rewrite (calculate_heat_loss_pit s0 _ 50 20)
      by (auto; rewrite Hd; reflexivity).
    rewrite HTs. simpl. do 3 f_equal. lra. }
  assert (H0 : hour_ok [450; 450] [100; 100] s0 s 0) by (apply Hok; lia).
  assert (H1 : hour_ok [450; 450] [100; 100] s0 s 1) by (apply Hok; lia).
  unfold hour_ok in H0, H1.
  destruct H0 as (l0 & Hl0 & HL0 & _ & HT).
  destruct H1 as (l1 & _ & _ & Hl1 & _ & _ & HL1 & _).
  rewrite Hhp, HTj in Hl0 by lia. simpl in Hl0.
  rewrite HT0, clamp_inside in HT by lra.
  rewrite HT in Hl1.
  rewrite Hzero in Hl0, Hl1.
  injection Hl0 as <-. injection Hl1 as <-.
  intros [| [| j]] Hj; try lia; assumption.
Qed.

(** The example trapezoid at the soil temperature 0: the loss is 0 at both
    hours and the stored energy grows by 450 - 100 at hour 1. *)
Lemma single_node_energy_conservation_witness :
  exists s,
    run_single_node (trapezoid_params 0 (-10) 0 2) [450; 450] [100; 100]
    = Ok (Return tt s)
    /\ (nth 1 (Q_sto s) NaN - nth 0 (Q_sto s) NaN)%fl = Fin (450 - 100).
Proof.
  destruct zero_loss_example_run as (s & Hrun & Hzero).
  exists s. split; [exact Hrun |].
  destruct (single_node_energy_conservation _ _ _ s 1%nat Hrun)
    as (q_in & q_out & Hi & Ho & HQ).
  - exact Hzero.
  - simpl. lia.
  - injection Hi as <-. injection Ho as <-. exact HQ.
Defined.

(** ** The per-layer heat loss *)

Lemma set_Q_loss_layers_same (s : ThermalStorage) :
  set_Q_loss_layers (Q_loss_layers s) s = s.
Proof. destruct s. reflexivity. Qed.

(** The loop over the layers when no layer raises: the cells [i ..] take
    the values that the layers assign, the other cells keep theirs. *)
Lemma stratified_loss_loop_ok (f : nat -> float -> option float) (n : nat)
    (layers : list float) :
  forall (i : nat) (s : ThermalStorage),
    (forall j T, stratified_layer_loss s n j T = Ok (f j T)) ->
    (i + length layers <= length (Q_loss_layers s))%nat ->
    exists a,
      stratified_loss_loop n i layers s = Return tt (set_Q_loss_layers a s)
      /\ length a = length (Q_loss_layers s)
      /\ (forall j, (j < i)%nat ->
                    nth j a NaN = nth j (Q_loss_layers s) NaN)
      /\ (forall k, (k < length layers)%nat ->
                    nth (i + k) a NaN
                    = assigned (f (i + k)%nat (nth k layers NaN))
                        (nth (i + k) (Q_loss_layers s) NaN)).
Proof.
  induction layers as [| T rest IH]; intros i s Hf Hlen.
  - exists (Q_loss_layers s). simpl. unfold ret.
    rewrite set_Q_loss_layers_same. repeat split; auto. intros k Hk. lia.
  - simpl in Hlen. cbn [stratified_loss_loop]. unfold bind, lift_result.
    rewrite Hf.
    destruct (f i T) as [q |] eqn:Hq.
    + unfold setitem. rewrite store_in by lia.
      destruct (IH (S i) (set_Q_loss_layers (update (Q_loss_layers s) i q) s))
        as (a & Hrun & Hla & Hlow & Hval).
      { exact Hf. }
      { obj. rewrite length_update. lia. }
      obj_in Hrun. obj_in Hla. obj_in Hlow. obj_in Hval.
      rewrite length_update in Hla.
      exists a. split; [exact Hrun |]. split; [exact Hla |]. split.
      * intros j Hj. rewrite Hlow by lia.
        apply nth_update_neq. lia.
      * intros [| k] Hk.
        -- rewrite Nat.add_0_r. rewrite Hlow by lia.
           rewrite nth_update_eq by lia. simpl. now rewrite Hq.
        -- replace (i + S k)%nat with (S i + k)%nat by lia.
           rewrite Hval by (simpl in Hk; lia).
           rewrite nth_update_neq by lia. reflexivity.
    + unfold ret.
      destruct (IH (S i) s) as (a & Hrun & Hla & Hlow & Hval);
        [exact Hf | lia |].
      exists a. split; [exact Hrun |]. split; [exact Hla |]. split.
      * intros j Hj. apply Hlow. lia.
      * intros [| k] Hk.
        -- rewrite Nat.add_0_r. rewrite Hlow by lia. simpl. now rewrite Hq.
        -- replace (i + S k)%nat with (S i + k)%nat by lia.
           apply Hval. simpl in Hk. lia.
Qed.

(** [calculate_stratified_heat_loss] when no layer raises. *)
Lemma calculate_stratified_heat_loss_ok (f : nat -> float -> option float)
    (layers : list float) (s : ThermalStorage) :
  (forall j T, stratified_layer_loss s (length layers) j T = Ok (f j T)) ->
  exists a,
    calculate_stratified_heat_loss layers s
    = Return (np_sum a) (set_Q_loss_layers a s)
    /\ length a = length layers
    /\ (forall k, (k < length layers)%nat ->
                  nth k a NaN = assigned (f k (nth k layers NaN)) (Fin 0)).
Proof.
  intros Hf. unfold calculate_stratified_heat_loss, bind, modify, read.
  destruct (stratified_loss_loop_ok f (length layers) layers 0
              (set_Q_loss_layers (np_zeros (length layers)) s))
    as (a & Hrun & Hla & _ & Hval).
  { exact Hf. }
  { obj. rewrite length_np_zeros. lia. }
  obj_in Hla. obj_in Hval. rewrite length_np_zeros in Hla.
  rewrite Hrun. exists a. obj. split; [reflexivity |].
  split; [exact Hla |].
  intros k Hk. specialize (Hval k Hk). simpl in Hval.
  rewrite Hval. unfold np_zeros. now rewrite nth_repeat_lt by lia.
Qed.

Lemma side_loss_form (K A T_r : R) (n : nat) (T : float) :
  (Fin K * A * (T - T_r) / INR n / 1000)%fl
  = surface_loss K (A / INR n) T_r T.
Proof.
  unfold surface_loss. destruct T; simpl; [| reflexivity].
  f_equal. unfold Rdiv. ring.
Qed.

Lemma side_loss_form_overground (K A T_r : R) (n : nat) (T : float) :
  (Fin K * (T - T_r) * A / INR n / 1000)%fl
  = surface_loss K (A / INR n) T_r T.
Proof.
  unfold surface_loss. destruct T; simpl; [| reflexivity].
  f_equal. unfold Rdiv. ring.
Qed.

Lemma is_last_spec (n i : nat) :
  is_last n i = true <-> (i + 1 = n)%nat.
Proof.
  unfold is_last. rewrite Z.eqb_eq. lia.
Qed.

Lemma stratified_layer_loss_overground (s : ThermalStorage) (radius : R)
    (rest : list R) (n i : nat) (T : float) :
  storage_type s = "cylindrical_overground"%string ->
  dimensions s = radius :: rest ->
  stratified_layer_loss s n i T
  = Ok (layer_assignment
          (surface_loss (K_top s) (S_top s) (T_amb s))
          (surface_loss (K_overground_bottom s radius) (S_bottom s) (T_amb s))
          (surface_loss (K_overground_side s) (S_side s / INR n) (T_amb s))
          n i T).
Proof.
  intros Hst Hd. unfold stratified_layer_loss, layer_assignment.
  rewrite Hst, Hd.
  cbn [str_eq String.eqb Ascii.eqb Bool.eqb index nth_error rbind].
  fold (is_last n i).
  destruct (i =? 0)%nat; [reflexivity |].
  destruct (is_last n i); [reflexivity |].
  now rewrite side_loss_form_overground.
Qed.

Lemma stratified_layer_loss_pit (s : ThermalStorage) (d0 d1 H : R)
    (rest : list R) (n i : nat) (T : float) :
  is_pit s ->
  dimensions s = d0 :: d1 :: H :: rest ->
  stratified_layer_loss s n i T
  = Ok (layer_assignment
          (surface_loss (K_top s) (S_top s) (T_amb s))
          (surface_loss (K_bottom s H d1) (S_bottom s) (T_soil s))
          (surface_loss (K_side s H) (S_side s / INR n) (T_soil s))
          n i T).
Proof.
  intros [Hst | Hst] Hd; unfold stratified_layer_loss, layer_assignment;
    rewrite Hst, Hd;
    cbn [str_eq String.eqb Ascii.eqb Bool.eqb index nth_error rbind orb];
    fold (is_last n i);
    (destruct (i =? 0)%nat; [reflexivity |]);
    (destruct (is_last n i); [reflexivity |]);
    now rewrite side_loss_form.
Qed.

Lemma stratified_layer_loss_underground (s : ThermalStorage)
    (radius height : R) (rest : list R) (n i : nat) (T : float) :
  storage_type s = "cylindrical_underground"%string ->
  dimensions s = radius :: height :: rest ->
  2 * ((lambda_side s / lambda_soil s) * radius * (37 / 100)) < ds_side s ->
  stratified_layer_loss s n i T
  = Ok (let sb :=
          surface_loss (K_sb s radius) (S_combined radius height / INR n)
            (T_soil s) in
        layer_assignment (surface_loss (K_top s) (S_top s) (T_amb s)) sb sb
          n i T).
Proof.
  intros Hst Hd Hthick. unfold stratified_layer_loss, layer_assignment.
  rewrite Hst, Hd.
  cbn [str_eq String.eqb Ascii.eqb Bool.eqb index nth_error rbind].
  rewrite Rltb_true by assumption.
  destruct (i =? 0)%nat; [reflexivity |].
  cbn zeta. rewrite side_loss_form.
  now destruct (is_last n i).
Qed.

Lemma stratified_layer_loss_undispatched (s : ThermalStorage) (n i : nat)
    (T : float) :
  storage_type s <> "cylindrical_overground"%string ->
  storage_type s <> "cylindrical_underground"%string ->
  ~ is_pit s ->
  stratified_layer_loss s n i T = Ok None.
Proof.
  intros H1 H2 H3. unfold stratified_layer_loss.
  apply str_eq_false in H1, H2. rewrite H1, H2.
  destruct (str_eq (storage_type s) "truncated_cone") eqn:E3;
    [apply str_eq_true in E3; exfalso; apply H3; now left |].
  destruct (str_eq (storage_type s) "truncated_trapezoid") eqn:E4;
    [apply str_eq_true in E4; exfalso; apply H3; now right |].
  reflexivity.
Qed.

Lemma layout_of_assignment (a T_layers : list float)
    (top bottom side : float -> float) :
  (2 <= length T_layers)%nat ->
  length a = length T_layers ->
  (forall k, (k < length T_layers)%nat ->
             nth k a NaN
             = assigned (layer_assignment top bottom side (length T_layers) k
                           (nth k T_layers NaN)) (Fin 0)) ->
  layout a T_layers top bottom side.
Proof.
  intros HN Hla Hval. unfold layout. split; [exact Hla |]. split; [| split].
  - rewrite Hval by lia. reflexivity.
  - rewrite Hval by lia. unfold layer_assignment, assigned.
    destruct (Nat.eqb_spec (length T_layers - 1) 0); [lia |].
    destruct (is_last (length T_layers) (length T_layers - 1)) eqn:E;
      [reflexivity |].
    assert (is_last (length T_layers) (length T_layers - 1) = true)
      by (apply is_last_spec; lia).
    congruence.
  - intros i Hi. rewrite Hval by lia. unfold layer_assignment, assigned.
    destruct (Nat.eqb_spec i 0); [lia |].
    destruct (is_last (length T_layers) i) eqn:E; [| reflexivity].
    apply is_last_spec in E. lia.
Qed.

(** ** The structure of the per-layer heat loss (claim C5) *)

Lemma cylinder_example_constructed :
  __init__ cylinder_params = Ok cylinder_example.
Proof. reflexivity. Qed.

(** C5, counterexample.  For the plain cylinder that the constructor builds,
    no layer is assigned a loss: the top layer at 60 degrees has the loss 0,
    where the top coefficient against the ambient temperature gives a
    positive loss.  For the underground cylinder an interior layer loses
    through the combined side and bottom area divided by the layer count,
    which is more than through the side area divided by the layer count. *)
Lemma per_layer_loss_not_by_position :
  (exists a x,
      calculate_stratified_heat_loss [Fin 60; Fin 60] cylinder_example
      = Return (np_sum a) (set_Q_loss_layers a cylinder_example)
      /\ nth 0 a NaN = Fin 0
      /\ surface_loss (K_top cylinder_example) (S_top cylinder_example)
           (T_amb cylinder_example) (Fin 60) = Fin x
      /\ 0 < x)
  /\
  (exists a x y,
      calculate_stratified_heat_loss [Fin 60; Fin 60; Fin 60]
        underground_thick_example
      = Return (np_sum a) (set_Q_loss_layers a underground_thick_example)
      /\ nth 1 a NaN = Fin x
      /\ surface_loss (K_sb underground_thick_example 25)
           (S_side underground_thick_example / INR 3)
           (T_soil underground_thick_example) (Fin 60) = Fin y
      /\ y < x).
Proof.
  pose proof PI_RGT_0 as Hpi.
  split.
  - destruct (calculate_stratified_heat_loss_ok (fun _ _ => None)
                [Fin 60; Fin 60] cylinder_example) as (a & Hrun & _ & Hval).
    { intros j T. apply stratified_layer_loss_undispatched;
        try (simpl; discriminate).
      intros [H | H]; discriminate. }
    exists a. eexists. split; [exact Hrun |]. split; [| split].
    + apply (Hval 0%nat). simpl. lia.
    + reflexivity.
    + unfold K_top. simpl. nra.
  - destruct (calculate_stratified_heat_loss_ok
                (let sb :=
                   surface_loss (K_sb underground_thick_example 25)
                     (S_combined 25 25 / INR 3)
                     (T_soil underground_thick_example) in
                 layer_assignment
                   (surface_loss (K_top underground_thick_example)
                      (S_top underground_thick_example)
                      (T_amb underground_thick_example)) sb sb 3)
                [Fin 60; Fin 60; Fin 60] underground_thick_example)
      as (a & Hrun & _ & Hval).
    { intros j T.
      apply (stratified_layer_loss_underground _ 25 25 []);
        try reflexivity.
      simpl. lra. }
    exists a. eexists. eexists. split; [exact Hrun |]. split; [| split].
    + rewrite (Hval 1%nat) by (simpl; lia). reflexivity.
    + reflexivity.
    + unfold K_sb, S_combined. cbn [underground_thick_example ds_side
        lambda_side lambda_soil T_soil S_side].
      assert (HK : 0 < / (4 / 10 / (3 / 100) + 52 / 100 * 25 / (15 / 10))).
      { apply Rinv_0_lt_compat. lra. }
      set (K := / (4 / 10 / (3 / 100) + 52 / 100 * 25 / (15 / 10))) in *.
      replace (INR 3) with 3 by (simpl; lra).
      assert (0 < K * PI) by (apply Rmult_lt_0_compat; lra).
      nra.
Qed.

(** C5, amended.  For a layer-temperature vector of length N >= 2 the
    per-layer heat loss returns the sum of the per-layer values, and:
    for [cylindrical_overground], [truncated_cone] and
    [truncated_trapezoid], layer 0 loses through the top surface with the top
    coefficient against the ambient temperature, the last layer through the
    bottom surface with the bottom coefficient against the bottom reference
    temperature (ambient for the cylinder, soil for the pits), and every
    layer between through the side area divided by N with the side
    coefficient against the side reference temperature;
    for [cylindrical_underground] with a side insulation that passes the
    thickness check, layer 0 is as above and every other layer, the last one
    included, loses through the combined side and bottom area divided by N
    with the coefficient [K_sb] against the soil temperature. *)
Theorem per_layer_heat_loss_layout (s : ThermalStorage)
    (T_layers : list float) :
  (2 <= length T_layers)%nat ->
  let N := INR (length T_layers) in
  let top := surface_loss (K_top s) (S_top s) (T_amb s) in
  (forall radius rest,
      storage_type s = "cylindrical_overground"%string ->
      dimensions s = radius :: rest ->
      exists a,
        calculate_stratified_heat_loss T_layers s
        = Return (np_sum a) (set_Q_loss_layers a s)
        /\ layout a T_layers top
             (surface_loss (K_overground_bottom s radius) (S_bottom s)
                (T_amb s))
             (surface_loss (K_overground_side s) (S_side s / N) (T_amb s)))
  /\
  (forall d0 d1 H rest,
      is_pit s ->
      dimensions s = d0 :: d1 :: H :: rest ->
      exists a,
        calculate_stratified_heat_loss T_layers s
        = Return (np_sum a) (set_Q_loss_layers a s)
        /\ layout a T_layers top
             (surface_loss (K_bottom s H d1) (S_bottom s) (T_soil s))
             (surface_loss (K_side s H) (S_side s / N) (T_soil s)))
  /\
  (forall radius height rest,
      storage_type s = "cylindrical_underground"%string ->
      dimensions s = radius :: height :: rest ->
      2 * ((lambda_side s / lambda_soil s) * radius * (37 / 100)) < ds_side s ->
      exists a,
        calculate_stratified_heat_loss T_layers s
        = Return (np_sum a) (set_Q_loss_layers a s)
        /\ layout a T_layers top
             (surface_loss (K_sb s radius) (S_combined radius height / N)
                (T_soil s))
             (surface_loss (K_sb s radius) (S_combined radius height / N)
                (T_soil s))).
Proof.
  intros HN N top. split; [| split].
  - intros radius rest Hst Hd.
    destruct (calculate_stratified_heat_loss_ok
                (layer_assignment top
                   (surface_loss (K_overground_bottom s radius) (S_bottom s)
                      (T_amb s))
                   (surface_loss (K_overground_side s) (S_side s / N)
                      (T_amb s)) (length T_layers)) T_layers s)
      as (a & Hrun & Hla & Hval).
    { intros j T. now apply (stratified_layer_loss_overground s radius rest). }
    exists a. split; [exact Hrun |]. now apply layout_of_assignment.
  - intros d0 d1 H rest Hp Hd.
    destruct (calculate_stratified_heat_loss_ok
                (layer_assignment top
                   (surface_loss (K_bottom s H d1) (S_bottom s) (T_soil s))
                   (surface_loss (K_side s H) (S_side s / N) (T_soil s))
                   (length T_layers)) T_layers s)
      as (a & Hrun & Hla & Hval).
    { intros j T. now apply (stratified_layer_loss_pit s d0 d1 H rest). }
    exists a. split; [exact Hrun |]. now apply layout_of_assignment.
  - intros radius height rest Hst Hd Hthick.
    destruct (calculate_stratified_heat_loss_ok
                (let sb :=
                   surface_loss (K_sb s radius)
                     (S_combined radius height / N) (T_soil s) in
                 layer_assignment top sb sb (length T_layers)) T_layers s)
      as (a & Hrun & Hla & Hval).
    { intros j T.
      now apply (stratified_layer_loss_underground s radius height rest). }
    exists a. split; [exact Hrun |]. now apply layout_of_assignment.
Qed.

(** Three layers of the underground cylinder with 0.4 m of side
    insulation. *)
Lemma per_layer_heat_loss_layout_witness :
  exists a,
    calculate_stratified_heat_loss [Fin 60; Fin 50; Fin 40]
      underground_thick_example
    = Return (np_sum a) (set_Q_loss_layers a underground_thick_example)
    /\ layout a [Fin 60; Fin 50; Fin 40]
         (surface_loss (K_top underground_thick_example)
            (S_top underground_thick_example)
            (T_amb underground_thick_example))
         (surface_loss (K_sb underground_thick_example 25)
            (S_combined 25 25 / INR 3) (T_soil underground_thick_example))
         (surface_loss (K_sb underground_thick_example 25)
            (S_combined 25 25 / INR 3) (T_soil underground_thick_example)).
Proof.
  assert (HN : (2 <= length [Fin 60; Fin 50; Fin 40])%nat) by (simpl; lia).
  destruct (per_layer_heat_loss_layout underground_thick_example
              [Fin 60; Fin 50; Fin 40] HN) as (_ & _ & Hu).
  apply (Hu 25 25 []).
  - reflexivity.
  - reflexivity.
  - simpl. lra.
Defined.

(** ** The stratified simulator, step by step *)

(** Whatever the per-layer heat loss does, it changes only
    [Q_loss_layers], and a returned total is the sum of that array. *)
Lemma stratified_loss_loop_state (n : nat) (layers : list float) :
  forall (i : nat) (s : ThermalStorage),
  exists a,
    stratified_loss_loop n i layers s = Return tt (set_Q_loss_layers a s)
    \/ exists e,
        stratified_loss_loop n i layers s = Raise e (set_Q_loss_layers a s).
Proof.
  induction layers as [| T rest IH]; intros i s.
  - exists (Q_loss_layers s). left. simpl. unfold ret.
    now rewrite set_Q_loss_layers_same.
  - cbn [stratified_loss_loop]. unfold bind, lift_result.
    destruct (stratified_layer_loss s n i T) as [[q |] | e].
    + unfold setitem. destruct (store (Q_loss_layers s) i q) as [a1 | e].
      * destruct (IH (S i) (set_Q_loss_layers a1 s)) as (a & [H | (e & H)]);
          exists a; [left | right; exists e]; exact H.
      * exists (Q_loss_layers s). right. exists e.
        now rewrite set_Q_loss_layers_same.
    + unfold ret. apply IH.
    + exists (Q_loss_layers s). right. exists e.
      now rewrite set_Q_loss_layers_same.
Qed.

Lemma calculate_stratified_heat_loss_state (layers : list float)
    (s : ThermalStorage) :
  exists a,
    calculate_stratified_heat_loss layers s
    = Return (np_sum a) (set_Q_loss_layers a s)
    \/ exists e,
        calculate_stratified_heat_loss layers s
        = Raise e (set_Q_loss_layers a s).
Proof.
  unfold calculate_stratified_heat_loss, bind, modify, read.
  destruct (stratified_loss_loop_state (length layers) layers 0
              (set_Q_loss_layers (np_zeros (length layers)) s))
    as (a & [H | (e & H)]); exists a; rewrite H.
  - left. reflexivity.
  - right. exists e. reflexivity.
Qed.

Lemma stratified_step_eq (Q_in Q_out : list R) (n : nat)
    (lv lt k : R) (t : nat) (heat : list float) (s : ThermalStorage) :
  layers_sized s -> (t < hours s)%nat ->
  stratified_step Q_in Q_out n lv lt k t heat s
  = match
      calculate_stratified_heat_loss
        (nth (before (hours s) t) (T_sto_layers s) []) s
    with
    | Raise e s1 => Raise e s1
    | Return loss s1 =>
        match index Q_in t with
        | Err e => Raise e (set_Q_loss (update (Q_loss s1) t loss) s1)
        | Ok q_in =>
            match index Q_out t with
            | Err e => Raise e (set_Q_loss (update (Q_loss s1) t loss) s1)
            | Ok q_out =>
                let r := stratified_result s1 n lv lt k t heat loss q_in q_out in
                Return (fst r) (snd r)
            end
        end
    end.
Proof.
  intros ((HQ & HL & HT) & HTL) Ht.
  unfold stratified_step.
  unfold bind at 1. unfold getitem at 1. unfold lift_result at 1.
  rewrite (index_py_before (T_sto_layers s) t []) by lia. rewrite HTL.
  unfold bind at 1.
  destruct (calculate_stratified_heat_loss_state
              (nth (before (hours s) t) (T_sto_layers s) []) s)
    as (a & [Hc | (e & Hc)]); rewrite Hc; [| reflexivity].
  unfold bind, getitem, setitem, read, lift_result, ret. obj.
  rewrite store_in by lia. obj.
  destruct (index Q_in t) as [q_in | e]; [| reflexivity].
  destruct (index Q_out t) as [q_out | e]; [| reflexivity].
  destruct t as [| t'].
  - obj.
    rewrite (index_py_nat (T_sto s) 0 NaN) by lia. obj.
    rewrite store_in by lia. obj.
    rewrite (index_py_nat (update (Q_sto s) _ _) 0 NaN)
      by (rewrite length_update; lia).
    rewrite nth_update_eq by lia. obj.
    rewrite store_in by (rewrite length_update; lia). obj.
    rewrite (index_py_nat (T_sto_layers s) 0 []) by lia. obj.
    rewrite store_in by lia. obj.
    rewrite update_update.
    unfold stratified_result, energy_at. obj. reflexivity.
  - obj.
    rewrite (index_py_before (T_sto_layers s) (S t') []) by lia. obj.
    rewrite (index_py_nat (T_sto_layers s) (S t') []) by lia. obj.
    rewrite store_in by lia. obj.
    rewrite store_in by lia. obj.
    rewrite (index_py_nat (update (T_sto_layers s) _ _) (S t') [])
      by (rewrite length_update; lia).
    rewrite nth_update_eq by lia. obj.
    rewrite store_in by lia. obj.
    unfold stratified_result. obj. reflexivity.
Qed.

Lemma attributes_stratified_result (s1 : ThermalStorage) (n : nat)
    (lv lt k : R) (t : nat) (heat : list float) (loss : float)
    (q_in q_out : R) :
  attributes (snd (stratified_result s1 n lv lt k t heat loss q_in q_out))
  = attributes s1.
Proof. destruct t; reflexivity. Qed.

(** What a returning iteration of the stratified loop leaves. *)
Lemma stratified_step_facts (Q_in Q_out : list R) (n : nat) (lv lt k : R)
    (t : nat) (heat heat' : list float) (s s' : ThermalStorage) :
  layers_sized s -> (t < hours s)%nat ->
  stratified_step Q_in Q_out n lv lt k t heat s = Return heat' s' ->
  layers_sized s'
  /\ attributes s' = attributes s
  /\ nth t (Q_sto s') NaN = np_sum heat'
  /\ (forall j, j <> t ->
                nth j (Q_sto s') NaN = nth j (Q_sto s) NaN
                /\ nth j (T_sto s') NaN = nth j (T_sto s) NaN
                /\ nth j (Q_loss s') NaN = nth j (Q_loss s) NaN
                /\ nth j (T_sto_layers s') [] = nth j (T_sto_layers s) [])
  /\ (t = 0%nat ->
      heat'
      = map (fun _ => (energy_at s (nth 0 (T_sto s) NaN) / INR n)%fl) heat
      /\ nth 0 (T_sto s') NaN = np_average (nth 0 (T_sto_layers s) [])
      /\ T_sto_layers s' = T_sto_layers s)
  /\ (exists a,
        calculate_stratified_heat_loss
          (nth (before (hours s) t) (T_sto_layers s) []) s
        = Return (np_sum a) (set_Q_loss_layers a s)
        /\ nth t (Q_loss s') NaN = np_sum a).
Proof.
  intros Hsz Ht Hstep. pose proof Hsz as ((HQ & HL & HT) & HTL).
  rewrite stratified_step_eq in Hstep by assumption.
  destruct (calculate_stratified_heat_loss_state
              (nth (before (hours s) t) (T_sto_layers s) []) s)
    as (a & [Hc | (e & Hc)]); rewrite Hc in Hstep; [| discriminate].
  destruct (index Q_in t) as [q_in |]; [| discriminate].
  destruct (index Q_out t) as [q_out |]; [| discriminate].
  cbn zeta in Hstep. injection Hstep as <- <-.
  split; [| split; [| split; [| split; [| split]]]].
  - unfold layers_sized, arrays_sized.
    destruct t; cbn [stratified_result snd]; obj;
      rewrite ?length_update; auto.
  - now rewrite attributes_stratified_result.
  - destruct t; cbn [stratified_result snd fst]; obj;
      now rewrite nth_update_eq by lia.
  - intros j Hj.
    destruct t; cbn [stratified_result snd]; obj;
      rewrite !nth_update_neq by lia; auto.
  - intros ->. cbn [stratified_result snd fst]. obj.
    rewrite nth_update_eq by lia. auto.
  - exists a. split; [exact Hc |].
    destruct t; cbn [stratified_result snd]; obj;
      now rewrite nth_update_eq by lia.
Qed.

(** The statements before the loop leave the object with a fresh layer
    array, or raise and leave it as it was. *)
Lemma stratified_setup_state (n : nat) (s s' : ThermalStorage) (r : R * R) :
  stratified_setup n s = Return r s' ->
  exists T_0,
    index_py (T_sto s) 0 = Ok T_0
    /\ s' = set_T_sto_layers (np_full (hours s) n T_0) s
    /\ n <> 0%nat
    /\ fst r = volume s / INR n.
Proof.
  unfold stratified_setup, bind, read, raise, ret, modify, getitem,
    lift_result.
  intros H.
  destruct (if str_eq (storage_type s) "cylindrical"
            then _ else _) as [height s1 | e s1] eqn:Hh; [| discriminate].
  assert (s1 = s) as ->.
  { destruct (str_eq (storage_type s) "cylindrical");
      [| destruct (str_eq (storage_type s) "truncated_cone");
         [| destruct (str_eq (storage_type s) "truncated_trapezoid")]];
      try discriminate;
      match type of Hh with
      | context [index ?a ?i] => destruct (index a i); try discriminate
      end; now injection Hh. }
  destruct (Nat.eqb_spec n 0); [discriminate |].
  destruct (index_py (T_sto s) 0) as [T_0 |]; [| discriminate].
  injection H as <- <-. exists T_0. auto.
Qed.

Lemma length_np_full (rows cols : nat) (v : float) :
  length (np_full rows cols v) = rows.
Proof. apply repeat_length. Qed.

Lemma layers_sized_setup (s : ThermalStorage) (rows : list (list float)) :
  arrays_sized s -> length rows = hours s ->
  layers_sized (set_T_sto_layers rows s).
Proof.
  intros Hs Hr. split; [exact Hs | exact Hr].
Qed.

Lemma sized_inv_step (Q_in Q_out : list R) (n : nat) (lv lt k : R) (h t : nat)
    (heat heat' : list float) (s s' : ThermalStorage) :
  (t < h)%nat -> sized_inv h t heat s ->
  stratified_step Q_in Q_out n lv lt k t heat s = Return heat' s' ->
  sized_inv h (S t) heat' s'.
Proof.
  intros Ht (Hsz & Hh) Hstep.
  assert (Hts : (t < hours s)%nat) by lia.
  destruct (stratified_step_facts _ _ _ _ _ _ _ _ _ _ _ Hsz Hts Hstep)
    as (Hsz' & Ha & _).
  split; [exact Hsz' |]. rewrite <- Hh. now apply hours_attributes.
Qed.

(** ** Stored energy and layer energies (claim C4) *)

Lemma init_layers_setup (p : Params.t) (s0 s_a : ThermalStorage) (n : nat)
    (r : R * R) :
  __init__ p = Ok s0 ->
  stratified_setup n s0 = Return r s_a ->
  layers_sized s_a /\ hours s_a = Params.hours p
  /\ s_a = set_T_sto_layers
             (np_full (hours s0) n (Fin (Params.initial_temp p))) s0
  /\ n <> 0%nat /\ fst r = volume s0 / INR n.
Proof.
  intros Hinit Hsetup.
  destruct (init_arrays _ _ Hinit) as (Hs & Hh & Hhp & _ & HT0 & _).
  destruct (stratified_setup_state _ _ _ _ Hsetup) as (T_0 & Hi & -> & Hn & Hr).
  destruct Hs as (HQ & HL & HT).
  change 0%Z with (Z.of_nat 0) in Hi.
  rewrite (index_py_nat (T_sto s0) 0 NaN) in Hi by lia.
  rewrite HT0 in Hi. injection Hi as <-.
  repeat split; auto. obj. apply length_np_full.
Qed.

(** In a returning stratified run from the constructor, the stored energy
    reported for hour [t] is the sum of the per-layer stored energies as they
    are after iteration [t] of the loop. *)
Lemma reconciliation_of_returning_run (p : Params.t) (Q_in Q_out : list R)
    (n : nat) (k : R) (heat : list float) (s : ThermalStorage) (t : nat) :
  run_stratified p Q_in Q_out n k = Ok (Return heat s) ->
  (t < Params.hours p)%nat ->
  exists s0 heat_t s_t,
    __init__ p = Ok s0
    /\ simulate_stratified_steps (S t) Q_in Q_out n k s0 = Return heat_t s_t
    /\ nth t (Q_sto s) NaN = np_sum heat_t.
Proof.
  unfold run_stratified. intros Hrun Ht.
  destruct (__init__ p) as [s0 | e] eqn:Hinit; [| discriminate].
  injection Hrun as Hrun.
  unfold simulate_stratified, simulate_stratified_steps, bind in Hrun.
  destruct (stratified_setup n s0) as [r s_a | e s_a] eqn:Hsetup;
    [| discriminate].
  destruct (init_layers_setup _ _ _ _ _ Hinit Hsetup)
    as (Hsz & Hh & _ & _ & _).
  destruct (init_arrays _ _ Hinit) as (_ & _ & Hhp & _).
  set (body := stratified_step Q_in Q_out n (fst r) (snd r) k) in *.
  unfold range in Hrun. rewrite Hhp in Hrun.
  replace (Params.hours p) with (t + 1 + (Params.hours p - S t))%nat in Hrun
    by lia.
  rewrite !seq_app, !for_each_app in Hrun. simpl (0 + t)%nat in Hrun.
  destruct (for_each body (seq 0 t) (np_zeros n) s_a)
    as [heat_b s_b | e s_b] eqn:Hpre; [| discriminate].
  assert (Hb : sized_inv (Params.hours p) (0 + t) heat_b s_b).
  { apply (for_each_invariant body (sized_inv (Params.hours p))
             (Params.hours p)) with (acc := np_zeros n) (s := s_a);
      try assumption; try lia.
    - intros. eapply sized_inv_step; eauto.
    - split; assumption. }
  destruct Hb as (Hszb & Hhb).
  cbn [seq for_each] in Hrun. unfold bind at 1 in Hrun.
  destruct (body t heat_b s_b) as [heat_t s_t | e s_t] eqn:Hstep;
    [| discriminate].
  unfold ret at 1 in Hrun.
  assert (Htb : (t < hours s_b)%nat) by lia.
  destruct (stratified_step_facts _ _ _ _ _ _ _ _ _ _ _ Hszb Htb Hstep)
    as (Hszt & Hat & HQt & _).
  exists s0, heat_t, s_t. split; [reflexivity |]. split.
  - unfold simulate_stratified_steps, bind. rewrite Hsetup.
    fold body. unfold range.
    replace (S t) with (t + 1)%nat by lia.
    rewrite seq_app, for_each_app, Hpre. simpl (0 + t)%nat.
    cbn [seq for_each]. unfold bind. now rewrite Hstep.
  - pose proof (for_each_invariant body
                  (fun j (_ : list float) s1 =>
                     (t < j)%nat /\ sized_inv (Params.hours p) j [] s1
                     /\ nth t (Q_sto s1) NaN = np_sum heat_t)
                  (Params.hours p)) as Hloop.
    destruct (Hloop) with (m := (Params.hours p - S t)%nat)
                          (k := (0 + t + 1)%nat) (acc := heat_t) (s := s_t)
                          (acc' := heat) (s' := s) as (_ & _ & Hfin);
      try assumption; try lia.
    + intros j acc s1 acc' s1' Hj (Hlt & (Hsz1 & Hh1) & HQ1) Hb1.
      assert (Hj1 : (j < hours s1)%nat) by lia.
      destruct (stratified_step_facts _ _ _ _ _ _ _ _ _ _ _ Hsz1 Hj1 Hb1)
        as (Hsz2 & Ha2 & _ & Hframe & _).
      split; [lia |]. split.
      * split; [exact Hsz2 |]. rewrite <- Hh1. now apply hours_attributes.
      * destruct (Hframe t) as (-> & _); [lia | exact HQ1].
    + split; [lia |]. split; [| exact HQt].
      split; [exact Hszt |]. rewrite <- Hhb. now apply hours_attributes.
Qed.

(** ** Returning stratified runs *)

Lemma stratified_layer_loss_attributes (s s' : ThermalStorage) (n i : nat)
    (T : float) :
  attributes s = attributes s' ->
  stratified_layer_loss s n i T = stratified_layer_loss s' n i T.
Proof.
  intros H. unfold stratified_layer_loss. now attr_rewrite H.
Qed.

Lemma loss_defined_constructed (p : Params.t) (s0 : ThermalStorage) :
  __init__ p = Ok s0 -> loss_defined s0.
Proof.
  intros Hinit n i T.
  destruct (init_inv _ _ Hinit) as (_ & Hg & Hs0).
  assert (Hst : storage_type s0 = Params.storage_type p)
    by (rewrite Hs0; reflexivity).
  assert (Hd : dimensions s0 = Params.dimensions p)
    by (rewrite Hs0; reflexivity).
  rewrite <- Hst, <- Hd in Hg. clear Hs0 Hst Hd.
  unfold compute_geometry in Hg.
  destruct (str_eq (storage_type s0) "cylindrical") eqn:E1.
  - apply str_eq_true in E1. exists None.
    apply stratified_layer_loss_undispatched; try (rewrite E1; discriminate).
    intros [H | H]; rewrite E1 in H; discriminate.
  - destruct (str_eq (storage_type s0) "truncated_cone") eqn:E2.
    + apply str_eq_true in E2.
      destruct (dimensions s0) as [| d0 [| d1 [| H [| ? ?]]]] eqn:Hd;
        try discriminate.
      eexists. apply (stratified_layer_loss_pit s0 d0 d1 H []); auto.
      now left.
    + destruct (str_eq (storage_type s0) "truncated_trapezoid") eqn:E3;
        [| discriminate].
      apply str_eq_true in E3.
      destruct (dimensions s0) as [| d0 [| d1 [| H [| d3 [| d4 [| ? ?]]]]]]
        eqn:Hd; try discriminate.
      eexists. apply (stratified_layer_loss_pit s0 d0 d1 H [d3; d4]); auto.
      now right.
Qed.

Lemma calculate_stratified_heat_loss_defined (s : ThermalStorage)
    (layers : list float) :
  loss_defined s ->
  exists a,
    calculate_stratified_heat_loss layers s
    = Return (np_sum a) (set_Q_loss_layers a s).
Proof.
  intros Hdef.
  destruct (calculate_stratified_heat_loss_ok
              (fun j T =>
                 match stratified_layer_loss s (length layers) j T with
                 | Ok v => v
                 | Err _ => None
                 end) layers s) as (a & Hrun & _).
  - intros j T. destruct (Hdef (length layers) j T) as (v & ->). reflexivity.
  - exists a. exact Hrun.
Qed.

Lemma stratified_setup_constructed (p : Params.t) (s0 : ThermalStorage)
    (n : nat) :
  __init__ p = Ok s0 -> n <> 0%nat ->
  exists r, stratified_setup n s0
            = Return r (set_T_sto_layers
                          (np_full (hours s0) n (Fin (Params.initial_temp p)))
                          s0).
Proof.
  intros Hinit Hn.
  destruct (init_inv _ _ Hinit) as (_ & Hg & Hs0).
  destruct (init_arrays _ _ Hinit) as ((_ & _ & HT) & Hh & _ & _ & HT0 & _).
  assert (Hst : storage_type s0 = Params.storage_type p)
    by (rewrite Hs0; reflexivity).
  assert (Hd : dimensions s0 = Params.dimensions p)
    by (rewrite Hs0; reflexivity).
  rewrite <- Hst, <- Hd in Hg. clear Hs0 Hst Hd.
  unfold compute_geometry in Hg.
  assert (Hi : index_py (T_sto s0) 0 = Ok (Fin (Params.initial_temp p))).
  { change 0%Z with (Z.of_nat 0).
    rewrite (index_py_nat (T_sto s0) 0 NaN) by lia. now rewrite HT0. }
  unfold stratified_setup.
  destruct (Nat.eqb_spec n 0) as [| _]; [contradiction |].
  unfold bind, read, raise, ret, modify, getitem, lift_result.
  destruct (str_eq (storage_type s0) "cylindrical").
  - destruct (dimensions s0) as [| d0 [| d1 [| ? ?]]]; try discriminate.
    cbn [index nth_error]. rewrite Hi. eexists. reflexivity.
  - destruct (str_eq (storage_type s0) "truncated_cone").
    + destruct (dimensions s0) as [| d0 [| d1 [| H [| ? ?]]]];
        try discriminate.
      cbn [index nth_error]. rewrite Hi. eexists. reflexivity.
    + destruct (str_eq (storage_type s0) "truncated_trapezoid");
        [| discriminate].
      destruct (dimensions s0) as [| d0 [| d1 [| H [| d3 [| d4 [| ? ?]]]]]];
        try discriminate.
      cbn [index nth_error]. rewrite Hi. eexists. reflexivity.
Qed.

(** A stratified run from the constructor returns when there is at least
    one layer and the inputs cover the horizon. *)
Lemma run_stratified_returns (p : Params.t) (s0 : ThermalStorage)
    (Q_in Q_out : list R) (n : nat) (k : R) :
  __init__ p = Ok s0 -> n <> 0%nat ->
  (Params.hours p <= length Q_in)%nat ->
  (Params.hours p <= length Q_out)%nat ->
  exists heat s, run_stratified p Q_in Q_out n k = Ok (Return heat s).
Proof.
  intros Hinit Hn Hin Hout.
  unfold run_stratified. rewrite Hinit.
  unfold simulate_stratified, simulate_stratified_steps, bind.
  destruct (stratified_setup_constructed p s0 n Hinit Hn) as (r & Hsetup).
  rewrite Hsetup.
  destruct (init_arrays _ _ Hinit) as (Hs & _ & Hhp & _).
  pose proof (loss_defined_constructed _ _ Hinit) as Hdef.
  set (s_a := set_T_sto_layers _ s0).
  pose proof (for_each_total
                (stratified_step Q_in Q_out n (fst r) (snd r) k)
                (fun _ _ s => layers_sized s /\ attributes s = attributes s0)
                (hours s0)) as Hloop.
  destruct Hloop with (m := hours s0) (k := 0%nat) (acc := np_zeros n)
                      (s := s_a) as (heat & s & Hrun & _); try lia.
  - intros t acc s Ht (Hsz & Ha).
    pose proof (hours_attributes _ _ Ha) as Hh.
    rewrite stratified_step_eq by (auto; lia).
    destruct (calculate_stratified_heat_loss_defined s
                (nth (before (hours s) t) (T_sto_layers s) [])) as (a & ->).
    { intros n' i T. rewrite (stratified_layer_loss_attributes s s0)
        by assumption. apply Hdef. }
    rewrite (index_nth Q_in t 0), (index_nth Q_out t 0) by lia.
    cbn zeta. eexists _, _. split; [reflexivity |].
    split.
    + unfold layers_sized, arrays_sized.
      destruct Hsz as ((HQ & HL & HT) & HTL).
      destruct t; cbn [stratified_result snd]; obj;
        rewrite ?length_update; auto.
    + rewrite attributes_stratified_result. exact Ha.
  - split; [| reflexivity].
    apply layers_sized_setup; [exact Hs |]. apply length_np_full.
  - exists heat, s. unfold range. now rewrite Hrun.
Qed.

(** C4: a stratified run from the constructor with at least one layer and
    inputs that cover the horizon returns, and the stored energy that it
    reports for every hour [t] is the sum of the per-layer stored energies
    as they are after iteration [t] of the loop. *)
Theorem stratified_energy_reconciliation (p : Params.t) (s0 : ThermalStorage)
    (Q_in Q_out : list R) (n : nat) (k : R) :
  __init__ p = Ok s0 -> n <> 0%nat ->
  (Params.hours p <= length Q_in)%nat ->
  (Params.hours p <= length Q_out)%nat ->
  exists heat s,
    run_stratified p Q_in Q_out n k = Ok (Return heat s)
    /\ forall t, (t < Params.hours p)%nat ->
                 exists heat_t s_t,
                   simulate_stratified_steps (S t) Q_in Q_out n k s0
                   = Return heat_t s_t
                   /\ nth t (Q_sto s) NaN = np_sum heat_t.
Proof.
  intros Hinit Hn Hin Hout.
  destruct (run_stratified_returns p s0 Q_in Q_out n k Hinit Hn Hin Hout)
    as (heat & s & Hrun).
  exists heat, s. split; [exact Hrun |].
  intros t Ht.
  destruct (reconciliation_of_returning_run _ _ _ _ _ _ _ t Hrun Ht)
    as (s0' & heat_t & s_t & Hinit' & Hsteps & HQ).
  rewrite Hinit in Hinit'. injection Hinit' as <-.
  exists heat_t, s_t. auto.
Qed.

(** The plain cylinder of the example, five layers, two hours: the stored
    energy of hour 1 is the sum over the layers after iteration 1. *)
Lemma stratified_energy_reconciliation_witness :
  exists heat s heat_1 s_1,
    run_stratified cylinder_params [450; 450] [100; 100] 5 (6 / 10)
    = Ok (Return heat s)
    /\ simulate_stratified_steps 2 [450; 450] [100; 100] 5 (6 / 10)
         cylinder_example = Return heat_1 s_1
    /\ nth 1 (Q_sto s) NaN = np_sum heat_1.
Proof.
  destruct (stratified_energy_reconciliation cylinder_params cylinder_example
              [450; 450] [100; 100] 5 (6 / 10)) as (heat & s & Hrun & Hall);
    [reflexivity | lia | simpl; lia | simpl; lia |].
  destruct (Hall 1%nat) as (heat_1 & s_1 & Hsteps & HQ); [simpl; lia |].
  exists heat, s, heat_1, s_1. auto.
Defined.

(** ** The diffusion pass (claim C2) *)

Lemma fold_left_fadd_Fin (r : list R) (a : R) :
  fold_left fadd (map Fin r) (Fin a) = Fin (a + Rsum r).
Proof.
  revert a. induction r as [| x r IH]; intros a; simpl.
  - f_equal. lra.
  - rewrite IH. f_equal. lra.
Qed.

Lemma np_sum_Fin (r : list R) : np_sum (map Fin r) = Fin (Rsum r).
Proof.
  unfold np_sum. rewrite fold_left_fadd_Fin. f_equal. lra.
Qed.

Lemma get_Fin (r : list R) (i : nat) :
  (i < length r)%nat -> get (map Fin r) i = Fin (nth i r 0).
Proof.
  intros H. unfold get.
  rewrite (nth_indep _ NaN (Fin 0)) by (rewrite length_map; lia).
  apply map_nth.
Qed.

Lemma update_Fin (r : list R) (i : nat) (v : R) :
  update (map Fin r) i (Fin v) = map Fin (update r i v).
Proof.
  revert i. induction r as [| x r IH]; intros [| i]; simpl; auto.
  now rewrite IH.
Qed.

Lemma Rsum_update (r : list R) (i : nat) (v : R) :
  (i < length r)%nat -> Rsum (update r i v) = Rsum r - nth i r 0 + v.
Proof.
  revert i. induction r as [| x r IH]; intros [| i] H; simpl in *; try lia.
  - lra.
  - rewrite IH by lia. lra.
Qed.

(** One pair of the diffusion loop on layers that hold numbers. *)
Lemma diffuse_pair_Fin (self : ThermalStorage) (lv lt k : R) (i : nat)
    (T h : list R) (rem : float) :
  (i + 1 < length h)%nat -> length T = length h ->
  exists (x : R) (T' : list R),
    heat_transfer_kWh self lt k i (mkLayerState (map Fin T) (map Fin h) rem)
    = Fin x
    /\ length T' = length T
    /\ diffuse_pair self lv lt k i (mkLayerState (map Fin T) (map Fin h) rem)
       = mkLayerState (map Fin T')
           (map Fin (update (update h i (nth i h 0 - x)) (i + 1)
                       (nth (i + 1) h 0 + x)))
           rem.
Proof.
  intros Hi Hl.
  unfold diffuse_pair, heat_transfer_kWh.
  cbn [T_t heat_stored_per_layer remaining_heat].
  rewrite !get_Fin by lia.
  cbn [fsub fmul fdiv fadd lift2].
  rewrite !update_Fin.
  rewrite (get_Fin (update h i _) (i + 1)) by (rewrite length_update; lia).
  rewrite nth_update_neq by lia.
  cbn [fsub fmul fdiv fadd lift2].
  rewrite !update_Fin.
  rewrite !get_Fin by (rewrite !length_update; lia).
  cbn [fsub fmul fdiv fadd lift2].
  rewrite !update_Fin.
  eexists. eexists. split; [reflexivity |]. split; [| reflexivity].
  now rewrite !length_update.
Qed.

Lemma Rsum_diffuse (h : list R) (i : nat) (x : R) :
  (i + 1 < length h)%nat ->
  Rsum (update (update h i (nth i h 0 - x)) (i + 1) (nth (i + 1) h 0 + x))
  = Rsum h.
Proof.
  intros Hi.
  rewrite Rsum_update by (rewrite length_update; lia).
  rewrite nth_update_neq by lia.
  rewrite Rsum_update by lia. lra.
Qed.

Lemma diffusion_fold_Fin (self : ThermalStorage) (lv lt k : R) (rem : float)
    (idx : list nat) :
  forall T h : list R,
    length T = length h ->
    (forall i, In i idx -> (i + 1 < length h)%nat) ->
    exists T' h',
      fold_left (fun st i => diffuse_pair self lv lt k i st) idx
        (mkLayerState (map Fin T) (map Fin h) rem)
      = mkLayerState (map Fin T') (map Fin h') rem
      /\ length h' = length h
      /\ Rsum h' = Rsum h.
Proof.
  induction idx as [| i idx IH]; intros T h Hl Hidx.
  - exists T, h. auto.
  - cbn [fold_left].
    destruct (diffuse_pair_Fin self lv lt k i T h rem) as (x & T' & _ & HT' & ->);
      [apply Hidx; now left | assumption |].
    destruct (IH T' (update (update h i (nth i h 0 - x)) (i + 1)
                       (nth (i + 1) h 0 + x)))
      as (T'' & h'' & Hf & Hlen & Hsum).
    + rewrite !length_update. lia.
    + intros j Hj. rewrite !length_update. apply Hidx. now right.
    + exists T'', h''. split; [exact Hf |].
      rewrite !length_update in Hlen. split; [exact Hlen |].
      rewrite Hsum. apply Rsum_diffuse. apply Hidx. now left.
Qed.

(** C2: on layers that hold numbers, every pair [(i, i+1)] of the
    diffusion pass takes the amount [x = heat_transfer_kWh] from the stored
    energy of layer [i] and adds the same [x] to that of layer [i+1], leaving
    the other layers as they are; so the pass conserves the sum of the
    per-layer stored energies. *)
Theorem diffusion_conserves_energy (self : ThermalStorage) (lv lt k : R)
    (T h : list R) (rem : float) (n : nat) :
  length T = n -> length h = n ->
  let st := mkLayerState (map Fin T) (map Fin h) rem in
  (forall i, (i + 1 < n)%nat ->
             exists x : R,
               heat_transfer_kWh self lt k i st = Fin x
               /\ heat_stored_per_layer (diffuse_pair self lv lt k i st)
                  = map Fin (update (update h i (nth i h 0 - x)) (i + 1)
                               (nth (i + 1) h 0 + x)))
  /\ np_sum (heat_stored_per_layer (diffusion_pass self lv lt k n st))
     = np_sum (map Fin h).
Proof.
  intros HT Hh st. split.
  - intros i Hi.
    destruct (diffuse_pair_Fin self lv lt k i T h rem) as (x & T' & Hx & _ & Hp);
      [lia | lia |].
    exists x. split; [exact Hx |]. unfold st. now rewrite Hp.
  - unfold diffusion_pass, st.
    destruct (diffusion_fold_Fin self lv lt k rem (range (n - 1)) T h)
      as (T' & h' & -> & _ & Hsum); [lia | |].
    + intros i Hi. unfold range in Hi. apply in_seq in Hi. lia.
    + cbn [heat_stored_per_layer]. rewrite !np_sum_Fin. now rewrite Hsum.
Qed.

(** Three layers at 95, 60 and 40 degrees holding 900, 500 and 300 kWh. *)
Lemma diffusion_conserves_energy_witness :
  np_sum
    (heat_stored_per_layer
       (diffusion_pass cylinder_example (PI * 25 ^ 2 * 25 / 3) (25 / 3)
          (6 / 10) 3
          (mkLayerState (map Fin [95; 60; 40]) (map Fin [900; 500; 300])
             (Fin 0))))
  = np_sum (map Fin [900; 500; 300]).
Proof.
  apply (diffusion_conserves_energy cylinder_example
           (PI * 25 ^ 2 * 25 / 3) (25 / 3) (6 / 10)
           [95; 60; 40] [900; 500; 300] (Fin 0) 3); reflexivity.
Defined.

(** ** Hour 0 of the stratified simulator *)

(** Later iterations leave the cells of earlier hours as they are. *)
Lemma stratified_suffix_frame (Q_in Q_out : list R) (n : nat) (lv lt k : R)
    (a m : nat) (acc acc' : list float) (s s' : ThermalStorage) :
  layers_sized s -> (a + m <= hours s)%nat ->
  for_each (stratified_step Q_in Q_out n lv lt k) (seq a m) acc s
  = Return acc' s' ->
  forall j, (j < a)%nat ->
            nth j (Q_sto s') NaN = nth j (Q_sto s) NaN
            /\ nth j (T_sto s') NaN = nth j (T_sto s) NaN
            /\ nth j (Q_loss s') NaN = nth j (Q_loss s) NaN
            /\ nth j (T_sto_layers s') [] = nth j (T_sto_layers s) [].
Proof.
  intros Hsz Ham Hrun.
  pose proof (for_each_invariant (stratified_step Q_in Q_out n lv lt k)
                (fun i (_ : list float) s1 =>
                   (a <= i)%nat /\ sized_inv (hours s) i [] s1
                   /\ forall j, (j < a)%nat ->
                                nth j (Q_sto s1) NaN = nth j (Q_sto s) NaN
                                /\ nth j (T_sto s1) NaN = nth j (T_sto s) NaN
                                /\ nth j (Q_loss s1) NaN
                                   = nth j (Q_loss s) NaN
                                /\ nth j (T_sto_layers s1) []
                                   = nth j (T_sto_layers s) [])
                (hours s)) as Hloop.
  destruct Hloop with (m := m) (k := a) (acc := acc) (s := s)
                      (acc' := acc') (s' := s') as (_ & _ & Hfin);
    try assumption.
  - intros i acc1 s1 acc2 s2 Hi (Hai & (Hsz1 & Hh1) & Hfr) Hb.
    assert (Hi1 : (i < hours s1)%nat) by lia.
    destruct (stratified_step_facts _ _ _ _ _ _ _ _ _ _ _ Hsz1 Hi1 Hb)
      as (Hsz2 & Ha2 & _ & Hframe & _).
    split; [lia |]. split.
    + split; [exact Hsz2 |]. rewrite <- Hh1. now apply hours_attributes.
    + intros j Hj. destruct (Hframe j) as (-> & -> & -> & ->); [lia |].
      now apply Hfr.
  - split; [lia |]. split; [split; auto |]. auto.
Qed.

Lemma nth_np_full (rows cols : nat) (v : float) (i : nat) :
  (i < rows)%nat -> nth i (np_full rows cols v) [] = repeat v cols.
Proof. intros H. unfold np_full. now apply nth_repeat_lt. Qed.

(** The cells of hour 0 after a stratified run from the constructor. *)
Lemma stratified_hour_zero (p : Params.t) (Q_in Q_out : list R) (n : nat)
    (k : R) (heat : list float) (s : ThermalStorage) :
  run_stratified p Q_in Q_out n k = Ok (Return heat s) ->
  exists s0,
    __init__ p = Ok s0
    /\ nth 0 (Q_sto s) NaN
       = np_sum (map (fun _ => (energy_at s0 (Fin (Params.initial_temp p))
                                / INR n)%fl) (np_zeros n))
    /\ nth 0 (T_sto s) NaN
       = np_average (repeat (Fin (Params.initial_temp p)) n).
Proof.
  unfold run_stratified. intros Hrun.
  destruct (__init__ p) as [s0 | e] eqn:Hinit; [| discriminate].
  injection Hrun as Hrun. exists s0. split; [reflexivity |].
  unfold simulate_stratified, simulate_stratified_steps, bind in Hrun.
  destruct (stratified_setup n s0) as [r s_a | e s_a] eqn:Hsetup;
    [| discriminate].
  destruct (init_layers_setup _ _ _ _ _ Hinit Hsetup)
    as (Hsz & Hh & Hsa & _ & _).
  destruct (init_arrays _ _ Hinit) as (_ & Hpos & Hhp & _ & HT0 & _).
  unfold range in Hrun.
  destruct (hours s0) as [| h'] eqn:Eh; [lia |].
  cbn [seq for_each] in Hrun. unfold bind at 1 in Hrun.
  destruct (stratified_step Q_in Q_out n (fst r) (snd r) k 0 (np_zeros n) s_a)
    as [heat0 s_b | e s_b] eqn:Hstep; [| discriminate].
  assert (H0a : (0 < hours s_a)%nat) by lia.
  destruct (stratified_step_facts _ _ _ _ _ _ _ _ _ _ _ Hsz H0a Hstep)
    as (Hszb & Hab & HQ0 & _ & Hzero & _).
  destruct (Hzero eq_refl) as (Hheat & HT & _).
  assert (Hhb : hours s_b = hours s_a) by now apply hours_attributes.
  destruct (stratified_suffix_frame _ _ _ _ _ _ 1 h' _ _ _ _ Hszb
              ltac:(lia) Hrun 0%nat) as (-> & -> & _); [lia |].
  rewrite HQ0, HT, Hheat, Hsa. obj.
  rewrite HT0, nth_np_full by lia. split; reflexivity.
Qed.

(** A returning iteration after hour 0: the layer row and the accumulator
    are what the three passes leave. *)
Lemma stratified_step_layers (Q_in Q_out : list R) (n : nat) (lv lt k : R)
    (t : nat) (heat heat' : list float) (s s' : ThermalStorage) :
  layers_sized s -> (S t < hours s)%nat ->
  stratified_step Q_in Q_out n lv lt k (S t) heat s = Return heat' s' ->
  exists a q_in q_out self,
    calculate_stratified_heat_loss (nth t (T_sto_layers s) []) s
    = Return (np_sum a) (set_Q_loss_layers a s)
    /\ index Q_in (S t) = Ok q_in /\ index Q_out (S t) = Ok q_out
    /\ attributes self = attributes s /\ Q_loss_layers self = a
    /\ let st3 :=
         passes self n lv lt k (nth t (T_sto_layers s) [])
           (mkLayerState (nth (S t) (T_sto_layers s) []) heat
              (Fin q_in - Fin q_out)%fl) in
       heat' = heat_stored_per_layer st3
       /\ nth (S t) (T_sto_layers s') [] = T_t st3
       /\ nth (S t) (Q_loss s') NaN = np_sum a.
Proof.
  intros Hsz Ht Hstep. pose proof Hsz as ((HQ & HL & HT) & HTL).
  rewrite stratified_step_eq in Hstep by assumption.
  cbn [before] in Hstep.
  destruct (calculate_stratified_heat_loss_state
              (nth t (T_sto_layers s) []) s)
    as (a & [Hc | (e & Hc)]); rewrite Hc in Hstep; [| discriminate].
  destruct (index Q_in (S t)) as [q_in |]; [| discriminate].
  destruct (index Q_out (S t)) as [q_out |]; [| discriminate].
  cbn zeta in Hstep. injection Hstep as <- <-.
  exists a, q_in, q_out.
  exists (set_Q_loss (update (Q_loss s) (S t) (np_sum a))
            (set_Q_loss_layers a s)).
  repeat split; try exact Hc; cbn [stratified_result snd fst]; obj;
    rewrite ?nth_update_eq by lia; reflexivity.
Qed.

(** Hour 1 of a stratified run from the constructor: the heat loss is
    computed from row 0 of the layer array, which still holds the initial
    temperature in every layer, and row 1 is what the three passes make of
    the initial row and the evenly split initial energy. *)
Lemma stratified_hour_one (p : Params.t) (Q_in Q_out : list R) (n : nat)
    (k : R) (heat : list float) (s : ThermalStorage) :
  run_stratified p Q_in Q_out n k = Ok (Return heat s) ->
  (2 <= Params.hours p)%nat ->
  exists s0 s_b heat0 a q_in q_out self lt,
    __init__ p = Ok s0
    /\ attributes s_b = attributes s0
    /\ heat0 = map (fun _ => (energy_at s0 (Fin (Params.initial_temp p))
                              / INR n)%fl) (np_zeros n)
    /\ calculate_stratified_heat_loss
         (repeat (Fin (Params.initial_temp p)) n) s_b
       = Return (np_sum a) (set_Q_loss_layers a s_b)
    /\ index Q_in 1 = Ok q_in /\ index Q_out 1 = Ok q_out
    /\ attributes self = attributes s0 /\ Q_loss_layers self = a
    /\ nth 1 (Q_loss s) NaN = np_sum a
    /\ nth 1 (T_sto_layers s) []
       = T_t (passes self n (volume s0 / INR n) lt k
                (repeat (Fin (Params.initial_temp p)) n)
                (mkLayerState (repeat (Fin (Params.initial_temp p)) n) heat0
                   (Fin q_in - Fin q_out)%fl)).
Proof.
  unfold run_stratified. intros Hrun Hh2.
  destruct (__init__ p) as [s0 | e] eqn:Hinit; [| discriminate].
  injection Hrun as Hrun.
  unfold simulate_stratified, simulate_stratified_steps, bind in Hrun.
  destruct (stratified_setup n s0) as [r s_a | e s_a] eqn:Hsetup;
    [| discriminate].
  destruct (init_layers_setup _ _ _ _ _ Hinit Hsetup)
    as (Hsz & Hh & Hsa & _ & Hlv).
  destruct (init_arrays _ _ Hinit) as (_ & Hpos & Hhp & _ & HT0 & _).
  unfold range in Hrun.
  destruct (hours s0) as [| [| h']] eqn:Eh; try lia.
  cbn [seq for_each] in Hrun. unfold bind at 1 in Hrun.
  destruct (stratified_step Q_in Q_out n (fst r) (snd r) k 0 (np_zeros n) s_a)
    as [heat0 s_b | e s_b] eqn:Hstep0; [| discriminate].
  assert (H0a : (0 < hours s_a)%nat) by lia.
  destruct (stratified_step_facts _ _ _ _ _ _ _ _ _ _ _ Hsz H0a Hstep0)
    as (Hszb & Hab & _ & _ & Hzero & _).
  destruct (Hzero eq_refl) as (Hheat & _ & HTL).
  assert (Hhb : hours s_b = hours s_a) by now apply hours_attributes.
  unfold bind at 1 in Hrun.
  destruct (stratified_step Q_in Q_out n (fst r) (snd r) k 1 heat0 s_b)
    as [heat1 s_c | e s_c] eqn:Hstep1; [| discriminate].
  assert (H1b : (1 < hours s_b)%nat) by lia.
  destruct (stratified_step_layers _ _ _ _ _ _ _ _ _ _ _ Hszb H1b Hstep1)
    as (a & q_in & q_out & self & Hc & Hi & Ho & Hself & Ha & Hh1 & Hrow & HL).
  destruct (stratified_step_facts _ _ _ _ _ _ _ _ _ _ _ Hszb H1b Hstep1)
    as (Hszc & Hac & _).
  assert (Hhc : hours s_c = hours s_b) by now apply hours_attributes.
  destruct (stratified_suffix_frame _ _ _ _ _ _ 2 h' _ _ _ _ Hszc
              ltac:(lia) Hrun 1%nat) as (_ & _ & -> & ->); [lia |].
  assert (Hsa0 : attributes s_a = attributes s0) by (rewrite Hsa; reflexivity).
  assert (Hrow0 : nth 0 (T_sto_layers s_b) []
                  = repeat (Fin (Params.initial_temp p)) n).
  { rewrite HTL, Hsa. obj. apply nth_np_full. lia. }
  assert (Hrow1 : nth 1 (T_sto_layers s_b) []
                  = repeat (Fin (Params.initial_temp p)) n).
  { rewrite HTL, Hsa. obj. apply nth_np_full. lia. }
  rewrite Hrow0 in Hc, Hrow. rewrite Hrow1 in Hrow.
  exists s0, s_b, heat0, a, q_in, q_out, self, (snd r).
  split; [reflexivity |].
  split; [congruence |].
  split.
  { rewrite Hheat, Hsa. obj. now rewrite HT0. }
  split; [exact Hc |]. split; [exact Hi |]. split; [exact Ho |].
  split; [congruence |]. split; [exact Ha |]. split; [exact HL |].
  rewrite Hrow. rewrite Hlv. reflexivity.
Qed.

Lemma attributes_fields (s s' : ThermalStorage) :
  attributes s = attributes s' ->
  storage_type s = storage_type s' /\ dimensions s = dimensions s'
  /\ rho s = rho s' /\ cp s = cp s' /\ T_ref s = T_ref s'
  /\ lambda_top s = lambda_top s' /\ dt_top s = dt_top s'
  /\ T_amb s = T_amb s' /\ T_soil s = T_soil s'
  /\ T_max s = T_max s' /\ T_min s = T_min s'
  /\ S_top s = S_top s' /\ S_side s = S_side s' /\ S_bottom s = S_bottom s'
  /\ volume s = volume s'.
Proof.
  intros H. unfold attributes in H. injection H as.
  repeat split; assumption.
Qed.

Lemma pit_attributes (s s' : ThermalStorage) :
  attributes s = attributes s' -> is_pit s' -> is_pit s.
Proof.
  intros H Hp. unfold is_pit.
  now rewrite (storage_type_attributes _ _ H).
Qed.

(** ** One layer against the single-node simulator (claim C8) *)

(** The cells of hour 0 after a single-node run from the constructor. *)
Lemma single_node_hour_zero (p : Params.t) (Q_in Q_out : list R)
    (s : ThermalStorage) :
  run_single_node p Q_in Q_out = Ok (Return tt s) ->
  exists s0,
    __init__ p = Ok s0
    /\ nth 0 (Q_sto s) NaN = energy_at s0 (Fin (Params.initial_temp p))
    /\ nth 0 (T_sto s) NaN = clamp s0 (Fin (Params.initial_temp p)).
Proof.
  unfold run_single_node. intros Hrun.
  destruct (__init__ p) as [s0 | e] eqn:Hinit; [| discriminate].
  injection Hrun as Hrun. exists s0. split; [reflexivity |].
  destruct (init_arrays _ _ Hinit) as (Hs & Hh & _ & _ & HT0 & _).
  destruct (simulate_trace Q_in Q_out s0 s Hs Hrun) as (_ & _ & Hok).
  destruct (Hok 0%nat Hh) as (loss & _ & _ & HQ & HT).
  now rewrite HQ, HT, HT0.
Qed.

(** The heat loss of hour 1 after a single-node run from the constructor
    is computed at the temperature of hour 0. *)
Lemma single_node_hour_one_loss (p : Params.t) (Q_in Q_out : list R)
    (s : ThermalStorage) :
  run_single_node p Q_in Q_out = Ok (Return tt s) ->
  (2 <= Params.hours p)%nat ->
  exists s0 loss,
    __init__ p = Ok s0
    /\ calculate_heat_loss s0 (clamp s0 (Fin (Params.initial_temp p)))
       = Ok loss
    /\ nth 1 (Q_loss s) NaN = as_float64 loss.
Proof.
  intros Hrun Hh2.
  destruct (single_node_hour_zero _ _ _ _ Hrun) as (s0 & Hinit & _ & HT).
  exists s0. unfold run_single_node in Hrun. rewrite Hinit in Hrun.
  injection Hrun as Hrun.
  destruct (init_arrays _ _ Hinit) as (Hs & Hh & Hhp & _).
  destruct (simulate_trace Q_in Q_out s0 s Hs Hrun) as (_ & _ & Hok).
  destruct (Hok 1%nat) as (loss & q_in & q_out & Hl & _ & _ & HL & _);
    [lia |].
  exists loss. rewrite HT in Hl. auto.
Qed.

(** The two runs of the example below return. *)
Lemma single_layer_example_runs :
  exists s0 s1 heat s2,
    __init__ (trapezoid_params 60 40 60 2) = Ok s0
    /\ run_single_node (trapezoid_params 60 40 60 2) [0; 0] [0; 0]
       = Ok (Return tt s1)
    /\ run_stratified (trapezoid_params 60 40 60 2) [0; 0] [0; 0] 1 (6 / 10)
       = Ok (Return heat s2).
Proof.
  destruct (init_trapezoid_params 60 40 60 2) as
    (s0 & Hinit & Hpit & Hd & _); [lia |].
  destruct (trapezoid_run_returns _ _ _ _ [0; 0] [0; 0] s0 Hinit)
    as (s1 & _ & Hfull1); try (simpl; lia).
  destruct (run_stratified_returns _ s0 [0; 0] [0; 0] 1 (6 / 10) Hinit)
    as (heat & s2 & Hfull2); try (simpl; lia).
  exists s0, s1, heat, s2. auto.
Qed.

(** C8, counterexample: the trapezoid of the repository's example with the
    soil at the initial temperature 60 and no input or output, over two
    hours.  At hour 1 the single-node simulator reports the heat loss 0 (the
    storage is at the soil temperature), the stratified simulator with one
    layer reports the loss of the top surface against the ambient
    temperature 10, more than 2 kW. *)
Lemma single_layer_differs_from_single_node :
  exists s1 heat s2 x,
    run_single_node (trapezoid_params 60 40 60 2) [0; 0] [0; 0]
    = Ok (Return tt s1)
    /\ run_stratified (trapezoid_params 60 40 60 2) [0; 0] [0; 0] 1 (6 / 10)
       = Ok (Return heat s2)
    /\ nth 1 (Q_loss s1) NaN = Fin 0
    /\ nth 1 (Q_loss s2) NaN = Fin x
    /\ 2 < x.
Proof.
  destruct single_layer_example_runs
    as (s0 & s1 & heat & s2 & Hinit & Hfull1 & Hfull2).
  destruct (init_trapezoid_params 60 40 60 2) as
    (s0' & Hinit' & Hpit & Hd & _ & _ & _ & Hlt & Hdt & _ & _ & _ & HTa & HTs
     & HTmax & HTmin & HSt & _); [lia |].
  rewrite Hinit in Hinit'. injection Hinit' as <-.
  exists s1, heat, s2. eexists.
  split; [exact Hfull1 |]. split; [exact Hfull2 |].
  split; [| split].
  - destruct (single_node_hour_one_loss _ _ _ _ Hfull1)
      as (s0' & loss & Hinit' & Hl & HL); [simpl; lia |].
    rewrite Hinit in Hinit'. injection Hinit' as <-.
    simpl in Hl. rewrite clamp_inside in Hl by lra.
    rewrite (calculate_heat_loss_pit s0 _ 50 20) in Hl
      by (auto; rewrite Hd; reflexivity).
    injection Hl as <-. rewrite HL, HTs. simpl. f_equal. lra.
  - destruct (stratified_hour_one _ _ _ _ _ _ _ Hfull2)
      as (s0' & s_b & heat0 & a & q_in & q_out & self & lt & Hinit' & Hab
          & _ & Hc & _ & _ & _ & _ & HL & _); [simpl; lia |].
    rewrite Hinit in Hinit'. injection Hinit' as <-.
    destruct (attributes_fields _ _ Hab)
      as (_ & Hdb & _ & _ & _ & Hltb & Hdtb & HTab & _ & _ & _ & HStb & _).
    destruct (calculate_stratified_heat_loss_ok
                (layer_assignment
                   (surface_loss (K_top s_b) (S_top s_b) (T_amb s_b))
                   (surface_loss (K_bottom s_b 50 20) (S_bottom s_b)
                      (T_soil s_b))
                   (surface_loss (K_side s_b 50) (S_side s_b / INR 1)
                      (T_soil s_b)) 1)
                [Fin 60] s_b) as (a' & Hc' & Hla & Hval).
    { intros j T.
      apply (stratified_layer_loss_pit s_b 20 20 50 [50; 15]).
      - now apply (pit_attributes s_b s0).
      - now rewrite Hdb, Hd. }
    simpl in Hc. rewrite Hc' in Hc. injection Hc as _ Ha. subst a'.
    destruct a as [| a0 [| ? ?]]; simpl in Hla; try lia.
    specialize (Hval 0%nat ltac:(simpl; lia)). simpl in Hval.
    rewrite HL, Hval. unfold np_sum, surface_loss, K_top.
    rewrite Hltb, Hdtb, HStb, HTab, Hlt, Hdt, HSt, HTa. simpl. reflexivity.
  - lra.
Qed.

(** C8, amended: with one layer the stratified simulator has no diffusion
    transfer, and it agrees with the single-node simulator at hour 0: the
    stored energy is the same, and the temperature is the same when the
    initial temperature lies within [T_min, T_max].  (The heat loss of every
    hour and the cells of the later hours are not claimed equal: the single
    layer loses through the top surface against the ambient temperature, its
    loss is subtracted as loss/3600, and charging stops at T_max.) *)
Theorem single_layer_agrees_at_hour_zero (p : Params.t) (Q_in Q_out : list R)
    (k : R) (s1 : ThermalStorage) (heat : list float) (s2 : ThermalStorage) :
  run_single_node p Q_in Q_out = Ok (Return tt s1) ->
  run_stratified p Q_in Q_out 1 k = Ok (Return heat s2) ->
  nth 0 (Q_sto s2) NaN = nth 0 (Q_sto s1) NaN
  /\ (Params.T_min p <= Params.initial_temp p <= Params.T_max p ->
      nth 0 (T_sto s2) NaN = nth 0 (T_sto s1) NaN)
  /\ forall self lv lt st, diffusion_pass self lv lt k 1 st = st.
Proof.
  intros Hrun1 Hrun2.
  destruct (single_node_hour_zero _ _ _ _ Hrun1) as (s0 & Hinit & HQ1 & HT1).
  destruct (stratified_hour_zero _ _ _ _ _ _ _ Hrun2)
    as (s0' & Hinit' & HQ2 & HT2).
  rewrite Hinit in Hinit'. injection Hinit' as <-.
  destruct (init_inv _ _ Hinit) as (_ & _ & Hs0).
  split; [| split].
  - rewrite HQ1, HQ2. unfold energy_at, np_sum. simpl. f_equal. lra.
  - intros Hb. rewrite HT1, HT2.
    rewrite clamp_inside by (rewrite Hs0; simpl; exact Hb).
    unfold np_average, np_sum. simpl. f_equal. lra.
  - reflexivity.
Qed.

(** The example trapezoid with the soil at the initial temperature. *)
Lemma single_layer_agrees_at_hour_zero_witness :
  exists s1 heat s2,
    run_single_node (trapezoid_params 60 40 60 2) [0; 0] [0; 0]
    = Ok (Return tt s1)
    /\ run_stratified (trapezoid_params 60 40 60 2) [0; 0] [0; 0] 1 (6 / 10)
       = Ok (Return heat s2)
    /\ nth 0 (Q_sto s2) NaN = nth 0 (Q_sto s1) NaN
    /\ nth 0 (T_sto s2) NaN = nth 0 (T_sto s1) NaN.
Proof.
  destruct single_layer_example_runs
    as (s0 & s1 & heat & s2 & _ & Hrun1 & Hrun2).
  exists s1, heat, s2.
  destruct (single_layer_agrees_at_hour_zero _ _ _ _ s1 heat s2 Hrun1 Hrun2)
    as (HQ & HT & _).
  repeat split; auto. apply HT. simpl. lra.
Defined.

(** ** Layer temperatures and the temperature bounds (claim C1) *)

Lemma discharge_layer_idle (self : ThermalStorage) (lv : R)
    (T_prev : list float) (i : nat) (st : layer_state) :
  (remaining_heat st <? 0)%fl = false ->
  discharge_layer self lv T_prev i st = st.
Proof. intros H. unfold discharge_layer. now rewrite H. Qed.

Lemma get_update_eq (a : list float) (i : nat) (v : float) :
  (i < length a)%nat -> get (update a i v) i = v.
Proof. intros H. unfold get. now apply nth_update_eq. Qed.

(** The charge loop on a layer when there is no heat left to store and the
    layer was not below the minimum: the temperature is held and the loss
    of the hour is taken from the stored energy. *)
Lemma charge_layer_idle (self : ThermalStorage) (lv : R)
    (T_prev : list float) (i : nat) (st : layer_state) :
  (remaining_heat st >? 0)%fl = false ->
  (get T_prev i <? T_min self)%fl = false ->
  (i < length (T_t st))%nat ->
  charge_layer self lv T_prev i st
  = mkLayerState
      (update (T_t st) i (get T_prev i))
      (update (heat_stored_per_layer st) i
         (get (heat_stored_per_layer st) i
          - get (Q_loss_layers self) i / 3600)%fl)
      (remaining_heat st).
Proof.
  intros Hr Hm Hi. unfold charge_layer. rewrite Hr.
  cbn [T_t heat_stored_per_layer remaining_heat].
  rewrite get_update_eq by assumption. now rewrite Hm.
Qed.

(** C1, failing input: the trapezoid of the repository's example, started at
    the minimum temperature 40 with no input and no output, two layers, two
    hours.  The charge loop holds both layers at 40 and takes the loss of
    the hour from their stored energy; the diffusion loop then recomputes the
    temperatures from the stored energy without the bounds of lines 423-425,
    and the top layer ends hour 1 below [T_min]. *)
Theorem layers_below_minimum :
  exists heat s x,
    run_stratified (trapezoid_params 10 40 40 2) [0; 0] [0; 0] 2 (6 / 10)
    = Ok (Return heat s)
    /\ nth 0 (nth 1 (T_sto_layers s) []) NaN = Fin x
    /\ x < 40.
Proof.
  destruct (init_trapezoid_params 10 40 40 2) as
    (s0 & Hinit & Hpit & Hd & Hrho & Hcp & HTref & Hlt & Hdt & _ & _ & _
     & HTa & HTs & HTmax & HTmin & HSt & HSb & HSs & HV); [lia |].
  destruct (run_stratified_returns _ s0 [0; 0] [0; 0] 2 (6 / 10) Hinit)
    as (heat & s & Hrun); try (simpl; lia).
  exists heat, s.
  destruct (stratified_hour_one _ _ _ _ _ _ _ Hrun)
    as (s0' & s_b & heat0 & a & q_in & q_out & self & lt & Hinit' & Hab
        & Hheat & Hc & Hi & Ho & Hself & Ha & _ & Hrow); [simpl; lia |].
  rewrite Hinit in Hinit'. injection Hinit' as <-.
  injection Hi as <-. injection Ho as <-.
  destruct (attributes_fields _ _ Hab)
    as (_ & Hdb & _ & _ & _ & Hltb & Hdtb & HTab & HTsb & _ & _ & HStb & _
        & HSbb & _).
  destruct (attributes_fields _ _ Hself)
    as (_ & _ & Hrs & Hcs & HTrs & _ & _ & _ & _ & HTmaxs & HTmins & _ & HSss
        & _ & _).
  destruct (calculate_stratified_heat_loss_ok
              (layer_assignment
                 (surface_loss (K_top s_b) (S_top s_b) (T_amb s_b))
                 (surface_loss (K_bottom s_b 50 20) (S_bottom s_b)
                    (T_soil s_b))
                 (surface_loss (K_side s_b 50) (S_side s_b / INR 2)
                    (T_soil s_b)) 2)
              [Fin 40; Fin 40] s_b) as (a' & Hc' & Hla & Hval).
  { intros j T.
    apply (stratified_layer_loss_pit s_b 20 20 50 [50; 15]).
    - now apply (pit_attributes s_b s0).
    - now rewrite Hdb, Hd. }
  simpl in Hc. rewrite Hc' in Hc. injection Hc as _ Ha'. subst a'.
  destruct a as [| a0 [| a1 [| ? ?]]]; simpl in Hla; try lia.
  pose proof (Hval 0%nat ltac:(simpl; lia)) as H0.
  pose proof (Hval 1%nat ltac:(simpl; lia)) as H1.
  simpl in H0, H1.
  unfold surface_loss, K_top in H0, H1.
  rewrite Hltb, Hdtb, HStb, HTab, Hlt, Hdt, HSt, HTa in H0.
  rewrite HSbb, HTsb, HSb, HTs in H1.
  cbn [fmul fsub fdiv lift2] in H0, H1.
  subst a0 a1.
  rewrite Hrow. subst heat0.
  unfold passes, diffusion_pass, charge_pass, discharge_pass, range.
  params.
  cbn [seq fold_left Nat.sub np_zeros repeat map].
  assert (Hrem : (Fin (0 - 0) <? 0)%fl = false)
    by (apply Rltb_false; lra).
  assert (Hrem' : (Fin (0 - 0) >? 0)%fl = false)
    by (apply Rltb_false; lra).
  assert (Hmin : forall i, (i < 2)%nat ->
                           (get [Fin 40; Fin 40] i <? T_min self)%fl = false).
  { intros [| [| i]] Hi; try lia; apply Rltb_false; lra. }
  change (Fin 0 - Fin 0)%fl with (Fin (0 - 0)).
  rewrite (discharge_layer_idle self _ _ 0) by exact Hrem.
  rewrite (discharge_layer_idle self _ _ 1) by exact Hrem.
  rewrite (charge_layer_idle self _ _ 0) by (auto; simpl; lia).
  rewrite (charge_layer_idle self _ _ 1) by (auto; simpl; lia).
  rewrite Ha.
  unfold diffuse_pair, heat_transfer_kWh, energy_at.
  cbn [T_t heat_stored_per_layer remaining_heat get nth update Nat.add
       fmul fsub fdiv fadd lift2].
  eexists. split; [exact Hrun |]. split; [reflexivity |].
  rewrite Hrs, Hcs, HTrs, HSss, Hrho, Hcp, HTref.
  replace (6 / 10 * S_side s0 * (40 - 40) / lt / 3600000 * 3600) with 0
    by (unfold Rdiv; ring).
  replace (INR 2) with 2 by (simpl; lra).
  set (V := volume s0) in *.
  replace ((V * 1000 * 4180 * (40 - 10) / 3600000 / 2
            - 4 / 100 / (3 / 10) * 400 * (40 - 10) / 1000 / 3600 - 0)
           * 3600000 / (V / 2 * 1000 * 4180) + 10)
    with (40 - 1600 / (2090000 * V)) by (field; lra).
  assert (0 < 1600 / (2090000 * V)) by (apply Rdiv_lt_0_compat; lra).
  lra.
Qed.

(* ===================================================================== *)
(** * Further properties *)

(** ** Geometry *)

Lemma geometry_eq (a b c d a' b' c' d' : R) :
  a = a' -> b = b' -> c = c' -> d = d' ->
  @Ok geometry (a, b, c, d) = Ok (a', b', c', d').
Proof. now intros -> -> -> ->. Qed.

Lemma sqrt_square_height (d h : R) :
  d = 0 -> 0 <= h -> sqrt (d ^ 2 + h ^ 2) = h.
Proof.
  intros -> Hh. replace (0 ^ 2 + h ^ 2) with (h ^ 2) by ring.
  now apply sqrt_pow2.
Qed.

(** X1: A truncated cone whose two radii are equal has the volume and the
    areas of the cylinder of that radius and height. *)
Theorem cone_with_equal_radii_is_cylinder (radius height : R) :
  0 <= height ->
  calculate_truncated_cone_geometry [radius; radius; height]
  = calculate_cylindrical_geometry [radius; height].
Proof.
  intros Hh.
  unfold calculate_truncated_cone_geometry, calculate_cylindrical_geometry.
  cbv zeta.
  rewrite (sqrt_square_height (radius - radius) height) by (auto; ring).
  apply geometry_eq; field.
Qed.

(** Radius 10 m, height 25 m. *)
Lemma cone_with_equal_radii_is_cylinder_witness :
  calculate_truncated_cone_geometry [10; 10; 25]
  = calculate_cylindrical_geometry [10; 25].
Proof. apply (cone_with_equal_radii_is_cylinder 10 25). lra. Defined.

(** X2: A truncated trapezoid whose top and bottom rectangles are equal has
    the volume and the areas of the box: [l * w * h], top and bottom [l * w],
    sides [2 * (l + w) * h]. *)
Theorem trapezoid_with_equal_rectangles_is_box (l w h : R) :
  0 <= l * w -> 0 <= h ->
  calculate_truncated_trapezoid_geometry [l; w; l; w; h]
  = Ok (l * w * h, l * w, 2 * (l + w) * h, l * w).
Proof.
  intros Ha Hh. unfold calculate_truncated_trapezoid_geometry. cbv zeta.
  rewrite (sqrt_square_height (l - l) h) by (auto; ring).
  rewrite (sqrt_square_height (w - w) h) by (auto; ring).
  rewrite sqrt_square by assumption.
  apply geometry_eq; field.
Qed.

(** A box of 20 m by 30 m, 15 m deep. *)
Lemma trapezoid_with_equal_rectangles_is_box_witness :
  calculate_truncated_trapezoid_geometry [20; 30; 20; 30; 15]
  = Ok (20 * 30 * 15, 20 * 30, 2 * (20 + 30) * 15, 20 * 30).
Proof.
  apply (trapezoid_with_equal_rectangles_is_box 20 30 15); lra.
Defined.

Lemma slant_pos (d h : R) : 0 < h -> 0 < sqrt (d ^ 2 + h ^ 2).
Proof.
  intros Hh. apply sqrt_lt_R0.
  assert (0 <= d ^ 2) by (apply pow2_ge_0).
  assert (0 < h ^ 2) by (apply pow_lt; assumption).
  lra.
Qed.

Lemma compute_geometry_positive (st : string) (dims : list R)
    (v a_top a_side a_bottom : R) :
  compute_geometry st dims = Ok (v, a_top, a_side, a_bottom) ->
  Forall (fun d => 0 < d) dims ->
  0 < v /\ 0 < a_top /\ 0 < a_side /\ 0 < a_bottom.
Proof.
  intros Hg Hpos. pose proof PI_RGT_0 as Hpi.
  unfold compute_geometry in Hg.
  destruct (str_eq st "cylindrical").
  { destruct dims as [| r [| h [| ? ?]]]; try discriminate.
    cbn in Hg. injection Hg as <- <- <- <-.
    inversion Hpos as [| ? ? Hr Hpos1]; subst.
    inversion Hpos1 as [| ? ? Hh _]; subst.
    assert (0 < r * r) by (apply Rmult_lt_0_compat; assumption).
    assert (0 < PI * (r * r)) by (apply Rmult_lt_0_compat; assumption).
    assert (0 < PI * r) by (apply Rmult_lt_0_compat; assumption).
    assert (0 < PI * r * h) by (apply Rmult_lt_0_compat; assumption).
    assert (0 < PI * (r * r) * h) by (apply Rmult_lt_0_compat; assumption).
    repeat split; nra. }
  destruct (str_eq st "truncated_cone").
  { destruct dims as [| rt [| rb [| h [| ? ?]]]]; try discriminate.
    cbn [calculate_truncated_cone_geometry] in Hg.
    injection Hg as <- <- <- <-.
    inversion Hpos as [| ? ? Hrt Hpos1]; subst.
    inversion Hpos1 as [| ? ? Hrb Hpos2]; subst.
    inversion Hpos2 as [| ? ? Hh _]; subst.
    pose proof (slant_pos (rt - rb) h Hh) as Hs.
    assert (0 < rt * rt) by (apply Rmult_lt_0_compat; assumption).
    assert (0 < rb * rb) by (apply Rmult_lt_0_compat; assumption).
    assert (0 < rt * rb) by (apply Rmult_lt_0_compat; assumption).
    assert (0 < PI * h) by (apply Rmult_lt_0_compat; assumption).
    repeat split.
    - apply Rmult_lt_0_compat; [nra | nra].
    - nra.
    - apply Rmult_lt_0_compat; [| assumption].
      apply Rmult_lt_0_compat; lra.
    - nra. }
  destruct (str_eq st "truncated_trapezoid"); [| discriminate].
  destruct dims as [| tl [| tw [| bl [| bw [| h [| ? ?]]]]]]; try discriminate.
  cbn [calculate_truncated_trapezoid_geometry] in Hg.
  injection Hg as <- <- <- <-.
  inversion Hpos as [| ? ? Htl Hpos1]; subst.
  inversion Hpos1 as [| ? ? Htw Hpos2]; subst.
  inversion Hpos2 as [| ? ? Hbl Hpos3]; subst.
  inversion Hpos3 as [| ? ? Hbw Hpos4]; subst.
  inversion Hpos4 as [| ? ? Hh _]; subst.
  pose proof (slant_pos (tl - bl) h Hh) as Hs1.
  pose proof (slant_pos (tw - bw) h Hh) as Hs2.
  assert (Ht : 0 < tl * tw) by (apply Rmult_lt_0_compat; assumption).
  assert (Hb : 0 < bl * bw) by (apply Rmult_lt_0_compat; assumption).
  pose proof (sqrt_pos (tl * tw * (bl * bw))) as Hq.
  assert (0 < (tl + bl) * sqrt ((tl - bl) ^ 2 + h ^ 2))
    by (apply Rmult_lt_0_compat; lra).
  assert (0 < (tw + bw) * sqrt ((tw - bw) ^ 2 + h ^ 2))
    by (apply Rmult_lt_0_compat; lra).
  cbn [pow] in *.
  repeat split; try assumption.
  - apply Rmult_lt_0_compat; [lra | lra].
  - unfold Rdiv. lra.
Qed.

(** X3: Every storage that the constructor builds from positive dimensions has
    a positive volume and positive top, side and bottom areas. *)
Theorem constructed_geometry_positive (p : Params.t) (s : ThermalStorage) :
  __init__ p = Ok s ->
  Forall (fun d => 0 < d) (Params.dimensions p) ->
  0 < volume s /\ 0 < S_top s /\ 0 < S_side s /\ 0 < S_bottom s.
Proof.
  intros Hinit Hpos.
  destruct (init_inv p s Hinit) as (_ & Hg & _).
  exact (compute_geometry_positive _ _ _ _ _ _ Hg Hpos).
Qed.

(** The plain cylinder of the example. *)
Lemma constructed_geometry_positive_witness :
  0 < volume cylinder_example /\ 0 < S_top cylinder_example
  /\ 0 < S_side cylinder_example /\ 0 < S_bottom cylinder_example.
Proof.
  apply (constructed_geometry_positive cylinder_params cylinder_example).
  - reflexivity.
  - repeat constructor; simpl; lra.
Defined.

(** ** The constructor *)

Lemma arity_supported (st : string) (n : nat) :
  arity st = Some n -> In st constructor_storage_types.
Proof.
  unfold arity. intros H.
  destruct (str_eq st "cylindrical") eqn:E1;
    [apply str_eq_true in E1; subst; simpl; auto |].
  destruct (str_eq st "truncated_cone") eqn:E2;
    [apply str_eq_true in E2; subst; simpl; auto |].
  destruct (str_eq st "truncated_trapezoid") eqn:E3;
    [apply str_eq_true in E3; subst; simpl; auto | discriminate].
Qed.

Lemma arity_unsupported (st : string) :
  arity st = None -> ~ In st constructor_storage_types.
Proof.
  unfold arity. intros H Hin.
  destruct Hin as [<- | [<- | [<- | []]]]; discriminate.
Qed.

(** The geometry of a supported type unpacks exactly [arity] dimensions. *)
Lemma compute_geometry_arity (st : string) (dims : list R) (n : nat) :
  arity st = Some n ->
  (length dims = n -> exists g, compute_geometry st dims = Ok g)
  /\ (length dims <> n -> compute_geometry st dims = Err unpack_error).
Proof.
  unfold arity, compute_geometry. intros Ha.
  destruct (str_eq st "cylindrical").
  { injection Ha as <-.
    destruct dims as [| r [| h [| ? ?]]]; split; intros Hl; simpl in Hl;
      try lia; cbn [calculate_cylindrical_geometry]; eauto. }
  destruct (str_eq st "truncated_cone").
  { injection Ha as <-.
    destruct dims as [| rt [| rb [| h [| ? ?]]]]; split; intros Hl;
      simpl in Hl; try lia; cbn [calculate_truncated_cone_geometry]; eauto. }
  destruct (str_eq st "truncated_trapezoid"); [| discriminate].
  injection Ha as <-.
  destruct dims as [| tl [| tw [| bl [| bw [| h [| ? ?]]]]]]; split;
    intros Hl; simpl in Hl; try lia;
    cbn [calculate_truncated_trapezoid_geometry]; eauto.
Qed.

Lemma init_geometry (p : Params.t) :
  (0 < Params.hours p)%nat ->
  __init__ p
  = match compute_geometry (Params.storage_type p) (Params.dimensions p) with
    | Err e => Err e
    | Ok g =>
        Ok (set_geometry g
              (mkThermalStorage
                 (Params.storage_type p) (Params.dimensions p) (Params.rho p)
                 (Params.cp p) (Params.T_ref p) (Params.lambda_top p)
                 (Params.lambda_side p) (Params.lambda_bottom p)
                 (Params.lambda_soil p) (Params.T_amb p) (Params.T_soil p)
                 (Params.T_max p) (Params.T_min p) (Params.dt_top p)
                 (Params.ds_side p) (Params.db_bottom p) (Params.hours p)
                 (Params.num_layers p) (Params.thermal_conductivity p)
                 (np_zeros (Params.hours p)) (np_zeros (Params.hours p))
                 (Fin (Params.initial_temp p)
                  :: np_zeros (Params.hours p - 1))
                 0 0 0 0 [] []))
    end.
Proof.
  intros Hh. unfold __init__.
  destruct (Params.hours p) as [| h]; [lia |].
  cbn [np_zeros repeat update].
  replace (S h - 1)%nat with h by lia.
  destruct (compute_geometry _ _) as [[[[v st] ss] sb] | e]; reflexivity.
Qed.

(** X4: What a call of the constructor gives. With a horizon of 0 hours the
    assignment [T_sto[0] = initial_temp] raises IndexError, whatever the
    storage type. Otherwise an unsupported storage type raises the ValueError
    of the dispatch, a supported type with the wrong number of dimensions
    raises the ValueError of the unpacking, and a supported type with the
    right number of dimensions gives an object whose stored-energy and
    heat-loss arrays are zero and whose temperature array is zero after the
    initial temperature in cell 0. *)
Theorem constructor_outcome (p : Params.t) :
  (Params.hours p = 0%nat -> __init__ p = Err IndexError)
  /\ ((0 < Params.hours p)%nat ->
      (arity (Params.storage_type p) = None ->
       __init__ p = Err (ValueError "Unsupported storage type"))
      /\ (forall n, arity (Params.storage_type p) = Some n ->
                    length (Params.dimensions p) <> n ->
                    exists msg, __init__ p = Err (ValueError msg))
      /\ (forall n, arity (Params.storage_type p) = Some n ->
                    length (Params.dimensions p) = n ->
                    exists s,
                      __init__ p = Ok s
                      /\ Q_sto s = np_zeros (Params.hours p)
                      /\ Q_loss s = np_zeros (Params.hours p)
                      /\ T_sto s
                         = Fin (Params.initial_temp p)
                           :: np_zeros (Params.hours p - 1))).
Proof.
  split.
  - intros Hh. unfold __init__. now rewrite Hh.
  - intros Hh. split; [| split].
    + intros Ha. apply init_rejects; [assumption |].
      now apply arity_unsupported.
    + intros n Ha Hl. rewrite init_geometry by assumption.
      destruct (compute_geometry_arity _ (Params.dimensions p) _ Ha)
        as (_ & Hbad).
      rewrite (Hbad Hl). unfold unpack_error. eauto.
    + intros n Ha Hl. rewrite init_geometry by assumption.
      destruct (compute_geometry_arity _ (Params.dimensions p) _ Ha)
        as (Hgood & _).
      destruct (Hgood Hl) as ([[[v st] ss] sb] & ->).
      eexists. split; [reflexivity |]. simpl. auto.
Qed.

(** ** The lumped heat loss *)

Lemma init_dimensions (p : Params.t) (s0 : ThermalStorage) :
  __init__ p = Ok s0 ->
  exists n, arity (storage_type s0) = Some n /\ length (dimensions s0) = n.
Proof.
  intros Hinit.
  destruct (init_inv _ _ Hinit) as (_ & Hg & Hs0).
  assert (Hst : storage_type s0 = Params.storage_type p)
    by (rewrite Hs0; reflexivity).
  assert (Hd : dimensions s0 = Params.dimensions p)
    by (rewrite Hs0; reflexivity).
  rewrite <- Hst, <- Hd in Hg. clear Hs0 Hst Hd.
  unfold compute_geometry in Hg. unfold arity.
  destruct (str_eq (storage_type s0) "cylindrical").
  { destruct (dimensions s0) as [| r [| h [| ? ?]]]; try discriminate.
    eauto. }
  destruct (str_eq (storage_type s0) "truncated_cone").
  { destruct (dimensions s0) as [| rt [| rb [| h [| ? ?]]]]; try discriminate.
    eauto. }
  destruct (str_eq (storage_type s0) "truncated_trapezoid"); [| discriminate].
  destruct (dimensions s0) as [| tl [| tw [| bl [| bw [| h [| ? ?]]]]]];
    try discriminate.
  eauto.
Qed.

(** The lumped heat loss of an object with a supported type and the
    dimensions of that type: [None] for the plain cylinder, a value for the
    pits. *)
Lemma calculate_heat_loss_supported (s : ThermalStorage) (n : nat)
    (T : float) :
  arity (storage_type s) = Some n -> (n <= length (dimensions s))%nat ->
  exists v,
    calculate_heat_loss s T = Ok v
    /\ (v = None <-> storage_type s = "cylindrical"%string).
Proof.
  unfold arity. intros Ha Hl.
  destruct (str_eq (storage_type s) "cylindrical") eqn:E1.
  { apply str_eq_true in E1. exists None.
    split; [now apply calculate_heat_loss_cylindrical | tauto]. }
  apply str_eq_false in E1.
  assert (Hp : is_pit s /\ (3 <= n)%nat).
  { unfold is_pit.
    destruct (str_eq (storage_type s) "truncated_cone") eqn:E2;
      [apply str_eq_true in E2; injection Ha as <-; auto |].
    destruct (str_eq (storage_type s) "truncated_trapezoid") eqn:E3;
      [apply str_eq_true in E3; injection Ha as <-; split; [auto | lia]
      | discriminate]. }
  destruct Hp as (Hp & Hn).
  eexists. split.
  - apply (calculate_heat_loss_pit s T (nth 2 (dimensions s) 0)
             (nth 1 (dimensions s) 0)); auto; apply index_nth; lia.
  - split; [discriminate | contradiction].
Qed.



(** X6: The lumped heat loss of a pit is proportional to the excess of the
    storage temperature over the soil temperature, with the positive factor
    [(K_s * S_side + K_b * S_bottom) / 1000]: it is positive above the soil
    temperature, zero at it and negative below. The top surface and the
    ambient temperature play no part. *)
Theorem pit_heat_loss_proportional (s : ThermalStorage) (d0 d1 H : R)
    (rest : list R) :
  is_pit s -> dimensions s = d0 :: d1 :: H :: rest ->
  0 < ds_side s / lambda_side s -> 0 < db_bottom s / lambda_bottom s ->
  0 < lambda_soil s -> 0 < H -> 0 < d1 -> 0 < S_side s -> 0 < S_bottom s ->
  let c := (K_side s H * S_side s + K_bottom s H d1 * S_bottom s) / 1000 in
  0 < c
  /\ forall T : R,
       calculate_heat_loss s (Fin T) = Ok (Some (Fin (c * (T - T_soil s)))).
Proof.
  intros Hp Hd Hs Hb Hsoil HH H1 Hss Hsb c.
  pose proof (K_side_pos s H Hs Hsoil HH) as Hks.
  pose proof (K_bottom_pos s H d1 Hb Hsoil HH H1) as Hkb.
  split.
  - unfold c.
    assert (0 < K_side s H * S_side s) by (apply Rmult_lt_0_compat; lra).
    assert (0 < K_bottom s H d1 * S_bottom s)
      by (apply Rmult_lt_0_compat; lra).
    lra.
  - intros T.
    rewrite (calculate_heat_loss_pit s _ H d1)
      by (auto; rewrite Hd; reflexivity).
    unfold c. simpl. do 3 f_equal. field.
Qed.

(** The trapezoid of the repository's example. *)
Lemma pit_heat_loss_proportional_witness :
  exists s0,
    __init__ (trapezoid_params 10 40 60 2) = Ok s0
    /\ let c := (K_side s0 50 * S_side s0 + K_bottom s0 50 20 * S_bottom s0)
                / 1000 in
       0 < c
       /\ forall T : R,
            calculate_heat_loss s0 (Fin T)
            = Ok (Some (Fin (c * (T - T_soil s0)))).
Proof.
  destruct (init_trapezoid_params 10 40 60 2) as
    (s0 & Hinit & Hpit & Hd & _ & _ & _ & _ & _ & Hds & Hdb & Hsoil & _ & _
     & _ & _ & _ & Hsb & Hss & _); [lia |].
  exists s0. split; [exact Hinit |].
  apply (pit_heat_loss_proportional s0 20 20 50 [50; 15] Hpit Hd); lra.
Defined.

(** ** The single-node simulator: temperature bounds *)


Lemma clamp_cases (s : ThermalStorage) (y : float) :
  clamp s y = Fin (T_max s) \/ clamp s y = Fin (T_min s) \/ clamp s y = y.
Proof.
  unfold clamp.
  destruct (y >? T_max s)%fl; [auto |].
  destruct (y <? T_min s)%fl; auto.
Qed.



Lemma energy_at_finite (s : ThermalStorage) (x : R) :
  energy_at s (Fin x)
  = Fin (volume s * rho s * cp s * (x - T_ref s) / 3600000).
Proof. reflexivity. Qed.

Lemma temperature_at_finite (s : ThermalStorage) (q : R) :
  temperature_at s (Fin q)
  = Fin (q * 3600000 / (volume s * rho s * cp s) + T_ref s).
Proof. reflexivity. Qed.






(** ** The single-node simulator: the inputs it reads *)

Lemma for_each_ext {S : Type} (body body' : nat -> S -> M S) (ts : list nat) :
  (forall t acc s, body t acc s = body' t acc s) ->
  forall acc s, for_each body ts acc s = for_each body' ts acc s.
Proof.
  intros Hb. induction ts as [| t ts IH]; intros acc s; simpl.
  - reflexivity.
  - unfold bind. rewrite Hb.
    destruct (body' t acc s); [apply IH | reflexivity].
Qed.

(** X8: [simulate] never reads [Q_in[0]] and [Q_out[0]]: two pairs of input
    series that agree from hour 1 on give the same outcome, whatever their
    first entries are and whether they have one. *)
Theorem single_node_ignores_hour_zero_inputs (Q_in Q_out Q_in' Q_out' : list R)
    (self : ThermalStorage) :
  (forall t, index Q_in (S t) = index Q_in' (S t)) ->
  (forall t, index Q_out (S t) = index Q_out' (S t)) ->
  simulate Q_in Q_out self = simulate Q_in' Q_out' self.
Proof.
  intros Hin Hout. unfold simulate.
  apply for_each_ext. intros t _ s.
  destruct t as [| t']; [reflexivity |].
  unfold simulate_step. now rewrite Hin, Hout.
Qed.

(** The example cylinder with the inputs of hour 0 replaced by zeros and by
    nothing at all. *)
Lemma single_node_ignores_hour_zero_inputs_witness :
  simulate [450; 455] [100; 120] cylinder_example
  = simulate [0; 455] [0; 120] cylinder_example.
Proof.
  apply single_node_ignores_hour_zero_inputs; intros t; reflexivity.
Defined.

(** The first [m] iterations of [simulate] return when the heat loss does
    not raise and the inputs have an entry for each of the hours
    [1 .. m-1]. *)
Lemma simulate_prefix_returns (Q_in Q_out : list R) (s0 : ThermalStorage)
    (m : nat) :
  arrays_sized s0 -> (m <= hours s0)%nat ->
  (forall T, exists loss, calculate_heat_loss s0 T = Ok loss) ->
  (forall t, (1 <= t < m)%nat ->
             (t < length Q_in)%nat /\ (t < length Q_out)%nat) ->
  exists s,
    for_each (fun t _ => simulate_step Q_in Q_out t) (seq 0 m) tt s0
    = Return tt s
    /\ attributes s = attributes s0 /\ arrays_sized s.
Proof.
  intros Hs Hm Hloss Hcov.
  pose proof (for_each_total
                (fun t _ => simulate_step Q_in Q_out t)
                (fun _ _ s => attributes s = attributes s0
                              /\ arrays_sized s)
                m) as Hloop.
  destruct (Hloop) with (m := m) (k := 0%nat) (acc := tt) (s := s0)
    as (u & s & Hrun & Hinv); auto.
  - intros t u s Ht (Ha & Hsz).
    pose proof (hours_attributes _ _ Ha) as Hh.
    rewrite simulate_step_eq by (auto; lia).
    rewrite (calculate_heat_loss_attributes s s0) by assumption.
    destruct (Hloss (nth (before (hours s) t) (T_sto s) NaN)) as (l & ->).
    destruct t as [| t'].
    + eexists tt, _. split; [reflexivity |].
      rewrite attributes_after_step. split; auto.
      now apply arrays_sized_after_step.
    + cbn iota beta zeta.
      destruct (Hcov (S t')) as (Hi & Ho); [lia |].
      rewrite (index_nth Q_in _ 0) by lia.
      rewrite (index_nth Q_out _ 0) by lia.
      eexists tt, _. split; [reflexivity |].
      rewrite attributes_after_step. split; auto.
      now apply arrays_sized_after_step.
  - destruct u. exists s. simpl in Hinv. auto.
Qed.




(** ** The single-node simulator: stored energy against temperature *)

Lemma energy_of_temperature (s : ThermalStorage) (Q : float) :
  volume s * rho s * cp s <> 0 ->
  energy_at s (temperature_at s Q) = Q.
Proof.
  intros Hc. destruct Q as [q |]; [| reflexivity].
  rewrite temperature_at_finite, energy_at_finite. f_equal. field.
  repeat split; intros E; apply Hc; rewrite E; ring.
Qed.

(** X10: In a run of the single-node simulator from the constructor, with
    [volume * rho * cp] not zero, the two arrays agree wherever no bound
    applied: at every hour the reported temperature is [T_max] or [T_min], or
    the reported stored energy is the energy at the reported temperature. The
    stored energy itself is never bounded. *)
Theorem single_node_energy_matches_temperature (p : Params.t)
    (Q_in Q_out : list R) (s : ThermalStorage) (t : nat) :
  run_single_node p Q_in Q_out = Ok (Return tt s) ->
  volume s * rho s * cp s <> 0 ->
  (t < Params.hours p)%nat ->
  nth t (T_sto s) NaN = Fin (T_max s)
  \/ nth t (T_sto s) NaN = Fin (T_min s)
  \/ nth t (Q_sto s) NaN = energy_at s (nth t (T_sto s) NaN).
Proof.
  unfold run_single_node. intros Hrun Hc Ht.
  destruct (__init__ p) as [s0 | e] eqn:Hinit; [| discriminate].
  injection Hrun as Hrun.
  destruct (init_arrays _ _ Hinit) as (Hs & _ & Hhp & _ & HT0 & _).
  destruct (simulate_trace Q_in Q_out s0 s Hs Hrun) as (Ha & _ & Hok).
  destruct (attributes_fields _ _ Ha)
    as (_ & _ & Hrho & Hcp & _ & _ & _ & _ & _ & Hmax & Hmin & _ & _ & _ & Hv).
  rewrite (energy_at_attributes s s0) by assumption.
  rewrite Hmax, Hmin. rewrite Hv, Hrho, Hcp in Hc.
  specialize (Hok t ltac:(lia)).
  destruct t as [| t']; simpl in Hok.
  - destruct Hok as (loss & _ & _ & HQ & HT).
    rewrite HT, HQ.
    destruct (clamp_cases s0 (nth 0 (T_sto s0) NaN)) as [-> | [-> | ->]];
      auto.
  - destruct Hok as (loss & q_in & q_out & _ & _ & _ & _ & _ & HT).
    rewrite HT.
    destruct (clamp_cases s0 (temperature_at s0 (nth (S t') (Q_sto s) NaN)))
      as [-> | [-> | ->]]; auto.
    right. right. now rewrite energy_of_temperature.
Qed.

(** The example trapezoid over two hours, at hour 1. *)
Lemma single_node_energy_matches_temperature_witness :
  exists s,
    run_single_node (trapezoid_params 10 40 60 2) [450; 450] [100; 100]
    = Ok (Return tt s)
    /\ (nth 1 (T_sto s) NaN = Fin (T_max s)
        \/ nth 1 (T_sto s) NaN = Fin (T_min s)
        \/ nth 1 (Q_sto s) NaN = energy_at s (nth 1 (T_sto s) NaN)).
Proof.
  destruct (init_trapezoid_params 10 40 60 2) as
    (s0 & Hinit & _ & _ & Hrho & Hcp & _ & _ & _ & _ & _ & _ & _ & _ & _ & _
     & _ & _ & _ & Hvol); [lia |].
  destruct (init_arrays _ _ Hinit) as (Hs & _).
  destruct (trapezoid_run_returns _ _ _ _ [450; 450] [100; 100] s0 Hinit)
    as (s & Hrun & Hfull); try (simpl; lia).
  destruct (simulate_trace _ _ s0 s Hs Hrun) as (Ha & _).
  destruct (attributes_fields _ _ Ha)
    as (_ & _ & Hrho' & Hcp' & _ & _ & _ & _ & _ & _ & _ & _ & _ & _ & Hv).
  exists s. split; [exact Hfull |].
  apply (single_node_energy_matches_temperature _ _ _ s 1%nat Hfull).
  - rewrite Hv, Hrho', Hcp', Hrho, Hcp. nra.
  - simpl. lia.
Defined.

(** ** A second run of the single-node simulator *)

Lemma index_length {A : Type} (a : list A) (i : nat) (x : A) :
  index a i = Ok x -> (i < length a)%nat.
Proof.
  unfold index. intros H.
  destruct (nth_error a i) eqn:E; [| discriminate].
  apply nth_error_Some. congruence.
Qed.

(** X11: Calling [simulate] again on the object that a run from the
    constructor left, with the same inputs and an initial temperature within
    [T_min, T_max]: the second run returns and reproduces the stored energy
    and the temperature of every hour and the heat loss of every hour after
    hour 0. The heat loss of hour 0 is not reproduced: the second run computes
    it from the last temperature of the first run, which the cell [T_sto[-1]]
    now holds. *)
Theorem second_run_reproduces (p : Params.t) (Q_in Q_out : list R)
    (s1 : ThermalStorage) :
  run_single_node p Q_in Q_out = Ok (Return tt s1) ->
  Params.T_min p <= Params.initial_temp p <= Params.T_max p ->
  exists s2 loss,
    simulate Q_in Q_out s1 = Return tt s2
    /\ (forall t, (t < Params.hours p)%nat ->
                  nth t (Q_sto s2) NaN = nth t (Q_sto s1) NaN
                  /\ nth t (T_sto s2) NaN = nth t (T_sto s1) NaN
                  /\ ((1 <= t)%nat ->
                      nth t (Q_loss s2) NaN = nth t (Q_loss s1) NaN))
    /\ calculate_heat_loss s1 (nth (Params.hours p - 1) (T_sto s1) NaN)
       = Ok loss
    /\ nth 0 (Q_loss s2) NaN = as_float64 loss.
Proof.
  unfold run_single_node. intros Hrun Hb.
  destruct (__init__ p) as [s0 | e] eqn:Hinit; [| discriminate].
  injection Hrun as Hrun.
  destruct (init_arrays _ _ Hinit) as (Hs & Hh & Hhp & _ & HT0 & _).
  destruct (init_inv _ _ Hinit) as (_ & _ & Hs0).
  assert (Hmin : T_min s0 = Params.T_min p) by (rewrite Hs0; reflexivity).
  assert (Hmax : T_max s0 = Params.T_max p) by (rewrite Hs0; reflexivity).
  destruct (simulate_trace Q_in Q_out s0 s1 Hs Hrun) as (Ha & Hs1 & Hok1).
  pose proof (hours_attributes _ _ Ha) as Hh1.
  assert (Hloss : forall T, exists loss, calculate_heat_loss s1 T = Ok loss).
  { intros T. rewrite (calculate_heat_loss_attributes s1 s0) by assumption.
    destruct (init_dimensions _ _ Hinit) as (n & Hn & Hl).
    destruct (calculate_heat_loss_supported s0 n T Hn) as (v & Hv & _);
      [lia | eauto]. }
  destruct (simulate_prefix_returns Q_in Q_out s1 (hours s1))
    as (s2 & Hrun2 & _); auto.
  { intros t Ht.
    destruct t as [| t']; [lia |].
    destruct (Hok1 (S t')) as (l & q_in & q_out & _ & Hi & Ho & _); [lia |].
    split; eapply index_length; eauto. }
  fold (range (hours s1)) in Hrun2.
  change (for_each _ (range (hours s1)) tt s1) with (simulate Q_in Q_out s1)
    in Hrun2.
  destruct (simulate_trace Q_in Q_out s1 s2 Hs1 Hrun2) as (Ha2 & _ & Hok2).
  destruct (Hok2 0%nat ltac:(lia)) as (loss0 & Hl0 & HL0 & HQ0 & HTz).
  exists s2, loss0. split; [exact Hrun2 |].
  assert (Hfirst : nth 0 (T_sto s1) NaN = Fin (Params.initial_temp p)).
  { destruct (Hok1 0%nat Hh) as (l & _ & _ & _ & HT).
    rewrite HT, HT0. apply clamp_inside. lra. }
  split; [| split; [rewrite <- Hhp, <- Hh1; exact Hl0 | exact HL0]].
  assert (Hall : forall t, (t < hours s0)%nat ->
             nth t (Q_sto s2) NaN = nth t (Q_sto s1) NaN
             /\ nth t (T_sto s2) NaN = nth t (T_sto s1) NaN
             /\ ((1 <= t)%nat ->
                 nth t (Q_loss s2) NaN = nth t (Q_loss s1) NaN)).
  { induction t as [| t IH]; intros Ht.
    - destruct (Hok1 0%nat Hh) as (l & _ & _ & HQ & HT).
      rewrite HQ0, HTz, HQ, Hfirst, HT0.
      rewrite (energy_at_attributes s1 s0), (clamp_attributes s1 s0)
        by assumption.
      rewrite clamp_inside by lra.
      repeat split; auto. lia.
    - destruct IH as (EQ & ET & _); [lia |].
      destruct (Hok1 (S t) Ht)
        as (l1 & qi1 & qo1 & Hl1 & Hi1 & Ho1 & HL1 & HQ1 & HT1).
      destruct (Hok2 (S t) ltac:(lia))
        as (l2 & qi2 & qo2 & Hl2 & Hi2 & Ho2 & HL2 & HQ2 & HT2).
      rewrite ET in Hl2.
      rewrite (calculate_heat_loss_attributes s1 s0) in Hl2 by assumption.
      rewrite Hl1 in Hl2. injection Hl2 as <-.
      rewrite Hi1 in Hi2. injection Hi2 as <-.
      rewrite Ho1 in Ho2. injection Ho2 as <-.
      assert (EL : nth (S t) (Q_loss s2) NaN = nth (S t) (Q_loss s1) NaN)
        by congruence.
      assert (EQ' : nth (S t) (Q_sto s2) NaN = nth (S t) (Q_sto s1) NaN)
        by (rewrite HQ2, HQ1, EQ, EL; reflexivity).
      repeat split; auto.
      rewrite HT2, HT1, EQ'.
      rewrite (temperature_at_attributes s1 s0), (clamp_attributes s1 s0)
        by assumption.
      reflexivity. }
  intros t Ht. apply Hall. lia.
Qed.

(** The example trapezoid over two hours. *)
Lemma second_run_reproduces_witness :
  exists s1 s2 loss,
    run_single_node (trapezoid_params 10 40 60 2) [450; 450] [100; 100]
    = Ok (Return tt s1)
    /\ simulate [450; 450] [100; 100] s1 = Return tt s2
    /\ (forall t, (t < 2)%nat ->
                  nth t (Q_sto s2) NaN = nth t (Q_sto s1) NaN
                  /\ nth t (T_sto s2) NaN = nth t (T_sto s1) NaN
                  /\ ((1 <= t)%nat ->
                      nth t (Q_loss s2) NaN = nth t (Q_loss s1) NaN))
    /\ calculate_heat_loss s1 (nth 1 (T_sto s1) NaN) = Ok loss
    /\ nth 0 (Q_loss s2) NaN = as_float64 loss.
Proof.
  destruct (init_trapezoid_params 10 40 60 2) as (s0 & Hinit & _); [lia |].
  destruct (trapezoid_run_returns _ _ _ _ [450; 450] [100; 100] s0 Hinit)
    as (s1 & _ & Hfull); try (simpl; lia).
  destruct (second_run_reproduces _ _ _ s1 Hfull) as (s2 & loss & H);
    [simpl; lra |].
  exists s1, s2, loss. split; [exact Hfull | exact H].
Defined.

(** ** The per-layer heat loss at a uniform temperature *)

Lemma Rsum_app (a b : list R) : Rsum (a ++ b) = Rsum a + Rsum b.
Proof.
  induction a as [| x a IH]; simpl; [lra | rewrite IH; lra].
Qed.

Lemma Rsum_repeat (y : R) (k : nat) : Rsum (repeat y k) = INR k * y.
Proof.
  induction k as [| k IH]; [simpl; lra |].
  rewrite S_INR. cbn [repeat Rsum fold_right]. unfold Rsum in IH.
  rewrite IH. lra.
Qed.

Lemma nth_map_Fin (r : list R) (i : nat) :
  (i < length r)%nat -> nth i (map Fin r) NaN = Fin (nth i r 0).
Proof. intros H. now apply get_Fin. Qed.

(** A loss vector with one value on top, one at the bottom and one value
    for the layers between. *)
Lemma layers_top_side_bottom (a : list float) (N : nat) (x y z : R) :
  (2 <= N)%nat -> length a = N ->
  nth 0 a NaN = Fin x -> nth (N - 1) a NaN = Fin z ->
  (forall i, (0 < i < N - 1)%nat -> nth i a NaN = Fin y) ->
  a = map Fin (x :: repeat y (N - 2) ++ [z]).
Proof.
  intros HN Hl H0 Hlast Hmid.
  assert (Hlen : length (x :: repeat y (N - 2) ++ [z]) = N).
  { simpl. rewrite length_app, repeat_length. simpl. lia. }
  apply (nth_ext _ _ NaN NaN).
  - rewrite length_map. lia.
  - intros i Hi. rewrite nth_map_Fin by lia.
    destruct i as [| i]; [exact H0 |].
    cbn [nth].
    destruct (Nat.eq_dec (S i) (N - 1)) as [E | E].
    + rewrite E, Hlast. f_equal.
      rewrite app_nth2 by (rewrite repeat_length; lia).
      rewrite repeat_length.
      replace (i - (N - 2))%nat with 0%nat by lia. reflexivity.
    + rewrite Hmid by lia. f_equal.
      rewrite app_nth1 by (rewrite repeat_length; lia).
      symmetry. apply nth_repeat_lt. lia.
Qed.

Lemma surface_loss_finite (K A T_r T : R) :
  surface_loss K A T_r (Fin T) = Fin (K * A * (T - T_r) / 1000).
Proof. reflexivity. Qed.

(** The per-layer heat loss of a pit on [N] layers at one temperature. *)
Lemma pit_uniform_layers (s : ThermalStorage) (d0 d1 H : R) (rest : list R)
    (N : nat) (T : R) :
  is_pit s -> dimensions s = d0 :: d1 :: H :: rest ->
  exists a,
    calculate_stratified_heat_loss (repeat (Fin T) N) s
    = Return (np_sum a) (set_Q_loss_layers a s)
    /\ length a = N
    /\ forall k, (k < N)%nat ->
                 nth k a NaN
                 = if (k =? 0)%nat
                   then Fin (K_top s * S_top s * (T - T_amb s) / 1000)
                   else if is_last N k
                        then Fin (K_bottom s H d1 * S_bottom s
                                  * (T - T_soil s) / 1000)
                        else Fin (K_side s H * (S_side s / INR N)
                                  * (T - T_soil s) / 1000).
Proof.
  intros Hp Hd.
  destruct (calculate_stratified_heat_loss_ok
              (layer_assignment
                 (surface_loss (K_top s) (S_top s) (T_amb s))
                 (surface_loss (K_bottom s H d1) (S_bottom s) (T_soil s))
                 (surface_loss (K_side s H) (S_side s / INR N) (T_soil s))
                 N) (repeat (Fin T) N) s)
    as (a & Hrun & Hla & Hval).
  { intros j T'. rewrite repeat_length.
    now apply (stratified_layer_loss_pit s d0 d1 H rest). }
  rewrite repeat_length in Hla, Hval.
  exists a. split; [exact Hrun |]. split; [exact Hla |].
  intros k Hk. rewrite (Hval k Hk).
  rewrite nth_repeat_lt by assumption.
  unfold layer_assignment, assigned.
  destruct (k =? 0)%nat; [reflexivity |].
  destruct (is_last N k); reflexivity.
Qed.

(** X12: For a pit with at least two layers, all at one temperature, the total
    of the per-layer heat loss against the lumped heat loss at that
    temperature. The lumped loss is the side loss plus the bottom loss; the
    per-layer total adds the loss through the top, which the lumped loss
    leaves out, and counts the side loss for [N - 2] of the [N] layers only. *)
Theorem uniform_layers_loss_against_lumped (s : ThermalStorage)
    (d0 d1 H : R) (rest : list R) (N : nat) (T : R) :
  is_pit s -> dimensions s = d0 :: d1 :: H :: rest -> (2 <= N)%nat ->
  let top := K_top s * S_top s * (T - T_amb s) / 1000 in
  let side := K_side s H * S_side s * (T - T_soil s) / 1000 in
  let bottom := K_bottom s H d1 * S_bottom s * (T - T_soil s) / 1000 in
  calculate_heat_loss s (Fin T) = Ok (Some (Fin (side + bottom)))
  /\ exists a,
       calculate_stratified_heat_loss (repeat (Fin T) N) s
       = Return (Fin (top + (1 - 2 / INR N) * side + bottom))
           (set_Q_loss_layers a s).
Proof.
  intros Hp Hd HN top side bottom. split.
  - rewrite (calculate_heat_loss_pit s _ H d1)
      by (auto; rewrite Hd; reflexivity).
    simpl. do 3 f_equal. unfold side, bottom. field.
  - destruct (pit_uniform_layers s d0 d1 H rest N T Hp Hd)
      as (a & Hrun & Hla & Hval).
    exists a. rewrite Hrun. f_equal.
    assert (HNR : INR N <> 0) by (apply not_0_INR; lia).
    rewrite (layers_top_side_bottom a N top
               (K_side s H * (S_side s / INR N) * (T - T_soil s) / 1000)
               bottom HN Hla).
    + rewrite np_sum_Fin. f_equal. cbn [Rsum fold_right].
      fold (Rsum (repeat (K_side s H * (S_side s / INR N)
                          * (T - T_soil s) / 1000) (N - 2) ++ [bottom])).
      rewrite Rsum_app, Rsum_repeat, minus_INR by lia.
      simpl. unfold side. field. exact HNR.
    + rewrite Hval by lia. reflexivity.
    + rewrite Hval by lia.
      destruct (Nat.eqb_spec (N - 1) 0); [lia |].
      assert (E : is_last N (N - 1) = true) by (apply is_last_spec; lia).
      now rewrite E.
    + intros i Hi. rewrite Hval by lia.
      destruct (Nat.eqb_spec i 0); [lia |].
      destruct (is_last N i) eqn:E; [apply is_last_spec in E; lia |].
      reflexivity.
Qed.

(** The trapezoid of the repository's example with five layers at 60
    degrees. *)
Lemma uniform_layers_loss_against_lumped_witness :
  exists s0,
    __init__ (trapezoid_params 10 40 60 2) = Ok s0
    /\ let top := K_top s0 * S_top s0 * (60 - T_amb s0) / 1000 in
       let side := K_side s0 50 * S_side s0 * (60 - T_soil s0) / 1000 in
       let bottom :=
         K_bottom s0 50 20 * S_bottom s0 * (60 - T_soil s0) / 1000 in
       calculate_heat_loss s0 (Fin 60) = Ok (Some (Fin (side + bottom)))
       /\ exists a,
            calculate_stratified_heat_loss (repeat (Fin 60) 5) s0
            = Return (Fin (top + (1 - 2 / INR 5) * side + bottom))
                (set_Q_loss_layers a s0).
Proof.
  destruct (init_trapezoid_params 10 40 60 2) as
    (s0 & Hinit & Hpit & Hd & _); [lia |].
  exists s0. split; [exact Hinit |].
  apply (uniform_layers_loss_against_lumped s0 20 20 50 [50; 15] 5 60 Hpit Hd).
  lia.
Defined.

(** X13: With a single layer the test for the top layer comes first: a pit
    with one layer loses heat through the top only, and neither the side nor
    the bottom enters. *)
Theorem single_layer_loss_is_top_loss (s : ThermalStorage) (d0 d1 H : R)
    (rest : list R) (T : R) :
  is_pit s -> dimensions s = d0 :: d1 :: H :: rest ->
  let top := Fin (K_top s * S_top s * (T - T_amb s) / 1000) in
  calculate_stratified_heat_loss [Fin T] s
  = Return top (set_Q_loss_layers [top] s).
Proof.
  intros Hp Hd top.
  destruct (pit_uniform_layers s d0 d1 H rest 1 T Hp Hd)
    as (a & Hrun & Hla & Hval).
  cbn [repeat] in Hrun. rewrite Hrun.
  specialize (Hval 0%nat ltac:(lia)). cbn [Nat.eqb] in Hval.
  destruct a as [| x [| ? ?]]; try discriminate.
  cbn [nth] in Hval. subst x.
  f_equal. unfold np_sum, top. simpl. f_equal. ring.
Qed.

(** The trapezoid of the repository's example with one layer at 60
    degrees. *)
Lemma single_layer_loss_is_top_loss_witness :
  exists s0,
    __init__ (trapezoid_params 10 40 60 2) = Ok s0
    /\ let top := Fin (K_top s0 * S_top s0 * (60 - T_amb s0) / 1000) in
       calculate_stratified_heat_loss [Fin 60] s0
       = Return top (set_Q_loss_layers [top] s0).
Proof.
  destruct (init_trapezoid_params 10 40 60 2) as
    (s0 & Hinit & Hpit & Hd & _); [lia |].
  exists s0. split; [exact Hinit |].
  apply (single_layer_loss_is_top_loss s0 20 20 50 [50; 15] 60 Hpit Hd).
Defined.

(** ** The thickness check of the per-layer heat loss *)

Lemma stratified_layer_loss_underground_thin (s : ThermalStorage)
    (radius height : R) (rest : list R) (n i : nat) (T : float) :
  storage_type s = "cylindrical_underground"%string ->
  dimensions s = radius :: height :: rest ->
  ds_side s <= 2 * ((lambda_side s / lambda_soil s) * radius * (37 / 100)) ->
  stratified_layer_loss s n i T = Err thin_insulation.
Proof.
  intros Hst Hd Hthin. unfold stratified_layer_loss.
  rewrite Hst, Hd.
  cbn [str_eq String.eqb Ascii.eqb Bool.eqb index nth_error rbind].
  now rewrite Rltb_false.
Qed.

(** X14: The per-layer heat loss checks the insulation thickness of an
    underground cylinder inside its loop over the layers. With side insulation
    that is too thin the call raises for every non-empty temperature vector,
    after it has replaced [Q_loss_layers] by zeros; for the empty vector the
    check is never reached and the call returns 0. *)
Theorem thin_underground_layers_check (s : ThermalStorage)
    (radius height : R) (rest : list R) (T_layers : list float) :
  storage_type s = "cylindrical_underground"%string ->
  dimensions s = radius :: height :: rest ->
  ds_side s <= 2 * ((lambda_side s / lambda_soil s) * radius * (37 / 100)) ->
  calculate_stratified_heat_loss T_layers s
  = match T_layers with
    | [] => Return (Fin 0) (set_Q_loss_layers [] s)
    | _ :: _ =>
        Raise thin_insulation
          (set_Q_loss_layers (np_zeros (length T_layers)) s)
    end.
Proof.
  intros Hst Hd Hthin.
  destruct T_layers as [| T rest']; [reflexivity |].
  unfold calculate_stratified_heat_loss, bind, modify.
  cbn [stratified_loss_loop]. unfold bind, lift_result.
  rewrite (stratified_layer_loss_underground_thin
             (set_Q_loss_layers _ s) radius height rest); auto.
Qed.

(** The underground cylinder with 0.3 m of side insulation and one layer. *)
Lemma thin_underground_layers_check_witness :
  calculate_stratified_heat_loss [Fin 60] underground_example
  = Raise thin_insulation (set_Q_loss_layers [Fin 0] underground_example).
Proof.
  apply (thin_underground_layers_check underground_example 25 25 []
           [Fin 60]).
  - reflexivity.
  - reflexivity.
  - simpl. lra.
Defined.

(** ** The stratified simulator: the hours of a run *)

(** The invariant of the loop of a run from the constructed object [s0]. *)
Lemma stratified_inv_step (Q_in Q_out : list R) (n : nat) (lv lt k : R)
    (s0 : ThermalStorage) (t : nat) (heat heat' : list float)
    (s s' : ThermalStorage) :
  (t < hours s0)%nat ->
  layers_sized s /\ attributes s = attributes s0 ->
  stratified_step Q_in Q_out n lv lt k t heat s = Return heat' s' ->
  layers_sized s' /\ attributes s' = attributes s0.
Proof.
  intros Ht (Hsz & Ha) Hstep.
  assert (Hts : (t < hours s)%nat)
    by (rewrite (hours_attributes _ _ Ha); assumption).
  destruct (stratified_step_facts _ _ _ _ _ _ _ _ _ _ _ Hsz Hts Hstep)
    as (Hsz' & Ha' & _).
  split; [assumption | congruence].
Qed.

(** A returning run from the constructor, cut at the hour [t]: the
    iterations before it, the iteration [t] itself, and the cells of the
    hour [t] at the end of the run, which no later iteration changes. *)
Lemma stratified_run_split (p : Params.t) (Q_in Q_out : list R) (n : nat)
    (k : R) (heat : list float) (s : ThermalStorage) (t : nat) :
  run_stratified p Q_in Q_out n k = Ok (Return heat s) ->
  (t < Params.hours p)%nat ->
  exists s0 r s_a heat_b s_b heat_t s_t,
    __init__ p = Ok s0
    /\ stratified_setup n s0 = Return r s_a
    /\ for_each (stratified_step Q_in Q_out n (fst r) (snd r) k) (seq 0 t)
         (np_zeros n) s_a = Return heat_b s_b
    /\ layers_sized s_b /\ attributes s_b = attributes s0
    /\ stratified_step Q_in Q_out n (fst r) (snd r) k t heat_b s_b
       = Return heat_t s_t
    /\ nth t (Q_sto s) NaN = nth t (Q_sto s_t) NaN
    /\ nth t (T_sto s) NaN = nth t (T_sto s_t) NaN
    /\ nth t (Q_loss s) NaN = nth t (Q_loss s_t) NaN
    /\ nth t (T_sto_layers s) [] = nth t (T_sto_layers s_t) [].
Proof.
  unfold run_stratified. intros Hrun Ht.
  destruct (__init__ p) as [s0 | e] eqn:Hinit; [| discriminate].
  injection Hrun as Hrun.
  unfold simulate_stratified, simulate_stratified_steps, bind in Hrun.
  destruct (stratified_setup n s0) as [r s_a | e s_a] eqn:Hsetup;
    [| discriminate].
  destruct (init_layers_setup _ _ _ _ _ Hinit Hsetup)
    as (Hsz & Hh & Hsa & _ & _).
  destruct (init_arrays _ _ Hinit) as (_ & _ & Hhp & _).
  assert (Haa : attributes s_a = attributes s0) by (rewrite Hsa; reflexivity).
  set (body := stratified_step Q_in Q_out n (fst r) (snd r) k) in *.
  unfold range in Hrun. rewrite Hhp in Hrun.
  replace (Params.hours p) with (t + 1 + (Params.hours p - S t))%nat in Hrun
    by lia.
  rewrite !seq_app, !for_each_app in Hrun. simpl (0 + t)%nat in Hrun.
  destruct (for_each body (seq 0 t) (np_zeros n) s_a)
    as [heat_b s_b | e s_b] eqn:Hpre; [| discriminate].
  assert (Hb : layers_sized s_b /\ attributes s_b = attributes s0).
  { apply (for_each_invariant body
             (fun _ _ s1 => layers_sized s1 /\ attributes s1 = attributes s0)
             (hours s0)) with (m := t) (k := 0%nat) (acc := np_zeros n)
                              (s := s_a) (acc' := heat_b);
      try assumption; try lia; [| auto].
    intros. eapply stratified_inv_step; eauto. }
  destruct Hb as (Hszb & Hab).
  cbn [seq for_each] in Hrun. unfold bind at 1 in Hrun.
  destruct (body t heat_b s_b) as [heat_t s_t | e s_t] eqn:Hstep;
    [| discriminate].
  unfold ret at 1 in Hrun.
  destruct (stratified_inv_step _ _ _ _ _ _ s0 t _ _ _ _ ltac:(lia)
              (conj Hszb Hab) Hstep) as (Hszt & Hat).
  assert (Hht : hours s_t = Params.hours p)
    by (rewrite (hours_attributes _ _ Hat); assumption).
  destruct (stratified_suffix_frame _ _ _ _ _ _ (t + 1)
              (Params.hours p - S t) _ _ _ _ Hszt ltac:(lia) Hrun t)
    as (E1 & E2 & E3 & E4); [lia |].
  exists s0, r, s_a, heat_b, s_b, heat_t, s_t.
  repeat split; auto; apply Hszb.
Qed.

(** The value of the per-layer heat loss depends on the attributes of the
    object only. *)
Lemma stratified_loss_loop_transfer (n : nat) (layers : list float) :
  forall (i : nat) (s s' : ThermalStorage) (a : list float),
    attributes s = attributes s' -> Q_loss_layers s = Q_loss_layers s' ->
    stratified_loss_loop n i layers s = Return tt (set_Q_loss_layers a s) ->
    stratified_loss_loop n i layers s' = Return tt (set_Q_loss_layers a s').
Proof.
  induction layers as [| T rest IH]; intros i s s' a Ha HL Hrun.
  - simpl in *. unfold ret in *. injection Hrun as Hrun.
    f_equal. rewrite <- (set_Q_loss_layers_same s') at 1.
    rewrite <- HL. f_equal.
    rewrite <- (set_Q_loss_layers_same s) in Hrun at 1.
    now apply (f_equal Q_loss_layers) in Hrun.
  - cbn [stratified_loss_loop] in *. unfold bind, lift_result in *.
    rewrite <- (stratified_layer_loss_attributes s s') by assumption.
    destruct (stratified_layer_loss s n i T) as [[q |] | e]; [| | discriminate].
    + unfold setitem in *. rewrite <- HL.
      destruct (store (Q_loss_layers s) i q) as [a1 | e]; [| discriminate].
      exact (IH (S i) (set_Q_loss_layers a1 s) (set_Q_loss_layers a1 s') a
               Ha eq_refl Hrun).
    + unfold ret in *. now apply (IH (S i) s).
Qed.

Lemma calculate_stratified_heat_loss_transfer (layers : list float)
    (s s' : ThermalStorage) (a : list float) (v : float) :
  attributes s = attributes s' ->
  calculate_stratified_heat_loss layers s
  = Return v (set_Q_loss_layers a s) ->
  calculate_stratified_heat_loss layers s'
  = Return v (set_Q_loss_layers a s').
Proof.
  intros Ha. unfold calculate_stratified_heat_loss, bind, modify, read.
  destruct (stratified_loss_loop_state (length layers) layers 0
              (set_Q_loss_layers (np_zeros (length layers)) s))
    as (a1 & [H | (e & H)]); rewrite H; [| discriminate].
  intros Hr. injection Hr as Hv Hs. subst a1.
  rewrite (stratified_loss_loop_transfer _ _ 0
             (set_Q_loss_layers (np_zeros (length layers)) s)
             (set_Q_loss_layers (np_zeros (length layers)) s') a);
    auto.
  obj_in Hv. obj. now rewrite Hv.
Qed.

(** X15: In a stratified run from the constructor, the heat loss of hour 0 is
    the per-layer heat loss at the initial temperature in every layer: the row
    [T_sto_layers[-1]] that the first iteration reads was filled with the
    initial temperature before the loop. *)
Theorem stratified_hour_zero_loss (p : Params.t) (Q_in Q_out : list R)
    (n : nat) (k : R) (heat : list float) (s : ThermalStorage) :
  run_stratified p Q_in Q_out n k = Ok (Return heat s) ->
  exists s0 a,
    __init__ p = Ok s0
    /\ calculate_stratified_heat_loss
         (repeat (Fin (Params.initial_temp p)) n) s0
       = Return (np_sum a) (set_Q_loss_layers a s0)
    /\ nth 0 (Q_loss s) NaN = np_sum a.
Proof.
  intros Hrun.
  assert (Hh : (0 < Params.hours p)%nat).
  { unfold run_stratified in Hrun.
    destruct (__init__ p) as [s0 | e] eqn:Hinit; [| discriminate].
    now destruct (init_inv _ _ Hinit). }
  destruct (stratified_run_split _ _ _ _ _ _ _ 0%nat Hrun Hh)
    as (s0 & r & s_a & heat_b & s_b & heat_t & s_t & Hinit & Hsetup & Hpre
        & Hszb & Hab & Hstep & _ & _ & HL & _).
  cbn [seq for_each] in Hpre. unfold ret in Hpre. injection Hpre as <- <-.
  destruct (init_layers_setup _ _ _ _ _ Hinit Hsetup)
    as (Hsz & Hhs & Hsa & _ & _).
  destruct (init_arrays _ _ Hinit) as (_ & _ & Hhp & _).
  assert (H0 : (0 < hours s_a)%nat) by lia.
  destruct (stratified_step_facts _ _ _ _ _ _ _ _ _ _ _ Hsz H0 Hstep)
    as (_ & _ & _ & _ & _ & (a & Hc & HLa)).
  exists s0, a. split; [exact Hinit |]. split.
  - apply (calculate_stratified_heat_loss_transfer _ s_a s0); [assumption |].
    rewrite <- Hc. f_equal. rewrite Hsa. obj.
    rewrite nth_np_full by lia. reflexivity.
  - now rewrite HL.
Qed.

(** The example cylinder with five layers over two hours. *)
Lemma stratified_hour_zero_loss_witness :
  exists heat s a,
    run_stratified cylinder_params [450; 450] [100; 100] 5 (6 / 10)
    = Ok (Return heat s)
    /\ calculate_stratified_heat_loss (repeat (Fin 60) 5) cylinder_example
       = Return (np_sum a) (set_Q_loss_layers a cylinder_example)
    /\ nth 0 (Q_loss s) NaN = np_sum a.
Proof.
  destruct (run_stratified_returns cylinder_params cylinder_example
              [450; 450] [100; 100] 5 (6 / 10)) as (heat & s & Hrun);
    [reflexivity | lia | simpl; lia | simpl; lia |].
  destruct (stratified_hour_zero_loss _ _ _ _ _ _ _ Hrun)
    as (s0 & a & Hinit & Hc & HL).
  rewrite cylinder_example_constructed in Hinit. injection Hinit as <-.
  exists heat, s, a. auto.
Defined.

(** ** The stratified simulator on a plain cylinder *)

Lemma np_sum_zeros (a : list float) :
  (forall k, (k < length a)%nat -> nth k a NaN = Fin 0) ->
  np_sum a = Fin 0.
Proof.
  intros H.
  assert (E : a = map Fin (repeat 0 (length a))).
  { apply (nth_ext _ _ NaN NaN).
    - now rewrite length_map, repeat_length.
    - intros i Hi. rewrite nth_map_Fin by (rewrite repeat_length; lia).
      rewrite nth_repeat_lt by lia. now apply H. }
  rewrite E, np_sum_Fin, Rsum_repeat. f_equal. ring.
Qed.

(** The per-layer heat loss of a plain cylinder is 0: no branch of the
    dispatch matches, and the zeros of the fresh array are summed. *)
Lemma calculate_stratified_heat_loss_cylindrical (s : ThermalStorage)
    (layers a : list float) (v : float) :
  storage_type s = "cylindrical"%string ->
  calculate_stratified_heat_loss layers s
  = Return v (set_Q_loss_layers a s) ->
  v = Fin 0.
Proof.
  intros Hst Hrun.
  destruct (calculate_stratified_heat_loss_ok (fun _ _ => None) layers s)
    as (a' & Hrun' & Hla & Hval).
  { intros j T. apply stratified_layer_loss_undispatched;
      try (rewrite Hst; discriminate).
    intros [H | H]; rewrite Hst in H; discriminate. }
  rewrite Hrun' in Hrun. injection Hrun as <- _.
  apply np_sum_zeros. intros k Hk. rewrite Hval by lia. reflexivity.
Qed.

(** The heat loss of every hour of a stratified run of a plain cylinder. *)
Lemma cylinder_stratified_loss_cells (p : Params.t) (Q_in Q_out : list R)
    (n : nat) (k : R) (heat : list float) (s : ThermalStorage) (t : nat) :
  Params.storage_type p = "cylindrical"%string ->
  run_stratified p Q_in Q_out n k = Ok (Return heat s) ->
  (t < Params.hours p)%nat ->
  nth t (Q_loss s) NaN = Fin 0.
Proof.
  intros Hst Hrun Ht.
  destruct (stratified_run_split _ _ _ _ _ _ _ t Hrun Ht)
    as (s0 & r & s_a & heat_b & s_b & heat_t & s_t & Hinit & Hsetup & Hpre
        & Hszb & Hab & Hstep & _ & _ & HL & _).
  destruct (init_arrays _ _ Hinit) as (_ & _ & Hhp & Hst0 & _).
  assert (Htb : (t < hours s_b)%nat)
    by (rewrite (hours_attributes _ _ Hab); lia).
  destruct (stratified_step_facts _ _ _ _ _ _ _ _ _ _ _ Hszb Htb Hstep)
    as (_ & _ & _ & _ & _ & (a & Hc & HLa)).
  rewrite HL, HLa.
  apply (calculate_stratified_heat_loss_cylindrical s_b _ a _) in Hc;
    [assumption |].
  rewrite (storage_type_attributes _ _ Hab). congruence.
Qed.

(** X16: In a stratified run of a plain cylinder from the constructor, with at
    least one layer and inputs that cover the horizon, the run returns and the
    heat loss of every hour is 0, whatever the temperatures, the insulation
    and the surroundings are: no branch of the per-layer heat loss matches the
    storage type. *)
Theorem cylinder_stratified_no_loss (p : Params.t) (s0 : ThermalStorage)
    (Q_in Q_out : list R) (n : nat) (k : R) :
  Params.storage_type p = "cylindrical"%string ->
  __init__ p = Ok s0 -> n <> 0%nat ->
  (Params.hours p <= length Q_in)%nat ->
  (Params.hours p <= length Q_out)%nat ->
  exists heat s,
    run_stratified p Q_in Q_out n k = Ok (Return heat s)
    /\ forall t, (t < Params.hours p)%nat -> nth t (Q_loss s) NaN = Fin 0.
Proof.
  intros Hst Hinit Hn Hin Hout.
  destruct (run_stratified_returns p s0 Q_in Q_out n k Hinit Hn Hin Hout)
    as (heat & s & Hrun).
  exists heat, s. split; [exact Hrun |].
  intros t Ht.
  exact (cylinder_stratified_loss_cells p Q_in Q_out n k heat s t Hst Hrun Ht).
Qed.

(** The example cylinder with five layers over two hours. *)
Lemma cylinder_stratified_no_loss_witness :
  exists heat s,
    run_stratified cylinder_params [450; 450] [100; 100] 5 (6 / 10)
    = Ok (Return heat s)
    /\ forall t, (t < 2)%nat -> nth t (Q_loss s) NaN = Fin 0.
Proof.
  apply (cylinder_stratified_no_loss cylinder_params cylinder_example
           [450; 450] [100; 100] 5 (6 / 10));
    [reflexivity | reflexivity | lia | simpl; lia | simpl; lia].
Defined.

(** ** The stratified simulator: the mean temperature *)

Lemma stratified_step_mean (Q_in Q_out : list R) (n : nat) (lv lt k : R)
    (t : nat) (heat heat' : list float) (s s' : ThermalStorage) :
  layers_sized s -> (t < hours s)%nat ->
  stratified_step Q_in Q_out n lv lt k t heat s = Return heat' s' ->
  nth t (T_sto s') NaN = np_average (nth t (T_sto_layers s') []).
Proof.
  intros Hsz Ht Hstep. pose proof Hsz as ((HQ & HL & HT) & HTL).
  rewrite stratified_step_eq in Hstep by assumption.
  destruct (calculate_stratified_heat_loss_state
              (nth (before (hours s) t) (T_sto_layers s) []) s)
    as (a & [Hc | (e & Hc)]); rewrite Hc in Hstep; [| discriminate].
  destruct (index Q_in t) as [q_in |]; [| discriminate].
  destruct (index Q_out t) as [q_out |]; [| discriminate].
  cbn zeta in Hstep. injection Hstep as <- <-.
  destruct t as [| t']; cbn [stratified_result snd]; obj;
    rewrite !nth_update_eq by lia; reflexivity.
Qed.

(** X17: In a stratified run from the constructor the temperature reported for
    every hour is the mean of the layer temperatures of that hour. *)
Theorem stratified_temperature_is_layer_mean (p : Params.t)
    (Q_in Q_out : list R) (n : nat) (k : R) (heat : list float)
    (s : ThermalStorage) (t : nat) :
  run_stratified p Q_in Q_out n k = Ok (Return heat s) ->
  (t < Params.hours p)%nat ->
  nth t (T_sto s) NaN = np_average (nth t (T_sto_layers s) []).
Proof.
  intros Hrun Ht.
  destruct (stratified_run_split _ _ _ _ _ _ _ t Hrun Ht)
    as (s0 & r & s_a & heat_b & s_b & heat_t & s_t & Hinit & Hsetup & Hpre
        & Hszb & Hab & Hstep & _ & HT & _ & HTL).
  destruct (init_arrays _ _ Hinit) as (_ & _ & Hhp & _).
  assert (Htb : (t < hours s_b)%nat)
    by (rewrite (hours_attributes _ _ Hab); lia).
  rewrite HT, HTL.
  exact (stratified_step_mean _ _ _ _ _ _ _ _ _ _ _ Hszb Htb Hstep).
Qed.

(** The example cylinder with five layers, at hour 1. *)
Lemma stratified_temperature_is_layer_mean_witness :
  exists heat s,
    run_stratified cylinder_params [450; 450] [100; 100] 5 (6 / 10)
    = Ok (Return heat s)
    /\ nth 1 (T_sto s) NaN = np_average (nth 1 (T_sto_layers s) []).
Proof.
  destruct (run_stratified_returns cylinder_params cylinder_example
              [450; 450] [100; 100] 5 (6 / 10)) as (heat & s & Hrun);
    [reflexivity | lia | simpl; lia | simpl; lia |].
  exists heat, s. split; [exact Hrun |].
  apply (stratified_temperature_is_layer_mean _ _ _ _ _ heat s 1%nat Hrun).
  simpl. lia.
Defined.

(** ** The stratified simulator: layer count and input lengths *)

(** The statements before the loop on an object with a supported type and
    the dimensions of that type: the height is there. *)
Lemma stratified_setup_height (s : ThermalStorage) (m : nat) :
  arity (storage_type s) = Some m -> length (dimensions s) = m ->
  exists height,
    (if str_eq (storage_type s) "cylindrical"
     then lift_result (index (dimensions s) 1)
     else if str_eq (storage_type s) "truncated_cone"
          then lift_result (index (dimensions s) 2)
          else if str_eq (storage_type s) "truncated_trapezoid"
               then lift_result (index (dimensions s) 2)
               else raise no_layer_thickness) s
    = Return height s.
Proof.
  unfold arity. intros Ha Hl.
  destruct (str_eq (storage_type s) "cylindrical").
  { injection Ha as <-.
    destruct (dimensions s) as [| d0 [| d1 [| ? ?]]]; try discriminate.
    eexists. reflexivity. }
  destruct (str_eq (storage_type s) "truncated_cone").
  { injection Ha as <-.
    destruct (dimensions s) as [| d0 [| d1 [| H [| ? ?]]]]; try discriminate.
    eexists. reflexivity. }
  destruct (str_eq (storage_type s) "truncated_trapezoid"); [| discriminate].
  injection Ha as <-.
  destruct (dimensions s) as [| d0 [| d1 [| H [| d3 [| d4 [| ? ?]]]]]];
    try discriminate.
  eexists. reflexivity.
Qed.

(** X18: With [num_layers = 0] the stratified simulator raises
    ZeroDivisionError when it computes the layer thickness, before it touches
    the object. *)
Theorem stratified_zero_layers (p : Params.t) (s0 : ThermalStorage)
    (Q_in Q_out : list R) (k : R) :
  __init__ p = Ok s0 ->
  simulate_stratified Q_in Q_out 0 k s0 = Raise ZeroDivisionError s0.
Proof.
  intros Hinit.
  destruct (init_dimensions _ _ Hinit) as (m & Ha & Hl).
  destruct (stratified_setup_height s0 m Ha Hl) as (height & Hh).
  unfold simulate_stratified, simulate_stratified_steps, stratified_setup.
  unfold bind at 1. unfold bind at 1. unfold read at 1.
  unfold no_layer_thickness in Hh. unfold bind at 1. rewrite Hh.
  reflexivity.
Qed.

(** The example cylinder. *)
Lemma stratified_zero_layers_witness :
  simulate_stratified [450; 450] [100; 100] 0 (6 / 10) cylinder_example
  = Raise ZeroDivisionError cylinder_example.
Proof.
  apply (stratified_zero_layers cylinder_params). reflexivity.
Defined.




(** X20: The stratified simulator reads [Q_in[0]] and [Q_out[0]] and makes no
    use of them: replacing the first entry of each input series by any other
    value leaves the outcome of the run as it is. *)
Theorem stratified_ignores_hour_zero_values (a b c d : R)
    (Q_in Q_out : list R) (n : nat) (k : R) (self : ThermalStorage) :
  simulate_stratified (a :: Q_in) (c :: Q_out) n k self
  = simulate_stratified (b :: Q_in) (d :: Q_out) n k self.
Proof.
  unfold simulate_stratified, simulate_stratified_steps, bind.
  destruct (stratified_setup n self) as [r s_a | e s_a]; [| reflexivity].
  apply for_each_ext. intros [| t] heat s; reflexivity.
Qed.

(** ** The stratified simulator with one layer *)

Lemma Rleb_true (a b : R) : a <= b -> Rleb a b = true.
Proof. intros H. unfold Rleb. destruct (Rle_dec a b); [reflexivity | lra]. Qed.

Lemma Rleb_false (a b : R) : b < a -> Rleb a b = false.
Proof. intros H. unfold Rleb. destruct (Rle_dec a b); [lra | reflexivity]. Qed.

(** The discharge of one layer leaves a demand that is not positive. *)
Lemma discharge_layer_demand (self : ThermalStorage) (lv : R)
    (T_prev : list float) (i : nat) (T h : list float) (r : R) (x : R) :
  r <= 0 -> get T_prev i = Fin x ->
  exists T' h' r',
    discharge_layer self lv T_prev i (mkLayerState T h (Fin r))
    = mkLayerState T' h' (Fin r')
    /\ r' <= 0 /\ length T' = length T.
Proof.
  intros Hr Hx. unfold discharge_layer.
  cbn [remaining_heat T_t heat_stored_per_layer flt].
  unfold Rltb. destruct (Rlt_dec r 0) as [Hneg | Hz].
  - rewrite Hx. cbn [fsub fmul fdiv fabs lift1 lift2 fge fle fadd].
    unfold Rleb.
    destruct (Rle_dec _ (Rabs r)) as [Hle | Hgt].
    + eexists _, _, _. split; [reflexivity |].
      rewrite length_update. split; [| reflexivity].
      rewrite Rabs_left in Hle by assumption. lra.
    + eexists _, _, _. split; [reflexivity |].
      rewrite length_update. split; [lra | reflexivity].
  - eexists _, _, _. split; [reflexivity |]. split; [lra | reflexivity].
Qed.

(** One hour of a storage with one layer whose demand is at least its
    supply: the three passes leave the temperature of the hour before. *)
Lemma single_layer_passes_hold (self : ThermalStorage) (lv lt k : R)
    (x : R) (T_cur h : list float) (r : R) :
  r <= 0 -> T_min self <= x -> length T_cur = 1%nat ->
  T_t (passes self 1 lv lt k [Fin x] (mkLayerState T_cur h (Fin r)))
  = [Fin x].
Proof.
  intros Hr Hx Hl. unfold passes, diffusion_pass, charge_pass, discharge_pass.
  cbn [range seq Nat.sub fold_left].
  destruct (discharge_layer_demand self lv [Fin x] 0 T_cur h r x Hr eq_refl)
    as (T' & h' & r' & -> & Hr' & Hl').
  rewrite charge_layer_idle.
  - cbn [T_t]. destruct T' as [| y [| ? ?]]; simpl in Hl'; try lia.
    reflexivity.
  - cbn [remaining_heat fgt flt]. apply Rltb_false. lra.
  - cbn [get nth flt]. apply Rltb_false. lra.
  - cbn [T_t]. lia.
Qed.

Lemma np_average_single (x : R) : np_average [Fin x] = Fin x.
Proof.
  unfold np_average, np_sum. simpl. f_equal. field.
Qed.

Lemma rows_constant (rows : list (list float)) (h : nat) (row : list float) :
  length rows = h -> (forall j, (j < h)%nat -> nth j rows [] = row) ->
  rows = repeat row h.
Proof.
  intros Hl Hr. apply (nth_ext _ _ [] []).
  - now rewrite repeat_length.
  - intros j Hj. rewrite Hr by lia. symmetry. apply nth_repeat_lt. lia.
Qed.

(** X21: A stratified run with one layer in which the output is at least the
    input at every hour after hour 0, started at or above the minimum
    temperature: the layer temperature and the reported temperature stay at
    the initial temperature at every hour. The charge loop writes the
    temperature of the hour before over what the discharge loop assigned, and
    with one layer there is no diffusion step to recompute it from the stored
    energy. *)
Theorem single_layer_discharge_keeps_temperature (p : Params.t)
    (Q_in Q_out : list R) (k : R) (heat : list float) (s : ThermalStorage)
    (t : nat) :
  run_stratified p Q_in Q_out 1 k = Ok (Return heat s) ->
  Params.T_min p <= Params.initial_temp p ->
  (forall j, (1 <= j)%nat -> nth j Q_in 0 <= nth j Q_out 0) ->
  (t < Params.hours p)%nat ->
  nth t (T_sto_layers s) [] = [Fin (Params.initial_temp p)]
  /\ nth t (T_sto s) NaN = Fin (Params.initial_temp p).
Proof.
  intros Hrun Hmin Hnet Ht.
  destruct (stratified_run_split _ _ _ _ _ _ _ t Hrun Ht)
    as (s0 & r & s_a & heat_b & s_b & heat_t & s_t & Hinit & Hsetup & Hpre
        & Hszb & Hab & Hstep & _ & HT & _ & HTL).
  destruct (init_layers_setup _ _ _ _ _ Hinit Hsetup)
    as (Hsz & Hh & Hsa & _ & _).
  destruct (init_arrays _ _ Hinit) as (_ & _ & Hhp & _).
  destruct (init_inv _ _ Hinit) as (_ & _ & Hs0).
  assert (HTmin : T_min s0 = Params.T_min p) by (rewrite Hs0; reflexivity).
  set (T0 := Params.initial_temp p) in *.
  set (body := stratified_step Q_in Q_out 1 (fst r) (snd r) k) in *.
  (* every row holds the initial temperature before every iteration *)
  assert (Hrows : forall m heat1 s1,
             (m <= hours s0)%nat ->
             for_each body (seq 0 m) (np_zeros 1) s_a = Return heat1 s1 ->
             layers_sized s1 /\ attributes s1 = attributes s0
             /\ T_sto_layers s1 = repeat [Fin T0] (hours s0)).
  { intros m heat1 s1 Hm Hfor.
    apply (for_each_invariant body
             (fun _ _ s1 => layers_sized s1 /\ attributes s1 = attributes s0
                            /\ T_sto_layers s1 = repeat [Fin T0] (hours s0))
             (hours s0)) with (m := m) (k := 0%nat) (acc := np_zeros 1)
                              (s := s_a) (acc' := heat1) in Hfor;
      try assumption; try lia.
    - intros j acc s2 acc' s2' Hj (Hsz2 & Ha2 & Hr2) Hb.
      destruct (stratified_inv_step _ _ _ _ _ _ s0 j _ _ _ _ Hj
                  (conj Hsz2 Ha2) Hb) as (Hsz3 & Ha3).
      split; [assumption |]. split; [assumption |].
      assert (Hj2 : (j < hours s2)%nat)
        by (rewrite (hours_attributes _ _ Ha2); assumption).
      destruct (stratified_step_facts _ _ _ _ _ _ _ _ _ _ _ Hsz2 Hj2 Hb)
        as (_ & _ & _ & Hframe & Hzero & _).
      destruct j as [| j'].
      + destruct (Hzero eq_refl) as (_ & _ & ->). exact Hr2.
      + apply rows_constant.
        * destruct Hsz3 as (_ & HL3).
          now rewrite HL3, (hours_attributes _ _ Ha3).
        * intros i Hi.
          destruct (Nat.eq_dec i (S j')) as [-> | Hne].
          -- destruct (stratified_step_layers _ _ _ _ _ _ _ _ _ _ _ Hsz2 Hj2 Hb)
               as (a & q_in & q_out & self & _ & Hi1 & Ho1 & Hself & _
                   & _ & Hrow & _).
             rewrite Hrow, Hr2, !nth_repeat_lt by lia.
             assert (Eq_in : q_in = nth (S j') Q_in 0).
             { unfold index in Hi1.
               destruct (nth_error Q_in (S j')) eqn:E; [| discriminate].
               injection Hi1 as <-. symmetry. now apply nth_error_nth. }
             assert (Eq_out : q_out = nth (S j') Q_out 0).
             { unfold index in Ho1.
               destruct (nth_error Q_out (S j')) eqn:E; [| discriminate].
               injection Ho1 as <-. symmetry. now apply nth_error_nth. }
             cbn [fsub lift2].
             apply single_layer_passes_hold.
             ++ specialize (Hnet (S j') ltac:(lia)). lra.
             ++ destruct (attributes_fields _ _ Hself)
                  as (_ & _ & _ & _ & _ & _ & _ & _ & _ & _ & E & _).
                destruct (attributes_fields _ _ Ha2)
                  as (_ & _ & _ & _ & _ & _ & _ & _ & _ & _ & E' & _).
                rewrite E, E', HTmin. exact Hmin.
             ++ reflexivity.
          -- destruct (Hframe i Hne) as (_ & _ & _ & ->).
             rewrite Hr2. apply nth_repeat_lt. lia.
    - split; [exact Hsz |]. split; [rewrite Hsa; reflexivity |].
      rewrite Hsa. obj. reflexivity. }
  assert (Htb : (t < hours s_b)%nat)
    by (rewrite (hours_attributes _ _ Hab); lia).
  assert (Hafter : for_each body (seq 0 (S t)) (np_zeros 1) s_a
                   = Return heat_t s_t).
  { replace (S t) with (t + 1)%nat by lia.
    rewrite seq_app, for_each_app, Hpre. simpl (0 + t)%nat.
    cbn [seq for_each]. unfold bind. now rewrite Hstep. }
  destruct (Hrows (S t) heat_t s_t ltac:(lia) Hafter) as (_ & _ & Hr).
  pose proof (stratified_step_mean _ _ _ _ _ _ _ _ _ _ _ Hszb Htb Hstep)
    as Hmean.
  rewrite HT, HTL, Hmean, Hr, nth_repeat_lt by lia.
  split; [reflexivity | apply np_average_single].
Qed.
(** The example trapezoid with one layer, no input and an output of 100 kW
    over two hours: the temperature of hour 1 is still 60 degrees. *)
Lemma single_layer_discharge_keeps_temperature_witness :
  exists heat s,
    run_stratified (trapezoid_params 10 40 60 2) [0; 0] [100; 100] 1 (6 / 10)
    = Ok (Return heat s)
    /\ nth 1 (T_sto_layers s) [] = [Fin 60]
    /\ nth 1 (T_sto s) NaN = Fin 60.
Proof.
  destruct (init_trapezoid_params 10 40 60 2) as (s0 & Hinit & _); [lia |].
  destruct (run_stratified_returns (trapezoid_params 10 40 60 2) s0
              [0; 0] [100; 100] 1 (6 / 10)) as (heat & s & Hrun);
    [exact Hinit | lia | simpl; lia | simpl; lia |].
  exists heat, s. split; [exact Hrun |].
  apply (single_layer_discharge_keeps_temperature
           (trapezoid_params 10 40 60 2) [0; 0] [100; 100] (6 / 10) heat s
           1%nat Hrun).
  - simpl. lra.
  - intros [| [| [| j]]] Hj; simpl; lra.
  - simpl. lia.
Defined.

(** ** The three passes of an hour on layers that hold numbers *)

(** One layer of the discharge pass on cells that hold numbers: the cells
    still hold numbers, and the stored heat plus the remaining heat is
    kept. *)
Lemma discharge_layer_Fin (self : ThermalStorage) (lv : R) (Tp : list R)
    (i : nat) (T h : list R) (r : R) :
  (i < length h)%nat -> length T = length h -> length Tp = length h ->
  exists T' h' r',
    discharge_layer self lv (map Fin Tp) i
      (mkLayerState (map Fin T) (map Fin h) (Fin r))
    = mkLayerState (map Fin T') (map Fin h') (Fin r')
    /\ length T' = length T /\ length h' = length h
    /\ Rsum h' + r' = Rsum h + r
    /\ (0 <= r -> r' = r)
    /\ (T_min self <= nth i Tp 0 -> 0 <= lv * rho self * cp self ->
        r <= 0 -> r <= r' <= 0).
Proof.
  intros Hi HT HTp. unfold discharge_layer.
  cbn [remaining_heat T_t heat_stored_per_layer flt].
  unfold Rltb. destruct (Rlt_dec r 0) as [Hneg | Hz].
  - rewrite !get_Fin by lia.
    cbn [fsub fmul fdiv fabs lift1 lift2 fge fle fadd].
    rewrite !update_Fin.
    set (avail := (nth i Tp 0 - T_min self) * lv * rho self * cp self
                  / 3600000).
    unfold Rleb. destruct (Rle_dec avail (Rabs r)) as [Hle | Hgt].
    + eexists _, _, _. split; [reflexivity |].
      rewrite !length_update. split; [reflexivity |].
      split; [reflexivity |].
      rewrite Rsum_update by lia.
      rewrite Rabs_left in Hle by assumption.
      split; [lra |]. split; [lra |].
      intros Hm Hc _.
      assert (0 <= avail).
      { unfold avail.
        replace ((nth i Tp 0 - T_min self) * lv * rho self * cp self)
          with ((nth i Tp 0 - T_min self) * (lv * rho self * cp self))
          by ring.
        apply Rmult_le_pos; [| lra].
        apply Rmult_le_pos; lra. }
      lra.
    + eexists _, _, _. split; [reflexivity |].
      rewrite !length_update. split; [reflexivity |].
      split; [reflexivity |].
      rewrite Rsum_update by lia.
      rewrite Rabs_left by assumption.
      split; [lra |]. split; lra.
  - eexists _, _, _. split; [reflexivity |].
    repeat split; auto; lra.
Qed.

Lemma Rltb_cases (a b : R) :
  (Rltb a b = true /\ a < b) \/ (Rltb a b = false /\ b <= a).
Proof.
  unfold Rltb. destruct (Rlt_dec a b); [left | right]; split; auto; lra.
Qed.

Lemma Rleb_cases (a b : R) :
  (Rleb a b = true /\ a <= b) \/ (Rleb a b = false /\ b < a).
Proof.
  unfold Rleb. destruct (Rle_dec a b); [left | right]; split; auto; lra.
Qed.

Lemma charge_layer_Fin (self : ThermalStorage) (lv : R) (Tp loss : list R)
    (i : nat) (T h : list R) (r : R) :
  Q_loss_layers self = map Fin loss ->
  (i < length h)%nat -> length T = length h -> length Tp = length h ->
  length loss = length h ->
  exists T' h' r',
    charge_layer self lv (map Fin Tp) i
      (mkLayerState (map Fin T) (map Fin h) (Fin r))
    = mkLayerState (map Fin T') (map Fin h') (Fin r')
    /\ length T' = length T /\ length h' = length h
    /\ Rsum h' + r' = Rsum h + r - nth i loss 0 / 3600
    /\ (r <= 0 -> r' = r)
    /\ (nth i Tp 0 <= T_max self -> 0 <= lv * rho self * cp self ->
        0 <= r -> 0 <= r' <= r).
Proof.
  intros HL Hi HT HTp Hloss. unfold charge_layer. rewrite HL.
  cbn [remaining_heat T_t heat_stored_per_layer fgt flt].
  rewrite !get_Fin by lia.
  cbn [fsub fmul fdiv lift2 fge fle fadd].
  set (mx := (T_max self - nth i Tp 0) * lv * rho self * cp self / 3600000).
  assert (Hmx : nth i Tp 0 <= T_max self -> 0 <= lv * rho self * cp self ->
                0 <= mx).
  { intros Hm Hc. unfold mx.
    replace ((T_max self - nth i Tp 0) * lv * rho self * cp self)
      with ((T_max self - nth i Tp 0) * (lv * rho self * cp self)) by ring.
    apply Rmult_le_pos; [| lra]. apply Rmult_le_pos; lra. }
  destruct (Rltb_cases 0 r) as [(E1 & Hpos) | (E1 & Hnp)]; rewrite E1;
    [destruct (Rleb_cases mx r) as [(E2 & Hle) | (E2 & Hgt)]; rewrite E2 |];
    cbn [T_t heat_stored_per_layer remaining_heat];
    rewrite ?update_Fin;
    rewrite ?get_Fin by (rewrite ?length_update; lia);
    cbn [fsub fmul fdiv lift2 fadd flt]; rewrite ?update_Fin;
    rewrite ?nth_update_eq by lia;
    rewrite ?update_update;
    match goal with
    | |- context [Rltb ?a ?b] =>
        destruct (Rltb_cases a b) as [(E3 & H3) | (E3 & H3)]; rewrite E3
    end;
    rewrite ?update_Fin;
    (eexists _, _, _; split; [reflexivity |]);
    rewrite ?length_update; (split; [reflexivity |]);
    (split; [reflexivity |]);
    rewrite ?Rsum_update by lia;
    (split; [lra |]); (split; [lra |]);
    intros Hm Hc Hr; specialize (Hmx Hm Hc); lra.
Qed.
Lemma discharge_fold_Fin (self : ThermalStorage) (lv : R) (Tp : list R)
    (idx : list nat) :
  forall (T h : list R) (r : R),
    length T = length h -> length Tp = length h ->
    (forall i, In i idx -> (i < length h)%nat) ->
    exists T' h' r',
      fold_left (fun st i => discharge_layer self lv (map Fin Tp) i st) idx
        (mkLayerState (map Fin T) (map Fin h) (Fin r))
      = mkLayerState (map Fin T') (map Fin h') (Fin r')
      /\ length T' = length T /\ length h' = length h
      /\ Rsum h' + r' = Rsum h + r
      /\ (0 <= r -> r' = r)
      /\ ((forall i, In i idx -> T_min self <= nth i Tp 0) ->
          0 <= lv * rho self * cp self -> r <= 0 -> r <= r' <= 0).
Proof.
  induction idx as [| i idx IH]; intros T h r HT HTp Hidx.
  - exists T, h, r. cbn [fold_left]. repeat split; auto; lra.
  - cbn [fold_left].
    destruct (discharge_layer_Fin self lv Tp i T h r)
      as (T1 & h1 & r1 & -> & HT1 & Hh1 & Hsum1 & Hpos1 & Hneg1);
      [apply Hidx; now left | assumption | assumption |].
    destruct (IH T1 h1 r1) as (T2 & h2 & r2 & Hf & HT2 & Hh2 & Hsum2 & Hpos2
                               & Hneg2); [lia | lia | |].
    { intros j Hj. rewrite Hh1. apply Hidx. now right. }
    exists T2, h2, r2. split; [exact Hf |].
    split; [lia |]. split; [lia |]. split; [lra |]. split.
    + intros Hr. rewrite Hpos2; rewrite Hpos1; auto.
    + intros Hm Hc Hr.
      destruct Hneg1 as (Ha & Hb); [apply Hm; now left | assumption
                                   | assumption |].
      destruct Hneg2 as (Hc2 & Hd); [intros j Hj; apply Hm; now right
                                    | assumption | assumption |].
      lra.
Qed.

Lemma charge_fold_Fin (self : ThermalStorage) (lv : R) (Tp loss : list R)
    (idx : list nat) :
  Q_loss_layers self = map Fin loss ->
  forall (T h : list R) (r : R),
    length T = length h -> length Tp = length h -> length loss = length h ->
    (forall i, In i idx -> (i < length h)%nat) ->
    exists T' h' r',
      fold_left (fun st i => charge_layer self lv (map Fin Tp) i st) idx
        (mkLayerState (map Fin T) (map Fin h) (Fin r))
      = mkLayerState (map Fin T') (map Fin h') (Fin r')
      /\ length T' = length T /\ length h' = length h
      /\ Rsum h' + r'
         = Rsum h + r - Rsum (map (fun i => nth i loss 0) idx) / 3600
      /\ (r <= 0 -> r' = r)
      /\ ((forall i, In i idx -> nth i Tp 0 <= T_max self) ->
          0 <= lv * rho self * cp self -> 0 <= r -> 0 <= r' <= r).
Proof.
  intros HL.
  induction idx as [| i idx IH]; intros T h r HT HTp Hloss Hidx.
  - exists T, h, r. cbn [fold_left map Rsum fold_right].
    repeat split; auto; lra.
  - cbn [fold_left].
    destruct (charge_layer_Fin self lv Tp loss i T h r HL)
      as (T1 & h1 & r1 & -> & HT1 & Hh1 & Hsum1 & Hneg1 & Hpos1);
      [apply Hidx; now left | assumption | assumption | assumption |].
    destruct (IH T1 h1 r1) as (T2 & h2 & r2 & Hf & HT2 & Hh2 & Hsum2 & Hneg2
                               & Hpos2); [lia | lia | lia | |].
    { intros j Hj. rewrite Hh1. apply Hidx. now right. }
    exists T2, h2, r2. split; [exact Hf |].
    split; [lia |]. split; [lia |]. split.
    + cbn [map Rsum fold_right].
      fold (Rsum (map (fun i0 => nth i0 loss 0) idx)). lra.
    + split.
      * intros Hr. rewrite Hneg2; rewrite Hneg1; auto.
      * intros Hm Hc Hr.
        destruct Hpos1 as (Ha & Hb); [apply Hm; now left | assumption
                                     | assumption |].
        destruct Hpos2 as (Hc2 & Hd); [intros j Hj; apply Hm; now right
                                      | assumption | assumption |].
        lra.
Qed.

Lemma map_nth_range (l : list R) :
  map (fun i => nth i l 0) (range (length l)) = l.
Proof.
  apply (nth_ext _ _ 0 0).
  - unfold range. now rewrite length_map, length_seq.
  - intros i Hi. unfold range in *. rewrite length_map, length_seq in Hi.
    rewrite (nth_indep _ 0 (nth 0 l 0))
      by (rewrite length_map, length_seq; lia).
    rewrite (map_nth (fun i => nth i l 0) (seq 0 (length l)) 0%nat i).
    rewrite seq_nth by lia. reflexivity.
Qed.

(** The three passes on layers that hold numbers: the result holds
    numbers, the energy balance, and the bounds of the heat left over. *)
Lemma passes_Fin (self : ThermalStorage) (lv lt k : R) (n : nat)
    (Tp Tc h loss : list R) (r : R) :
  length Tp = n -> length Tc = n -> length h = n -> length loss = n ->
  Q_loss_layers self = map Fin loss ->
  exists T' h' r',
    passes self n lv lt k (map Fin Tp)
      (mkLayerState (map Fin Tc) (map Fin h) (Fin r))
    = mkLayerState (map Fin T') (map Fin h') (Fin r')
    /\ length h' = n
    /\ Rsum h' + r' = Rsum h + r - Rsum loss / 3600
    /\ ((forall i, (i < n)%nat -> T_min self <= nth i Tp 0 <= T_max self) ->
        0 <= lv * rho self * cp self ->
        (r <= 0 -> r <= r' <= 0) /\ (0 <= r -> 0 <= r' <= r)).
Proof.
  intros HTp HTc Hh Hloss HL.
  assert (Hidx : forall m i, In i (range n) -> (length h = m)%nat ->
                             (i < m)%nat).
  { intros m i Hi <-. unfold range in Hi. apply in_seq in Hi. lia. }
  unfold passes, discharge_pass, charge_pass, diffusion_pass.
  destruct (discharge_fold_Fin self lv Tp (range n) Tc h r)
    as (T1 & h1 & r1 & -> & HT1 & Hh1 & Hsum1 & Hpos1 & Hneg1);
    [lia | lia | intros i Hi; now apply (Hidx (length h)) |].
  destruct (charge_fold_Fin self lv Tp loss (range n) HL T1 h1 r1)
    as (T2 & h2 & r2 & -> & HT2 & Hh2 & Hsum2 & Hneg2 & Hpos2);
    [lia | lia | lia | intros i Hi; apply (Hidx (length h1)); auto; lia |].
  destruct (diffusion_fold_Fin self lv lt k (Fin r2) (range (n - 1)) T2 h2)
    as (T3 & h3 & -> & Hh3 & Hsum3); [lia | |].
  { intros i Hi. unfold range in Hi. apply in_seq in Hi. lia. }
  exists T3, h3, r2. split; [reflexivity |].
  split; [lia |]. split.
  - rewrite <- Hloss, map_nth_range in Hsum2. lra.
  - intros Hb Hc.
    assert (Hlo : forall i, In i (range n) -> T_min self <= nth i Tp 0).
    { intros i Hi. apply Hb. unfold range in Hi. apply in_seq in Hi. lia. }
    assert (Hhi : forall i, In i (range n) -> nth i Tp 0 <= T_max self).
    { intros i Hi. apply Hb. unfold range in Hi. apply in_seq in Hi. lia. }
    split; intros Hr.
    + destruct (Hneg1 Hlo Hc Hr) as (Ha & Hb1).
      rewrite (Hneg2 Hb1). lra.
    + rewrite (Hpos1 Hr) in *.
      destruct (Hpos2 Hhi Hc Hr). lra.
Qed.
(** X22: The energy balance of one hour of the stratified simulator, on layers
    that hold numbers. The stored energy of the layers after the three passes,
    plus the heat that the passes neither stored nor drew, is the stored
    energy before the passes plus the net input of the hour, less the sum of
    the per-layer heat losses divided by 3600. *)
Theorem stratified_hour_energy_balance (self : ThermalStorage) (lv lt k : R)
    (n : nat) (Tp Tc h loss : list R) (r : R) :
  length Tp = n -> length Tc = n -> length h = n -> length loss = n ->
  Q_loss_layers self = map Fin loss ->
  exists T' h' r',
    passes self n lv lt k (map Fin Tp)
      (mkLayerState (map Fin Tc) (map Fin h) (Fin r))
    = mkLayerState (map Fin T') (map Fin h') (Fin r')
    /\ Rsum h' + r' = Rsum h + r - Rsum loss / 3600.
Proof.
  intros HTp HTc Hh Hloss HL.
  destruct (passes_Fin self lv lt k n Tp Tc h loss r HTp HTc Hh Hloss HL)
    as (T' & h' & r' & Hp & _ & Hsum & _).
  exists T', h', r'. auto.
Qed.

(** Three layers at 95, 60 and 40 degrees holding 900, 500 and 300 kWh,
    with losses of 1, 2 and 3 kW and a net input of 350 kWh. *)
Lemma stratified_hour_energy_balance_witness :
  exists T' h' r',
    passes (set_Q_loss_layers (map Fin [1; 2; 3]) cylinder_example) 3
      100 (25 / 3) (6 / 10) (map Fin [95; 60; 40])
      (mkLayerState (map Fin [95; 60; 40]) (map Fin [900; 500; 300])
         (Fin 350))
    = mkLayerState (map Fin T') (map Fin h') (Fin r')
    /\ Rsum h' + r' = Rsum [900; 500; 300] + 350 - Rsum [1; 2; 3] / 3600.
Proof.
  apply (stratified_hour_energy_balance
           (set_Q_loss_layers (map Fin [1; 2; 3]) cylinder_example)
           100 (25 / 3) (6 / 10) 3 [95; 60; 40] [95; 60; 40]
           [900; 500; 300] [1; 2; 3] 350); reflexivity.
Defined.

(** X23: The heat that the passes of one hour leave over, when the layer
    temperatures of the hour before are within [T_min, T_max] and
    [layer_volume * rho * cp] is not negative: it has the sign of the net
    input and is not larger in size, so the layers take up no more than the
    surplus and give no more than the deficit. *)
Theorem stratified_leftover_heat_bounded (self : ThermalStorage)
    (lv lt k : R) (n : nat) (Tp Tc h loss : list R) (r : R) :
  length Tp = n -> length Tc = n -> length h = n -> length loss = n ->
  Q_loss_layers self = map Fin loss ->
  (forall i, (i < n)%nat -> T_min self <= nth i Tp 0 <= T_max self) ->
  0 <= lv * rho self * cp self ->
  exists r',
    remaining_heat
      (passes self n lv lt k (map Fin Tp)
         (mkLayerState (map Fin Tc) (map Fin h) (Fin r)))
    = Fin r'
    /\ (r <= 0 -> r <= r' <= 0) /\ (0 <= r -> 0 <= r' <= r).
Proof.
  intros HTp HTc Hh Hloss HL Hb Hc.
  destruct (passes_Fin self lv lt k n Tp Tc h loss r HTp HTc Hh Hloss HL)
    as (T' & h' & r' & -> & _ & _ & Hbounds).
  exists r'. split; [reflexivity |]. now apply Hbounds.
Qed.

(** The same three layers with a net input of 350 kWh. *)
Lemma stratified_leftover_heat_bounded_witness :
  exists r',
    remaining_heat
      (passes (set_Q_loss_layers (map Fin [1; 2; 3]) cylinder_example) 3
         100 (25 / 3) (6 / 10) (map Fin [95; 60; 40])
         (mkLayerState (map Fin [95; 60; 40]) (map Fin [900; 500; 300])
            (Fin 350)))
    = Fin r'
    /\ (350 <= 0 -> 350 <= r' <= 0) /\ (0 <= 350 -> 0 <= r' <= 350).
Proof.
  apply (stratified_leftover_heat_bounded
           (set_Q_loss_layers (map Fin [1; 2; 3]) cylinder_example)
           100 (25 / 3) (6 / 10) 3 [95; 60; 40] [95; 60; 40]
           [900; 500; 300] [1; 2; 3] 350); try reflexivity.
  - intros [| [| [| i]]] Hi; simpl; try lra; lia.
  - simpl. lra.
Defined.

(** ** The temperatures that the discharge loop assigns *)

(** What the charge loop does to the layer [i] does not depend on the row
    it writes to. *)
Lemma charge_layer_row (self : ThermalStorage) (lv : R)
    (T_prev : list float) (i : nat) (h : list float) (r : float) :
  exists v h' r',
    forall T, (i < length T)%nat ->
              charge_layer self lv T_prev i (mkLayerState T h r)
              = mkLayerState (update T i v) h' r'.
Proof.
  unfold charge_layer.
  cbn [remaining_heat T_t heat_stored_per_layer].
  destruct (r >? 0)%fl.
  - destruct (r >=? _)%fl.
    + destruct (Fin (T_max self) <? T_min self)%fl eqn:E.
      * eexists _, _, _. intros T Hi.
        cbn [remaining_heat T_t heat_stored_per_layer].
        rewrite get_update_eq by assumption. rewrite E.
        rewrite update_update. reflexivity.
      * eexists _, _, _. intros T Hi.
        cbn [remaining_heat T_t heat_stored_per_layer].
        rewrite get_update_eq by assumption. rewrite E. reflexivity.
    + match goal with
      | |- context [update _ i ?v0] =>
          destruct (v0 <? T_min self)%fl eqn:E
      end.
      * eexists _, _, _. intros T Hi.
        cbn [remaining_heat T_t heat_stored_per_layer].
        rewrite get_update_eq by assumption. rewrite E.
        rewrite update_update. reflexivity.
      * eexists _, _, _. intros T Hi.
        cbn [remaining_heat T_t heat_stored_per_layer].
        rewrite get_update_eq by assumption. rewrite E. reflexivity.
  - destruct (get T_prev i <? T_min self)%fl eqn:E.
    + eexists _, _, _. intros T Hi.
      cbn [remaining_heat T_t heat_stored_per_layer].
      rewrite get_update_eq by assumption. rewrite E.
      rewrite update_update. reflexivity.
    + eexists _, _, _. intros T Hi.
      cbn [remaining_heat T_t heat_stored_per_layer].
      rewrite get_update_eq by assumption. rewrite E. reflexivity.
Qed.

Lemma charge_fold_rows (self : ThermalStorage) (lv : R) (T_prev : list float)
    (idx : list nat) :
  forall (Ta Tb h : list float) (r : float),
    length Ta = length Tb ->
    (forall i, In i idx -> (i < length Ta)%nat) ->
    exists Ta' Tb' h' r',
      fold_left (fun st i => charge_layer self lv T_prev i st) idx
        (mkLayerState Ta h r) = mkLayerState Ta' h' r'
      /\ fold_left (fun st i => charge_layer self lv T_prev i st) idx
           (mkLayerState Tb h r) = mkLayerState Tb' h' r'
      /\ length Ta' = length Ta /\ length Tb' = length Tb
      /\ forall j, In j idx \/ nth j Ta NaN = nth j Tb NaN ->
                   nth j Ta' NaN = nth j Tb' NaN.
Proof.
  induction idx as [| i idx IH]; intros Ta Tb h r Hl Hidx.
  - exists Ta, Tb, h, r. cbn [fold_left]. repeat split; auto.
    intros j [[] | H]; exact H.
  - cbn [fold_left].
    destruct (charge_layer_row self lv T_prev i h r) as (v & h1 & r1 & Hrow).
    assert (Hi : (i < length Ta)%nat) by (apply Hidx; now left).
    rewrite (Hrow Ta Hi), (Hrow Tb) by lia.
    destruct (IH (update Ta i v) (update Tb i v) h1 r1)
      as (Ta' & Tb' & h' & r' & Ha & Hb & Hla & Hlb & Hagree).
    { now rewrite !length_update. }
    { intros j Hj. rewrite length_update. apply Hidx. now right. }
    exists Ta', Tb', h', r'. rewrite !length_update in *.
    repeat split; auto.
    intros j Hj. apply Hagree.
    destruct (Nat.eq_dec j i) as [-> | Hne].
    + right. rewrite !nth_update_eq by lia. reflexivity.
    + destruct Hj as [[E | Hj] | Hj]; [congruence | now left |].
      right. rewrite !nth_update_neq by lia. exact Hj.
Qed.

Lemma discharge_fold_length (self : ThermalStorage) (lv : R)
    (T_prev : list float) (idx : list nat) :
  forall st,
    length (T_t (fold_left (fun st i => discharge_layer self lv T_prev i st)
                   idx st))
    = length (T_t st).
Proof.
  induction idx as [| i idx IH]; intros st; [reflexivity |].
  cbn [fold_left]. rewrite IH. unfold discharge_layer.
  destruct (remaining_heat st <? 0)%fl; [| reflexivity].
  destruct (_ >=? _)%fl; cbn [T_t]; apply length_update.
Qed.

(** X24: The layer temperatures that the discharge loop assigns are never
    read: the charge loop that follows writes every cell of the row anew, from
    the row of the hour before, so that it leaves the same state whether it
    starts from the row that the discharge loop left or from the row as it was
    before the discharge loop. Only the stored energies and the remaining
    demand of the discharge loop have an effect. *)
Theorem discharge_temperatures_overwritten (self : ThermalStorage) (lv : R)
    (T_prev : list float) (n : nat) (st0 : layer_state) :
  length (T_t st0) = n ->
  let st1 := discharge_pass self lv T_prev n st0 in
  charge_pass self lv T_prev n st1
  = charge_pass self lv T_prev n
      (mkLayerState (T_t st0) (heat_stored_per_layer st1)
         (remaining_heat st1)).
Proof.
  intros Hl st1.
  assert (Hl1 : length (T_t st1) = n).
  { unfold st1, discharge_pass. now rewrite discharge_fold_length. }
  unfold charge_pass.
  destruct (charge_fold_rows self lv T_prev (range n) (T_t st1) (T_t st0)
              (heat_stored_per_layer st1) (remaining_heat st1))
    as (Ta' & Tb' & h' & r' & Ha & Hb & Hla & Hlb & Hagree).
  { lia. }
  { intros i Hi. unfold range in Hi. apply in_seq in Hi. lia. }
  replace st1 with (mkLayerState (T_t st1) (heat_stored_per_layer st1)
                      (remaining_heat st1)) at 1 by (destruct st1; reflexivity).
  rewrite Ha, Hb. f_equal.
  apply (nth_ext _ _ NaN NaN); [lia |].
  intros j Hj. apply Hagree. left. unfold range. apply in_seq. lia.
Qed.

(** Two layers at 60 degrees with a demand of 100 kWh. *)
Lemma discharge_temperatures_overwritten_witness :
  let st0 := mkLayerState [Fin 60; Fin 60] [Fin 900; Fin 900] (Fin (-100)) in
  let st1 := discharge_pass cylinder_example 100 [Fin 60; Fin 60] 2 st0 in
  charge_pass cylinder_example 100 [Fin 60; Fin 60] 2 st1
  = charge_pass cylinder_example 100 [Fin 60; Fin 60] 2
      (mkLayerState (T_t st0) (heat_stored_per_layer st1)
         (remaining_heat st1)).
Proof.
  apply (discharge_temperatures_overwritten cylinder_example 100
           [Fin 60; Fin 60] 2
           (mkLayerState [Fin 60; Fin 60] [Fin 900; Fin 900] (Fin (-100)))).
  reflexivity.
Defined.

(** ** Operational costs of a plain cylinder *)

Lemma fold_left_fadd_NaN (a : list float) : fold_left fadd a NaN = NaN.
Proof. induction a as [| x a IH]; [reflexivity | exact IH]. Qed.

Lemma np_sum_NaN (a : list float) :
  (0 < length a)%nat -> nth 0 a NaN = NaN -> np_sum a = NaN.
Proof.
  destruct a as [| x a]; simpl; [lia |]. intros _ ->.
  unfold np_sum. cbn [fold_left fadd lift2]. apply fold_left_fadd_NaN.
Qed.

(** The arrays at the end of a stratified run from the constructor. *)
Lemma stratified_run_sized (p : Params.t) (Q_in Q_out : list R) (n : nat)
    (k : R) (heat : list float) (s : ThermalStorage) :
  run_stratified p Q_in Q_out n k = Ok (Return heat s) ->
  layers_sized s /\ hours s = Params.hours p /\ (0 < Params.hours p)%nat.
Proof.
  unfold run_stratified. intros Hrun.
  destruct (__init__ p) as [s0 | e] eqn:Hinit; [| discriminate].
  injection Hrun as Hrun.
  unfold simulate_stratified, simulate_stratified_steps, bind in Hrun.
  destruct (stratified_setup n s0) as [r s_a | e s_a] eqn:Hsetup;
    [| discriminate].
  destruct (init_layers_setup _ _ _ _ _ Hinit Hsetup)
    as (Hsz & Hh & Hsa & _ & _).
  destruct (init_arrays _ _ Hinit) as (_ & Hpos & Hhp & _).
  unfold range in Hrun.
  apply (for_each_invariant
           (stratified_step Q_in Q_out n (fst r) (snd r) k)
           (fun _ _ s1 => layers_sized s1 /\ attributes s1 = attributes s0)
           (hours s0)) with (m := hours s0) (k := 0%nat) (acc := np_zeros n)
                            (s := s_a) (acc' := heat) in Hrun;
    try lia.
  - destruct Hrun as (Hs & Ha). split; [exact Hs |].
    rewrite (hours_attributes _ _ Ha). split; lia.
  - intros. eapply stratified_inv_step; eauto.
  - split; [exact Hsz |]. rewrite Hsa. reflexivity.
Qed.

(** X25: The operational costs of a plain cylinder, for every energy price:
    [nan] after a run of the single-node simulator, whose heat loss is [nan]
    at every hour, and 0 after a run of the stratified simulator, whose heat
    loss is 0 at every hour. *)
Theorem cylinder_operational_costs (p : Params.t) (Q_in Q_out : list R)
    (n : nat) (k : R) (energy_price_per_kWh : R) :
  Params.storage_type p = "cylindrical"%string ->
  (forall s, run_single_node p Q_in Q_out = Ok (Return tt s) ->
             calculate_operational_costs s energy_price_per_kWh = NaN)
  /\ (forall heat s, run_stratified p Q_in Q_out n k = Ok (Return heat s) ->
                     calculate_operational_costs s energy_price_per_kWh
                     = Fin 0).
Proof.
  intros Hst. split.
  - unfold run_single_node. intros s Hrun.
    destruct (__init__ p) as [s0 | e] eqn:Hinit; [| discriminate].
    injection Hrun as Hrun.
    destruct (init_arrays _ _ Hinit) as (Hs & Hh & _ & Hst0 & _).
    destruct (simulate_trace Q_in Q_out s0 s Hs Hrun)
      as (Ha & (_ & HL & _) & Hok).
    destruct (Hok 0%nat Hh) as (loss & Hl & HL0 & _).
    rewrite calculate_heat_loss_cylindrical in Hl by congruence.
    injection Hl as <-.
    unfold calculate_operational_costs. cbv zeta.
    rewrite np_sum_NaN; [reflexivity | | exact HL0].
    rewrite HL, (hours_attributes _ _ Ha). exact Hh.
  - intros heat s Hrun.
    destruct (stratified_run_sized _ _ _ _ _ _ _ Hrun)
      as (((_ & HL & _) & _) & Hh & _).
    unfold calculate_operational_costs. cbv zeta.
    rewrite np_sum_zeros.
    + simpl. f_equal. ring.
    + intros t Ht.
      apply (cylinder_stratified_loss_cells p Q_in Q_out n k heat s);
        auto. lia.
Qed.

(** The example cylinder at 0.10 per kWh. *)
Lemma cylinder_operational_costs_witness :
  (exists s,
     run_single_node cylinder_params [450; 450] [100; 100] = Ok (Return tt s)
     /\ calculate_operational_costs s (1 / 10) = NaN)
  /\ (exists heat s,
        run_stratified cylinder_params [450; 450] [100; 100] 5 (6 / 10)
        = Ok (Return heat s)
        /\ calculate_operational_costs s (1 / 10) = Fin 0).
Proof.
  destruct (cylinder_operational_costs cylinder_params [450; 450] [100; 100]
              5 (6 / 10) (1 / 10) eq_refl) as (Hsingle & Hlayers).
  split.
  - destruct (simulate_cylindrical [450; 450] [100; 100] cylinder_example)
      as (s & Hrun & _); [reflexivity | | simpl; lia | simpl; lia |].
    { repeat split. }
    exists s. split.
    + unfold run_single_node. rewrite cylinder_example_constructed.
      now rewrite Hrun.
    + apply Hsingle. unfold run_single_node.
      rewrite cylinder_example_constructed. now rewrite Hrun.
  - destruct (run_stratified_returns cylinder_params cylinder_example
                [450; 450] [100; 100] 5 (6 / 10)) as (heat & s & Hrun);
      [reflexivity | lia | simpl; lia | simpl; lia |].
    exists heat, s. split; [exact Hrun | exact (Hlayers heat s Hrun)].
Defined.

(** ** Efficiency *)

Lemma calculate_efficiency_sized (s : ThermalStorage) (Q_in Q_out : list R) :
  (0 < length (Q_sto s))%nat ->
  calculate_efficiency s Q_in Q_out = Ok (Fin (Rsum Q_out / Rsum Q_in)).
Proof.
  intros Hl. unfold calculate_efficiency. cbv zeta.
  rewrite !np_sum_Fin.
  replace (-1)%Z with (Z.of_nat 0 - 1)%Z by reflexivity.
  rewrite (index_py_before (Q_sto s) 0 NaN) by assumption.
  change 0%Z with (Z.of_nat 0).
  rewrite (index_py_nat (Q_sto s) 0 NaN) by assumption.
  reflexivity.
Qed.

(** X26: The efficiency that [calculate_efficiency] reports is the sum of the
    outputs over the sum of the inputs and nothing else: for inputs whose sum
    is not zero it is the same on the object as the constructor built it,
    after a run of the single-node simulator and after a run of the stratified
    simulator. The change in stored energy that the method computes does not
    enter, and on these objects the method cannot raise, since the
    stored-energy array is never empty. *)
Theorem efficiency_ignores_the_run (p : Params.t) (Q_in Q_out : list R)
    (n : nat) (k : R) :
  Rsum Q_in <> 0 ->
  let efficiency := Ok (Fin (Rsum Q_out / Rsum Q_in)) in
  (forall s0, __init__ p = Ok s0 ->
              calculate_efficiency s0 Q_in Q_out = efficiency)
  /\ (forall s, run_single_node p Q_in Q_out = Ok (Return tt s) ->
                calculate_efficiency s Q_in Q_out = efficiency)
  /\ (forall heat s, run_stratified p Q_in Q_out n k = Ok (Return heat s) ->
                     calculate_efficiency s Q_in Q_out = efficiency).
Proof.
  intros _ efficiency. split; [| split].
  - intros s0 Hinit.
    destruct (init_arrays _ _ Hinit) as ((HQ & _) & Hh & _).
    apply calculate_efficiency_sized. lia.
  - unfold run_single_node. intros s Hrun.
    destruct (__init__ p) as [s0 | e] eqn:Hinit; [| discriminate].
    injection Hrun as Hrun.
    destruct (init_arrays _ _ Hinit) as (Hs & Hh & _).
    destruct (simulate_trace Q_in Q_out s0 s Hs Hrun) as (Ha & (HQ & _) & _).
    apply calculate_efficiency_sized.
    rewrite HQ, (hours_attributes _ _ Ha). exact Hh.
  - intros heat s Hrun.
    destruct (stratified_run_sized _ _ _ _ _ _ _ Hrun)
      as (((HQ & _) & _) & Hh & Hpos).
    apply calculate_efficiency_sized. lia.
Qed.

(** The example cylinder: the inputs sum to 900 and the outputs to 200. *)
Lemma efficiency_ignores_the_run_witness :
  calculate_efficiency cylinder_example [450; 450] [100; 100]
  = Ok (Fin (Rsum [100; 100] / Rsum [450; 450])).
Proof.
  refine (proj1 (efficiency_ignores_the_run cylinder_params [450; 450]
                   [100; 100] 5 (6 / 10) _) cylinder_example eq_refl).
  simpl. lra.
Defined.

(** ** The objective of the geometry optimisation *)

(** The object on which the objective runs the simulation: the new
    dimensions, read as those of a cylinder. *)
Lemma objective_object_sized (s0 : ThermalStorage) (dims : list R)
    (g : geometry) :
  arrays_sized s0 ->
  arrays_sized (set_geometry g (set_dimensions dims s0)).
Proof. intros H. destruct g as [[[v st] ss] sb]. exact H. Qed.

(** The first iteration of [simulate] on a pit with two dimensions: the
    heat loss reads [dimensions[2]]. *)
Lemma simulate_pit_two_dimensions (Q_in Q_out : list R) (s : ThermalStorage)
    (radius height : R) :
  is_pit s -> dimensions s = [radius; height] ->
  arrays_sized s -> (0 < hours s)%nat ->
  simulate Q_in Q_out s = Raise IndexError s.
Proof.
  intros Hp Hd Hs Hh. unfold simulate, range.
  destruct (hours s) as [| h] eqn:Eh; [lia |].
  cbn [seq for_each]. unfold bind.
  rewrite simulate_step_eq by (auto; lia).
  assert (Hloss : forall T, calculate_heat_loss s T = Err IndexError).
  { intros T. unfold calculate_heat_loss.
    destruct Hp as [Hp | Hp]; rewrite Hp, Hd; reflexivity. }
  now rewrite Hloss.
Qed.

(** X27: The function that [optimize_storage_geometry] hands to the minimiser
    never returns a value, whatever numpy's sum would do. On an object that
    the constructor built and for two dimensions, as the minimiser passes
    them: for a pit the heat loss of the first simulated hour reads a third
    dimension and raises IndexError; for a plain cylinder with inputs that
    cover the horizon the simulation returns [None], and iterating over it
    raises TypeError. *)
Theorem objective_function_never_returns
    (np_sum_list : list (option float) -> exception + float)
    (p : Params.t) (s0 : ThermalStorage) (Q_in Q_out : list R)
    (dimensions : list R) :
  __init__ p = Ok s0 ->
  (exists e s,
      objective_function np_sum_list Q_in Q_out dimensions s0 = Failed e s)
  /\ (forall radius height g,
         dimensions = [radius; height] ->
         calculate_cylindrical_geometry dimensions = Ok g ->
         (is_pit s0 ->
          objective_function np_sum_list Q_in Q_out dimensions s0
          = Failed (Builtin IndexError)
              (set_geometry g (set_dimensions dimensions s0)))
         /\ (storage_type s0 = "cylindrical"%string ->
             (Params.hours p <= length Q_in)%nat ->
             (Params.hours p <= length Q_out)%nat ->
             exists s,
               objective_function np_sum_list Q_in Q_out dimensions s0
               = Failed (TypeError "'NoneType' object is not iterable") s)).
Proof.
  intros Hinit.
  destruct (init_arrays _ _ Hinit) as (Hs & Hh & Hhp & _).
  split.
  - unfold objective_function.
    destruct (calculate_cylindrical_geometry dimensions) as [g | e];
      [| eauto].
    destruct (simulate Q_in Q_out _) as [[] s | e s]; cbn; eauto.
  - intros radius height g Hd Hg. unfold objective_function. rewrite Hg.
    pose proof (objective_object_sized s0 dimensions g Hs) as Hs1.
    split.
    + intros Hp.
      rewrite (simulate_pit_two_dimensions Q_in Q_out _ radius height);
        auto; destruct g as [[[v st] ss] sb]; auto.
    + intros Hst Hin Hout.
      destruct (simulate_prefix_returns Q_in Q_out
                  (set_geometry g (set_dimensions dimensions s0))
                  (hours s0)) as (s & Hrun & _).
      * exact Hs1.
      * destruct g as [[[v st] ss] sb]. cbn. lia.
      * intros T. exists None. apply calculate_heat_loss_cylindrical.
        destruct g as [[[v st] ss] sb]. exact Hst.
      * intros t Ht. lia.
      * unfold simulate, range.
        replace (hours (set_geometry g (set_dimensions dimensions s0)))
          with (hours s0) by (destruct g as [[[v st] ss] sb]; reflexivity).
        rewrite Hrun. cbn. eauto.
Qed.

(** The example cylinder at the initial guess of the minimiser, with a
    sum that would return 0. *)
Lemma objective_function_never_returns_witness :
  exists s,
    objective_function (fun _ => inr (Fin 0)) [450; 450] [100; 100]
      initial_guess cylinder_example
    = Failed (TypeError "'NoneType' object is not iterable") s.
Proof.
  destruct (objective_function_never_returns (fun _ => inr (Fin 0))
              cylinder_params cylinder_example [450; 450] [100; 100]
              initial_guess eq_refl) as (_ & H).
  destruct (H 10 12 _ eq_refl eq_refl) as (_ & Hc).
  apply Hc; [reflexivity | simpl; lia | simpl; lia].
Defined.

(** ** The 3D plot *)

(** X28: The [else] of [plot_3d_temperature_distribution] belongs to the test
    for the truncated trapezoid alone, so the call raises for every other
    storage type, the plain cylinder and the truncated cone included: it never
    returns, and when the drawing of the cylinder or of the cone has returned
    it raises the ValueError for an unsupported storage type. *)
Theorem plot_3d_raises_unless_trapezoid (axes : Type)
    (draw_cylinder draw_truncated_cone draw_truncated_trapezoid
       : ThermalStorage -> Z -> axes -> result axes)
    (set_labels : Z -> axes -> result axes)
    (add_colorbar : ThermalStorage -> axes -> result axes)
    (self : ThermalStorage) (flags : plot_flags) (ax : axes) (time_step : Z) :
  storage_type self <> "truncated_trapezoid"%string ->
  let plot :=
    plot_3d_temperature_distribution axes draw_cylinder draw_truncated_cone
      draw_truncated_trapezoid set_labels add_colorbar self flags ax
      time_step in
  (exists e, plot = Err e)
  /\ (forall ax1 ax2,
         (if str_eq (storage_type self) "cylindrical"
          then draw_cylinder self time_step ax else Ok ax) = Ok ax1 ->
         (if str_eq (storage_type self) "truncated_cone"
          then draw_truncated_cone self time_step ax1 else Ok ax1) = Ok ax2 ->
         plot = Err (ValueError "Unsupported storage type for 3D plot")).
Proof.
  intros Hst plot. apply str_eq_false in Hst.
  unfold plot, plot_3d_temperature_distribution. split.
  - destruct (if str_eq (storage_type self) "cylindrical" then _ else _)
      as [ax1 | e]; [| cbn; eauto].
    cbn [rbind].
    destruct (if str_eq (storage_type self) "truncated_cone" then _ else _)
      as [ax2 | e]; [| cbn; eauto].
    cbn [rbind]. rewrite Hst. cbn. eauto.
  - intros ax1 ax2 H1 H2. rewrite H1. cbn [rbind]. rewrite H2. cbn [rbind].
    rewrite Hst. reflexivity.
Qed.

(** The example cylinder, with drawings that return. *)
Lemma plot_3d_raises_unless_trapezoid_witness :
  plot_3d_temperature_distribution unit
    (fun _ _ ax => Ok ax) (fun _ _ ax => Ok ax) (fun _ _ ax => Ok ax)
    (fun _ ax => Ok ax) (fun _ ax => Ok ax)
    cylinder_example (mkPlotFlags false false) tt 0
  = Err (ValueError "Unsupported storage type for 3D plot").
Proof.
  refine (proj2 (plot_3d_raises_unless_trapezoid unit
                   (fun _ _ ax => Ok ax) (fun _ _ ax => Ok ax)
                   (fun _ _ ax => Ok ax) (fun _ ax => Ok ax)
                   (fun _ ax => Ok ax) cylinder_example
                   (mkPlotFlags false false) tt 0 _) tt tt eq_refl eq_refl).
  discriminate.
Defined.

(** ** The dimensions of a truncated trapezoid *)

(** X29: The five dimensions of a truncated trapezoid are read in two ways.
    The geometry takes them as top length, top width, bottom length, bottom
    width and height. The lumped heat loss takes [dimensions[2]], the bottom
    length, as the height [H] of its coefficients and [dimensions[1]], the top
    width, as the length of the bottom coefficient; the stratified simulator
    takes [dimensions[2]] as the height from which it computes the layer
    thickness. *)
Theorem trapezoid_dimension_roles (p : Params.t) (s0 : ThermalStorage)
    (tl tw bl bw h : R) (n : nat) :
  __init__ p = Ok s0 ->
  Params.storage_type p = "truncated_trapezoid"%string ->
  Params.dimensions p = [tl; tw; bl; bw; h] -> n <> 0%nat ->
  volume s0
  = 1 / 3 * h * (tl * tw + bl * bw + sqrt (tl * tw * (bl * bw)))
  /\ S_top s0 = tl * tw /\ S_bottom s0 = bl * bw
  /\ (forall T : R,
         calculate_heat_loss s0 (Fin T)
         = Ok (Some (Fin (((T - T_soil s0) * K_side s0 bl * S_side s0
                           + (T - T_soil s0) * K_bottom s0 bl tw
                             * S_bottom s0) / 1000))))
  /\ exists s_a,
       stratified_setup n s0
       = Return (volume s0 / INR n, bl / INR n) s_a.
Proof.
  intros Hinit Hst Hd Hn.
  destruct (init_inv _ _ Hinit) as (_ & Hg & Hs0).
  assert (Hst0 : storage_type s0 = "truncated_trapezoid"%string)
    by (rewrite Hs0; exact Hst).
  assert (Hd0 : dimensions s0 = [tl; tw; bl; bw; h])
    by (rewrite Hs0; exact Hd).
  rewrite Hst, Hd in Hg.
  cbn [compute_geometry str_eq String.eqb Ascii.eqb Bool.eqb
       calculate_truncated_trapezoid_geometry] in Hg.
  injection Hg as Hv Ht Hsd Hb.
  split; [now rewrite <- Hv |]. split; [now rewrite <- Ht |].
  split; [now rewrite <- Hb |]. split.
  - intros T.
    rewrite (calculate_heat_loss_pit s0 _ bl tw);
      [reflexivity | now right | rewrite Hd0; reflexivity
      | rewrite Hd0; reflexivity].
  - destruct (stratified_setup_constructed p s0 n Hinit Hn) as (r & Hsetup).
    eexists. rewrite Hsetup. f_equal.
    destruct (stratified_setup_state _ _ _ _ Hsetup) as (T_0 & _ & _ & _ & Hlv).
    destruct r as (lv, lt). cbn [fst] in Hlv. subst lv. f_equal.
    revert Hsetup. unfold stratified_setup, bind, read, raise, ret, modify,
      getitem, lift_result.
    rewrite Hst0, Hd0.
    cbn [str_eq String.eqb Ascii.eqb Bool.eqb index nth_error].
    destruct (Nat.eqb_spec n 0); [contradiction |].
    destruct (index_py (T_sto s0) 0); [| discriminate].
    intros H. now injection H.
Qed.

(** The trapezoid of the repository's example, whose height is 15 m and
    whose bottom length is 50 m, with five layers. *)
Lemma trapezoid_dimension_roles_witness :
  exists s0,
    __init__ (trapezoid_params 10 40 60 2) = Ok s0
    /\ volume s0
       = 1 / 3 * 15 * (20 * 20 + 50 * 50 + sqrt (20 * 20 * (50 * 50)))
    /\ S_top s0 = 20 * 20 /\ S_bottom s0 = 50 * 50
    /\ (forall T : R,
           calculate_heat_loss s0 (Fin T)
           = Ok (Some (Fin (((T - T_soil s0) * K_side s0 50 * S_side s0
                             + (T - T_soil s0) * K_bottom s0 50 20
                               * S_bottom s0) / 1000))))
    /\ exists s_a,
         stratified_setup 5 s0 = Return (volume s0 / INR 5, 50 / INR 5) s_a.
Proof.
  destruct (init_trapezoid_params 10 40 60 2) as (s0 & Hinit & _); [lia |].
  exists s0. split; [exact Hinit |].
  apply (trapezoid_dimension_roles (trapezoid_params 10 40 60 2) s0
           20 20 50 50 15 5 Hinit); [reflexivity | reflexivity | lia].
Defined.

(** ** The layer arguments of the constructor *)

Section Oblivious.
(** a change of the object *)
Variable f : ThermalStorage -> ThermalStorage.

Lemma oblivious_ret {A : Type} (a : A) : oblivious f (ret a).
Proof. intros s. reflexivity. Qed.

Lemma oblivious_raise {A : Type} (e : exn) : oblivious f (@raise A e).
Proof. intros s. reflexivity. Qed.

Lemma oblivious_bind {A B : Type} (m : M A) (g : A -> M B) :
  oblivious f m -> (forall a, oblivious f (g a)) -> oblivious f (bind m g).
Proof.
  intros Hm Hg s. unfold bind. rewrite Hm.
  destruct (m s) as [a s1 | e s1]; cbn [outcome_map]; [apply Hg | reflexivity].
Qed.

Lemma oblivious_lift_result {A : Type} (r : result A) :
  oblivious f (lift_result r).
Proof. intros s. destruct r; reflexivity. Qed.

Lemma oblivious_getitem {A : Type} (field : ThermalStorage -> list A)
    (i : Z) :
  (forall s, field (f s) = field s) -> oblivious f (getitem field i).
Proof.
  intros Hf s. unfold getitem, lift_result. rewrite Hf.
  destruct (index_py (field s) i); reflexivity.
Qed.

Lemma oblivious_setitem {A : Type} (field : ThermalStorage -> list A)
    (set_field : list A -> ThermalStorage -> ThermalStorage) (i : nat)
    (v : A) :
  (forall s, field (f s) = field s) ->
  (forall a s, set_field a (f s) = f (set_field a s)) ->
  oblivious f (setitem field set_field i v).
Proof.
  intros Hf Hs s. unfold setitem. rewrite Hf.
  destruct (store (field s) i v); cbn [outcome_map]; [| reflexivity].
  now rewrite Hs.
Qed.

(** [self <- read ;; g self], when [g] uses no attribute that changes. *)
Lemma oblivious_read_self {A : Type} (g : ThermalStorage -> M A) :
  (forall s0, oblivious f (g s0)) ->
  (forall s0 s, g (f s0) s = g s0 s) ->
  oblivious f (bind (read (fun s => s)) g).
Proof.
  intros Hg Hsame s. unfold bind, read. rewrite Hsame. apply Hg.
Qed.

Lemma oblivious_for_each {S : Type} (body : nat -> S -> M S)
    (ts : list nat) :
  (forall t acc, oblivious f (body t acc)) ->
  forall acc, oblivious f (for_each body ts acc).
Proof.
  intros Hb. induction ts as [| t ts IH]; intros acc.
  - apply oblivious_ret.
  - cbn [for_each]. apply oblivious_bind; [apply Hb | intros a; apply IH].
Qed.
End Oblivious.

(** One statement of a method body. *)
Ltac oblivious_step :=
  first
    [ apply oblivious_ret
    | apply oblivious_raise
    | apply oblivious_lift_result
    | apply oblivious_getitem; intros; reflexivity
    | apply oblivious_setitem; intros; reflexivity
    | apply oblivious_read_self; [intros ? | intros ? ?; reflexivity]
    | apply oblivious_bind; [| intros ?] ].

Section LayerAttributes.
Variable m : nat.
Variable c : R.

Lemma oblivious_simulate_step (Q_in Q_out : list R) (t : nat) :
  oblivious (with_layer_attributes m c) (simulate_step Q_in Q_out t).
Proof.
  unfold simulate_step.
  apply oblivious_bind; [oblivious_step | intros T_last].
  apply oblivious_bind.
  { intros s. unfold lift_result.
    change (calculate_heat_loss (with_layer_attributes m c s) T_last)
      with (calculate_heat_loss s T_last).
    destruct (calculate_heat_loss s T_last); reflexivity. }
  intros loss.
  apply oblivious_bind; [oblivious_step | intros _].
  apply oblivious_bind.
  { destruct (t =? 0)%nat; repeat oblivious_step. }
  intros _.
  apply oblivious_read_self; [intros self | intros ? ?; reflexivity].
  apply oblivious_bind; [oblivious_step | intros T_t].
  destruct (T_t >? T_max self)%fl; [oblivious_step |].
  destruct (T_t <? T_min self)%fl; oblivious_step.
Qed.

Lemma oblivious_simulate (Q_in Q_out : list R) :
  oblivious (with_layer_attributes m c) (simulate Q_in Q_out).
Proof.
  intros s. unfold simulate.
  change (hours (with_layer_attributes m c s)) with (hours s).
  apply oblivious_for_each. intros t acc. apply oblivious_simulate_step.
Qed.

Lemma oblivious_loss_loop (n : nat) (layers : list float) :
  forall i,
    oblivious (with_layer_attributes m c) (stratified_loss_loop n i layers).
Proof.
  induction layers as [| T rest IH]; intros i; cbn [stratified_loss_loop].
  - apply oblivious_ret.
  - apply oblivious_bind.
    { intros s. unfold lift_result.
      change (stratified_layer_loss (with_layer_attributes m c s) n i T)
        with (stratified_layer_loss s n i T).
      destruct (stratified_layer_loss s n i T); reflexivity. }
    intros v. apply oblivious_bind; [| intros _; apply IH].
    destruct v; oblivious_step.
Qed.

Lemma oblivious_stratified_loss (layers : list float) :
  oblivious (with_layer_attributes m c)
    (calculate_stratified_heat_loss layers).
Proof.
  unfold calculate_stratified_heat_loss.
  apply oblivious_bind; [intros s; reflexivity | intros _].
  apply oblivious_bind; [apply oblivious_loss_loop | intros _].
  intros s. reflexivity.
Qed.

Lemma oblivious_stratified_step (Q_in Q_out : list R) (n : nat)
    (lv lt k : R) (t : nat) (heat : list float) :
  oblivious (with_layer_attributes m c)
    (stratified_step Q_in Q_out n lv lt k t heat).
Proof.
  unfold stratified_step.
  apply oblivious_bind; [oblivious_step | intros T_prev].
  apply oblivious_bind; [apply oblivious_stratified_loss | intros loss].
  apply oblivious_bind; [oblivious_step | intros _].
  apply oblivious_bind; [oblivious_step | intros q_in].
  apply oblivious_bind; [oblivious_step | intros q_out].
  cbv zeta.
  apply oblivious_bind.
  { destruct (t =? 0)%nat; repeat oblivious_step. }
  intros heat'.
  repeat oblivious_step.
Qed.

Lemma oblivious_stratified_setup (n : nat) :
  oblivious (with_layer_attributes m c) (stratified_setup n).
Proof.
  unfold stratified_setup.
  apply oblivious_read_self; [intros self | intros ? ?; reflexivity].
  apply oblivious_bind.
  { destruct (str_eq (storage_type self) "cylindrical"); [oblivious_step |].
    destruct (str_eq (storage_type self) "truncated_cone");
      [oblivious_step |].
    destruct (str_eq (storage_type self) "truncated_trapezoid");
      oblivious_step. }
  intros height.
  apply oblivious_bind; [destruct (n =? 0)%nat; oblivious_step | intros _].
  cbv zeta.
  apply oblivious_bind; [oblivious_step | intros T_0].
  apply oblivious_bind; [intros s; reflexivity | intros _].
  oblivious_step.
Qed.

Lemma oblivious_simulate_stratified (Q_in Q_out : list R) (n : nat) (k : R) :
  oblivious (with_layer_attributes m c) (simulate_stratified Q_in Q_out n k).
Proof.
  intros s. unfold simulate_stratified.
  change (hours (with_layer_attributes m c s)) with (hours s).
  unfold simulate_stratified_steps.
  apply oblivious_bind; [apply oblivious_stratified_setup | intros r].
  apply oblivious_for_each. intros t acc. apply oblivious_stratified_step.
Qed.

Lemma init_with_layer_arguments (p : Params.t) :
  __init__ (with_layer_arguments m c p)
  = result_map (with_layer_attributes m c) (__init__ p).
Proof.
  unfold __init__, with_layer_arguments.
  cbn [Params.hours Params.storage_type Params.dimensions].
  destruct (np_zeros (Params.hours p)); [reflexivity |].
  destruct (compute_geometry _ _) as [[[[v st] ss] sb] | e]; reflexivity.
Qed.
End LayerAttributes.

(** X30: The arguments [num_layers] and [thermal_conductivity] of the
    constructor are stored in the object and used by neither simulator: the
    stratified simulator takes the number of layers and the conductivity as
    arguments of its own. A run from the constructor with other values of the
    two gives the same outcome, the same exception or the same arrays, in an
    object that differs in these two attributes only. *)
Theorem constructor_layer_arguments_unused (p : Params.t) (m : nat) (c : R)
    (Q_in Q_out : list R) (n : nat) (k : R) :
  run_single_node (with_layer_arguments m c p) Q_in Q_out
  = result_map (outcome_map (with_layer_attributes m c))
      (run_single_node p Q_in Q_out)
  /\ run_stratified (with_layer_arguments m c p) Q_in Q_out n k
     = result_map (outcome_map (with_layer_attributes m c))
         (run_stratified p Q_in Q_out n k).
Proof.
  unfold run_single_node, run_stratified.
  rewrite init_with_layer_arguments.
  destruct (__init__ p) as [s0 | e]; cbn [result_map]; [| auto].
  split; f_equal.
  - apply oblivious_simulate.
  - apply oblivious_simulate_stratified.
Qed.
